(** * Advanced_Calculator: the formula pipeline of [ComputeFormula.py]

    A shallow embedding of [src/ComputeFormula.py] and of the command-line
    front end of [src/main.py], the properties of [compute_formula] that the
    specification states, and further properties of the functions of both
    files.

    Conventions of the embedding.

    - A Python [str] is a [string]; a character is an [ascii], read as the
      code point of the same number (the code points 0..255).
    - A Python exception is a value of [exn]: the class an [except] clause
      tests and the message [str(e)] returns.  A call that may raise returns
      a [result].
    - A Python number is a [pynum]: [int] is [Z], [float] is an IEEE 754
      binary64 value in the representation of [SpecFloat].
    - The parts of the Python runtime the module calls and that have no
      exact counterpart here (the transcendental functions of [math], the
      decimal printing and reading of floats, [re] and [ast.parse] outside
      the fragments embedded below) are the fields of a record [PyLib]; every
      theorem holds for every value of that record.
    - The interpreter is taken to have stack and memory enough: recursion
      depth and memory are not modelled. *)

From Stdlib Require Import ZArith List String Ascii Bool Lia.
From Stdlib Require Import DecimalString.
From Stdlib Require DecimalFacts DecimalPos.
From Stdlib Require Import SpecFloat.
Import ListNotations.

#[local] Set Warnings "-register-all,-notation-for-abbreviation".

Local Open Scope string_scope.
Local Open Scope Z_scope.

(** ** Exceptions and results *)

Inductive exc_class : Type :=
| ValueError
| NameError
| ZeroDivisionError
| TypeError
| AttributeError
| SyntaxError
| OverflowError
| OtherException (name : string).

Record exn : Type := mk_exn { exn_class : exc_class; exn_msg : string }.

Inductive result (A : Type) : Type :=
| Ok (a : A)
| Raise (e : exn).

Arguments Ok {A} a.
Arguments Raise {A} e.

Definition bind {A B : Type} (r : result A) (k : A -> result B) : result B :=
  match r with
  | Ok a => k a
  | Raise e => Raise e
  end.

Notation "x <- r ;; k" := (bind r (fun x => k))
  (at level 61, r at next level, right associativity).

Definition raise {A : Type} (c : exc_class) (msg : string) : result A :=
  Raise (mk_exn c msg).

(** ** Characters and strings *)

Module Str.

Definition code (c : ascii) : N := N_of_ascii c.

Definition in_range (lo hi c : ascii) : bool :=
  (code lo <=? code c)%N && (code c <=? code hi)%N.

Definition is_digit (c : ascii) : bool := in_range "0" "9" c.
Definition is_lower (c : ascii) : bool := in_range "a" "z" c.
Definition is_upper (c : ascii) : bool := in_range "A" "Z" c.
Definition is_alpha (c : ascii) : bool := is_lower c || is_upper c.

(** The characters for which Python's [str.isspace] holds, and that the
    class [\s] of a [str] pattern matches, among the code points 0..255:
    TAB LF VT FF CR, FS GS RS US, SPACE, NEL and NBSP. *)
Definition is_space (c : ascii) : bool :=
  let n := code c in
  ((9 <=? n) && (n <=? 13) || (28 <=? n) && (n <=? 32)
   || (n =? 133) || (n =? 160))%N.

Definition newline : ascii := ascii_of_N 10.

(** Every character of [s] is whitespace. *)
Fixpoint all_space (s : string) : bool :=
  match s with
  | EmptyString => true
  | String c r => is_space c && all_space r
  end.

(** [s.isspace()]: at least one character, and all of them whitespace. *)
Definition isspace (s : string) : bool :=
  match s with
  | EmptyString => false
  | String _ _ => all_space s
  end.

(** [c.lower()] and [s.lower()] on the code points 0..255. *)
Definition lower_char (c : ascii) : ascii :=
  let n := code c in
  if ((65 <=? n) && (n <=? 90)
      || (192 <=? n) && (n <=? 222) && negb (n =? 215))%N
  then ascii_of_N (n + 32) else c.

Fixpoint lower (s : string) : string :=
  match s with
  | EmptyString => EmptyString
  | String c r => String (lower_char c) (lower r)
  end.

Fixpoint startswith (p s : string) : bool :=
  match p, s with
  | EmptyString, _ => true
  | String a p', String b s' => Ascii.eqb a b && startswith p' s'
  | String _ _, EmptyString => false
  end.

(** [sub in s]. *)
Fixpoint contains (sub s : string) : bool :=
  startswith sub s
  || match s with
     | EmptyString => false
     | String _ r => contains sub r
     end.

(** [s.find(sub)]: the least index at which [sub] occurs, or -1. *)
Fixpoint find_from (i : Z) (sub s : string) : Z :=
  if startswith sub s then i
  else match s with
       | EmptyString => -1
       | String _ r => find_from (i + 1) sub r
       end.

Definition find (s sub : string) : Z := find_from 0 sub s.

Fixpoint take (n : nat) (s : string) : string :=
  match n, s with
  | S n', String c r => String c (take n' r)
  | _, _ => EmptyString
  end.

Fixpoint drop (n : nat) (s : string) : string :=
  match n, s with
  | S n', String _ r => drop n' r
  | _, _ => s
  end.

(** A slice bound as Python resolves it: a negative index counts from the
    end, and the result is clamped to [0, len s]. *)
Definition slice_index (s : string) (i : Z) : nat :=
  let n := Z.of_nat (String.length s) in
  let j := if i <? 0 then n + i else i in
  Z.to_nat (Z.min n (Z.max 0 j)).

(** [s[:i]] and [s[i:]]. *)
Definition slice_to (s : string) (i : Z) : string := take (slice_index s i) s.
Definition slice_from (s : string) (i : Z) : string := drop (slice_index s i) s.

(** [''.join(l)]. *)
Definition join (l : list string) : string := String.concat "" l.

(** [s.replace(old, new)] for a non-empty [old]: the occurrences are taken
    from left to right and do not overlap.  [skip] counts the characters of
    the occurrence just replaced that are still to be passed over. *)
Fixpoint replace_scan (old new : string) (skip : nat) (s : string) : string :=
  match s with
  | EmptyString => EmptyString
  | String c r =>
      match skip with
      | S k => replace_scan old new k r
      | O =>
          if startswith old s
          then new ++ replace_scan old new (String.length old - 1) r
          else String c (replace_scan old new O r)
      end
  end.

(** [s.replace('', new)] puts [new] before every character and at the end. *)
Fixpoint intersperse (new s : string) : string :=
  match s with
  | EmptyString => new
  | String c r => new ++ String c (intersperse new r)
  end.

Definition replace (s old new : string) : string :=
  match old with
  | EmptyString => intersperse new s
  | String _ _ => replace_scan old new O s
  end.

(** [str(n)] for an [int]. *)
Definition of_Z (z : Z) : string := NilZero.string_of_int (Z.to_int z).

Fixpoint forallb (p : ascii -> bool) (s : string) : bool :=
  match s with
  | EmptyString => true
  | String c r => p c && forallb p r
  end.

Fixpoint existsb (p : ascii -> bool) (s : string) : bool :=
  match s with
  | EmptyString => false
  | String c r => p c || existsb p r
  end.

Fixpoint count (a : ascii) (s : string) : nat :=
  match s with
  | EmptyString => O
  | String c r => ((if Ascii.eqb c a then 1 else 0) + count a r)%nat
  end.

End Str.

(** ** Numbers *)

(** binary64 *)
Definition prec : Z := 53.
Definition emax : Z := 1024.

Definition float : Type := spec_float.

Inductive pynum : Type :=
| PyInt (z : Z)
| PyBool (b : bool)
| PyFloat (f : float)
| PyComplex (re im : float).

(** The values a caller can bind a name to: a number, [None], a [str], or
    any other object (of which only [str(value)] is ever used). *)
Inductive pyobj : Type :=
| PyNum (n : pynum)
| PyNone
| PyStr (s : string)
| PyOther (shown : string).

(** What [compute_formula] returns: a number or a message. *)
Inductive output : Type :=
| Number (n : pynum)
| Text (s : string).

(** ** [is_word], [is_number], [check_parentheses] *)

(** [re.match(r'^[a-zA-Z]+$', word)]: one or more ASCII letters up to the
    end of the string, where [$] also matches just before a final newline. *)
Fixpoint letters_then_end (s : string) : bool :=
  match s with
  | EmptyString => true
  | String c r =>
      if Str.is_alpha c then letters_then_end r
      else Ascii.eqb c Str.newline && match r with EmptyString => true | _ => false end
  end.

Definition is_word (word : string) : bool :=
  match word with
  | EmptyString => false
  | String c _ => Str.is_alpha c && letters_then_end word
  end.

(** [isinstance(value, (int, float))]; [bool] is a subclass of [int]. *)
Definition is_number (value : pyobj) : bool :=
  match value with
  | PyNum (PyInt _) | PyNum (PyBool _) | PyNum (PyFloat _) => true
  | _ => false
  end.

Fixpoint check_parentheses_from (stack : list ascii) (s : string) : bool :=
  match s with
  | EmptyString => Nat.eqb (List.length stack) 0
  | String char r =>
      if Ascii.eqb char "("
      then check_parentheses_from (char :: stack) r
      else if Ascii.eqb char ")"
      then match stack with
           | [] => false
           | top :: stack' =>
               if Ascii.eqb top "(" then check_parentheses_from stack' r
               else false
           end
      else check_parentheses_from stack r
  end.

Definition check_parentheses (formula_string : string) : bool :=
  check_parentheses_from [] formula_string.

(** ** The syntax trees of [ast]

    The node classes [_eval_node] tells apart.  [Call] keeps the positional
    arguments only: the evaluator never reads [node.keywords].  A node of any
    other class is an [OtherNode] with the name of its class. *)

Inductive operator : Type :=
| Add | Sub | Mult | Div | Pow
| OtherOperator (name : string).

Inductive unaryop : Type :=
| USub | UAdd
| OtherUnaryOp (name : string).

(** The value of an [ast.Constant]: a number, or any other constant
    ([None], [...], a string) with the text of [type(value)]. *)
Inductive constant : Type :=
| CNum (n : pynum)
| COther (type_text : string).

Inductive expr : Type :=
| Constant (value : constant)
| BinOp (left : expr) (op : operator) (right : expr)
| UnaryOp (op : unaryop) (operand : expr)
| Call (func : expr) (args : list expr)
| Attribute (value : expr) (attr : string)
| Name (id : string)
| OtherNode (type_name : string).

(** ** The Python runtime outside the embedded fragments *)

Record PyLib : Type := {
  (** [bool(re.compile(pattern).findall(subject))] for a pattern that is not
      of the shape [re_compile] reads; [None] when the pattern does not
      compile. *)
  re_findall_ext : string -> string -> option bool;
  (** [str(e)] of the [re.error] raised when a pattern does not compile. *)
  re_error_str : string -> string;
  (** [ast.parse(source, mode='eval').body] for a source outside the
      fragment [parse_fragment] reads. *)
  ast_parse_ext : string -> result expr;
  (** [str(e)] of the [SyntaxError] raised for a rejected source. *)
  syntax_error_str : string -> string;
  (** [sys.get_int_max_str_digits()], the bound on the digits of an integer
      that is converted to a [str]: 0 when there is none, otherwise 640 or
      more; and [str(e)] of the [ValueError] raised beyond it. *)
  int_max_str_digits : nat;
  int_limit_str : string;
  (** [str(x)] for a float and for a complex number. *)
  float_str : float -> string;
  complex_str : float -> float -> string;
  (** the value of a float literal *)
  float_of_literal : string -> float;
  (** [operator.<op>(a, b)] where the result is not exact integer or
      correctly rounded binary64 arithmetic on real operands. *)
  operator_ext : operator -> pynum -> pynum -> result pynum;
  (** the quotient of two complex numbers, the second not zero *)
  complex_quot : float * float -> float * float -> float * float;
  (** [math.<name>] applied to [args], for the functions and arguments
      that [call_exact] does not cover. *)
  math_ext : string -> list pynum -> result pynum
}.

(** ** Arithmetic: [operator] and [math] on Python numbers *)

Module Num.

Definition zero : float := S754_zero false.

Definition is_nan (f : float) : bool :=
  match f with S754_nan => true | _ => false end.

Definition is_inf (f : float) : bool :=
  match f with S754_infinity _ => true | _ => false end.

Definition is_zero (f : float) : bool :=
  match f with S754_zero _ => true | _ => false end.

Definition is_finite (f : float) : bool :=
  match f with S754_zero _ | S754_finite _ _ _ => true | _ => false end.

(** The nearest binary64 value to an integer (ties to even); infinite
    when the integer is beyond the range. *)
Definition of_Z (z : Z) : float := binary_normalize prec emax z 0 false.

(** The conversion of an [int] operand to a float, which raises
    [OverflowError] when the integer is out of range. *)
Definition int_to_float (z : Z) : result float :=
  let f := of_Z z in
  if is_inf f then raise OverflowError "int too large to convert to float"
  else Ok f.

(** A real operand: [bool] counts as the integer 0 or 1. *)
Inductive real : Type :=
| RInt (z : Z)
| RFloat (f : float).

Definition as_real (n : pynum) : option real :=
  match n with
  | PyInt z => Some (RInt z)
  | PyBool b => Some (RInt (Z.b2z b))
  | PyFloat f => Some (RFloat f)
  | PyComplex _ _ => None
  end.

Definition to_float (r : real) : result float :=
  match r with
  | RInt z => int_to_float z
  | RFloat f => Ok f
  end.

(** The conversion of an operand of a complex operation. *)
Definition to_complex (n : pynum) : result (float * float) :=
  match n with
  | PyInt z => x <- int_to_float z ;; Ok (x, zero)
  | PyBool b => Ok (of_Z (Z.b2z b), zero)
  | PyFloat f => Ok (f, zero)
  | PyComplex re im => Ok (re, im)
  end.

(** [n == 0] for a real operand. *)
Definition real_is_zero (r : real) : bool :=
  match r with
  | RInt z => z =? 0
  | RFloat f => is_zero f
  end.

(** [x / y] for integers, [y] not zero: the binary64 value nearest to the
    quotient.  The quotient is first taken with at least 56 significant
    bits and a sticky last bit, then rounded once. *)
Definition int_truediv (x y : Z) : result float :=
  let negative := xorb (x <? 0) (y <? 0) in
  let a := Z.abs x in
  let b := Z.abs y in
  let k := Z.max 0 (Z.log2 b - Z.log2 a + 56) in
  let n := a * 2 ^ k in
  let m := 2 * (n / b) + (if n mod b =? 0 then 0 else 1) in
  let f := binary_normalize prec emax (cond_Zopp negative m) (- k - 1) negative in
  if is_inf f
  then raise OverflowError "integer division result too large for a float"
  else Ok f.

(** [math.pi] *)
Definition pi : float := S754_finite false 7074237752028440 (-51).

(** The integer part of a finite float, rounded towards minus infinity
    and towards plus infinity. *)
Definition floor_finite (s : bool) (m : positive) (e : Z) : Z :=
  let v := cond_Zopp s (Zpos m) in
  if 0 <=? e then v * 2 ^ e else v / 2 ^ (- e).

Definition ceil_finite (s : bool) (m : positive) (e : Z) : Z :=
  - floor_finite (negb s) m e.

(** C's [fmod]: the remainder of the division truncated towards zero,
    which is exact and takes the sign of its first argument. *)
Definition c_fmod (x y : float) : float :=
  match x, y with
  | S754_nan, _ | _, S754_nan => S754_nan
  | S754_infinity _, _ => S754_nan
  | _, S754_zero _ => S754_nan
  | S754_zero _, _ => x
  | S754_finite _ _ _, S754_infinity _ => x
  | S754_finite sx mx ex, S754_finite _ my ey =>
      let e := Z.min ex ey in
      let r := Z.rem (Zpos mx * 2 ^ (ex - e)) (Zpos my * 2 ^ (ey - e)) in
      binary_normalize prec emax (cond_Zopp sx r) e sx
  end.

(** [math.fmod] on floats. *)
Definition fmod (x y : float) : result float :=
  if is_inf y && is_finite x then Ok x
  else
    let r := c_fmod x y in
    if is_nan r && negb (is_nan x) && negb (is_nan y)
    then raise ValueError "math domain error"
    else Ok r.

(** [math.sqrt] on a float. *)
Definition sqrt (x : float) : result float :=
  let r := SFsqrt prec emax x in
  if is_nan r && negb (is_nan x)
  then raise ValueError "math domain error"
  else Ok r.

Fixpoint fact (n : nat) : Z :=
  match n with
  | O => 1
  | S k => Z.of_nat n * fact k
  end.

End Num.

Definition SAFE_FUNCTIONS : list string :=
  [ "math.sqrt"; "math.log"; "math.sin"; "math.cos"; "math.tan"; "math.fmod";
    "math.pow"; "math.factorial"; "math.fabs"; "math.floor"; "math.ceil" ].

Definition SAFE_CONSTANTS : list (string * float) := [ ("math.pi", Num.pi) ].

Fixpoint assoc {A : Type} (k : string) (l : list (string * A)) : option A :=
  match l with
  | [] => None
  | (k', v) :: r => if String.eqb k' k then Some v else assoc k r
  end.

Definition mem (k : string) (l : list string) : bool :=
  List.existsb (String.eqb k) l.

Section Arithmetic.

Variable py : PyLib.

(** The number of decimal digits of [z]. *)
Definition digits (z : Z) : nat := String.length (Str.of_Z (Z.abs z)).

(** [str(z)].  An integer of more than 640 digits, and of more digits than
    the bound of the interpreter when there is one, raises [ValueError]. *)
Definition int_str (z : Z) : result string :=
  let limit := int_max_str_digits py in
  if (640 <? digits z)%nat && (0 <? limit)%nat && (limit <? digits z)%nat
  then raise ValueError (int_limit_str py)
  else Ok (Str.of_Z z).

(** [str(n)], which is also what an f-string makes of [n]. *)
Definition num_str (n : pynum) : result string :=
  match n with
  | PyInt z => int_str z
  | PyBool true => Ok "True"
  | PyBool false => Ok "False"
  | PyFloat f => Ok (float_str py f)
  | PyComplex re im => Ok (complex_str py re im)
  end.

(** [str(value)] *)
Definition obj_str (value : pyobj) : result string :=
  match value with
  | PyNum n => num_str n
  | PyNone => Ok "None"
  | PyStr s => Ok s
  | PyOther shown => Ok shown
  end.

(** The operators of [SAFE_OPERATORS] on two integers.  [pow] with a
    negative exponent goes through floats. *)
Definition int_binop (op : operator) (x y : Z) : result pynum :=
  match op with
  | Add => Ok (PyInt (x + y))
  | Sub => Ok (PyInt (x - y))
  | Mult => Ok (PyInt (x * y))
  | Div =>
      if y =? 0 then raise ZeroDivisionError "division by zero"
      else q <- Num.int_truediv x y ;; Ok (PyFloat q)
  | Pow =>
      if 0 <=? y then Ok (PyInt (x ^ y))
      else operator_ext py op (PyInt x) (PyInt y)
  | OtherOperator _ => operator_ext py op (PyInt x) (PyInt y)
  end.

(** The same operators on two floats. *)
Definition float_binop (op : operator) (x y : float) : result pynum :=
  match op with
  | Add => Ok (PyFloat (SFadd prec emax x y))
  | Sub => Ok (PyFloat (SFsub prec emax x y))
  | Mult => Ok (PyFloat (SFmul prec emax x y))
  | Div =>
      if Num.is_zero y then raise ZeroDivisionError "float division by zero"
      else Ok (PyFloat (SFdiv prec emax x y))
  | _ => operator_ext py op (PyFloat x) (PyFloat y)
  end.

(** The division with a complex operand: both operands are converted,
    then the divisor is tested. *)
Definition complex_truediv (a b : pynum) : result pynum :=
  x <- Num.to_complex a ;;
  y <- Num.to_complex b ;;
  if Num.is_zero (fst y) && Num.is_zero (snd y)
  then raise ZeroDivisionError "complex division by zero"
  else let '(re, im) := complex_quot py x y in Ok (PyComplex re im).

(** [operator.add], [sub], [mul], [truediv] and [pow].  Two integers are
    combined exactly; when an operand is a float, both are converted to
    floats first. *)
Definition binop (op : operator) (a b : pynum) : result pynum :=
  match Num.as_real a, Num.as_real b with
  | Some (Num.RInt x), Some (Num.RInt y) => int_binop op x y
  | Some ra, Some rb =>
      match op with
      | Add | Sub | Mult | Div =>
          x <- Num.to_float ra ;;
          y <- Num.to_float rb ;;
          float_binop op x y
      | _ => operator_ext py op a b
      end
  | _, _ =>
      match op with
      | Div => complex_truediv a b
      | _ => operator_ext py op a b
      end
  end.

(** [operator.neg] and [operator.pos]. *)
Definition neg (a : pynum) : pynum :=
  match a with
  | PyInt z => PyInt (- z)
  | PyBool b => PyInt (- Z.b2z b)
  | PyFloat f => PyFloat (SFopp f)
  | PyComplex re im => PyComplex (SFopp re) (SFopp im)
  end.

Definition pos (a : pynum) : pynum :=
  match a with
  | PyBool b => PyInt (Z.b2z b)
  | _ => a
  end.

(** [a < 0] *)
Definition lt_zero (a : pynum) : result bool :=
  match a with
  | PyInt z => Ok (z <? 0)
  | PyBool _ => Ok false
  | PyFloat f => Ok (SFltb f Num.zero)
  | PyComplex _ _ =>
      raise TypeError "'<' not supported between instances of 'complex' and 'int'"
  end.

(** The functions of [SAFE_FUNCTIONS] whose result is exact, on real
    arguments of the right number. *)
Definition call_exact (name : string) (args : list pynum) : option (result pynum) :=
  match args with
  | [a] =>
      match Num.as_real a with
      | Some r =>
          if String.eqb name "math.sqrt"
          then Some (x <- Num.to_float r ;; y <- Num.sqrt x ;; Ok (PyFloat y))
          else if String.eqb name "math.fabs"
          then Some (x <- Num.to_float r ;; Ok (PyFloat (SFabs x)))
          else if String.eqb name "math.floor"
          then match r with
               | Num.RInt z => Some (Ok (PyInt z))
               | Num.RFloat (S754_finite s m e) => Some (Ok (PyInt (Num.floor_finite s m e)))
               | Num.RFloat (S754_zero _) => Some (Ok (PyInt 0))
               | Num.RFloat S754_nan =>
                   Some (raise ValueError "cannot convert float NaN to integer")
               | Num.RFloat (S754_infinity _) =>
                   Some (raise OverflowError "cannot convert float infinity to integer")
               end
          else if String.eqb name "math.ceil"
          then match r with
               | Num.RInt z => Some (Ok (PyInt z))
               | Num.RFloat (S754_finite s m e) => Some (Ok (PyInt (Num.ceil_finite s m e)))
               | Num.RFloat (S754_zero _) => Some (Ok (PyInt 0))
               | Num.RFloat S754_nan =>
                   Some (raise ValueError "cannot convert float NaN to integer")
               | Num.RFloat (S754_infinity _) =>
                   Some (raise OverflowError "cannot convert float infinity to integer")
               end
          else if String.eqb name "math.factorial"
          then match r with
               | Num.RInt z =>
                   if z <? 0
                   then Some (raise ValueError "factorial() not defined for negative values")
                   else if z <? 2 ^ 31
                   then Some (Ok (PyInt (Num.fact (Z.to_nat z))))
                   else None
               | Num.RFloat _ => None
               end
          else None
      | None => None
      end
  | [a; b] =>
      match Num.as_real a, Num.as_real b with
      | Some ra, Some rb =>
          if String.eqb name "math.fmod"
          then Some (x <- Num.to_float ra ;; y <- Num.to_float rb ;;
                     r <- Num.fmod x y ;; Ok (PyFloat r))
          else None
      | _, _ => None
      end
  | _ => None
  end.

(** [self.functions[func_name]] applied to the arguments, for a name of
    the table. *)
Definition call_function (name : string) (args : list pynum) : result pynum :=
  match call_exact name args with
  | Some r => r
  | None => math_ext py name args
  end.

End Arithmetic.

(** ** The fragment of [ast.parse] embedded here

    The expressions made of decimal literals, names, attribute access,
    calls with positional arguments, parentheses and the operators
    [+ - * / // **], written on one line.  [parse_fragment] answers [None]
    for a source it does not cover, and the answer is then taken from
    [ast_parse_ext]. *)

Module Syntax.

Inductive token : Type :=
| TInt (z : Z)
| TFloat (text : string)
| TName (id : string)
| TPlus | TMinus | TStar | TSlash | TDoubleStar | TDoubleSlash
| TLPar | TRPar | TComma | TDot.

Definition is_name_start (c : ascii) : bool := Str.is_alpha c || Ascii.eqb c "_".
Definition is_name_char (c : ascii) : bool := is_name_start c || Str.is_digit c.

(** The characters of the fragment. *)
Definition in_alphabet (c : ascii) : bool :=
  is_name_char c
  || List.existsb (Ascii.eqb c)
       [" "; ascii_of_N 9; "."; "+"; "-"; "*"; "/"; "("; ")"; ","]%char.

Definition keywords : list string :=
  [ "False"; "None"; "True"; "and"; "as"; "assert"; "async"; "await";
    "break"; "class"; "continue"; "def"; "del"; "elif"; "else"; "except";
    "finally"; "for"; "from"; "global"; "if"; "import"; "in"; "is";
    "lambda"; "nonlocal"; "not"; "or"; "pass"; "raise"; "return"; "try";
    "while"; "with"; "yield" ].

(** The longest prefix of [s] whose characters satisfy [p], and the rest. *)
Fixpoint span (p : ascii -> bool) (s : string) : string * string :=
  match s with
  | EmptyString => (EmptyString, EmptyString)
  | String c r =>
      if p c then let '(a, b) := span p r in (String c a, b)
      else (EmptyString, s)
  end.

Definition digit_value (c : ascii) : Z := Z.of_N (Str.code c) - 48.

Fixpoint int_of_digits (acc : Z) (s : string) : Z :=
  match s with
  | EmptyString => acc
  | String c r => int_of_digits (10 * acc + digit_value c) r
  end.

Definition next_is (p : ascii -> bool) (s : string) : bool :=
  match s with
  | String c _ => p c
  | EmptyString => false
  end.

Inductive lexed : Type :=
| Tokens (ts : list token)
| LexError
| LexOther.

Definition cons_token (t : token) (l : lexed) : lexed :=
  match l with
  | Tokens ts => Tokens (t :: ts)
  | other => other
  end.

(** The tokens of a line.  A number directly followed by a letter (an
    exponent, a radix prefix, an imaginary suffix), an integer of more than
    640 digits (the interpreter may bound the digits of a literal, never
    under 640), a keyword, an ellipsis and every character outside the
    alphabet are left to [ast_parse_ext]; a decimal integer with a leading
    zero, other than zero itself, is an error. *)
Fixpoint lex (fuel : nat) (s : string) : lexed :=
  match fuel with
  | O => LexOther
  | S fuel' =>
      match s with
      | EmptyString => Tokens []
      | String c r =>
          if Ascii.eqb c " " || Ascii.eqb c (ascii_of_N 9) then lex fuel' r
          else if Str.is_digit c then
            let '(digits, r1) := span Str.is_digit s in
            if next_is (Ascii.eqb ".") r1 then
              let '(frac, r2) := span Str.is_digit (Str.drop 1 r1) in
              if next_is is_name_start r2 then LexOther
              else cons_token (TFloat (digits ++ "." ++ frac)) (lex fuel' r2)
            else if next_is is_name_start r1 then LexOther
            else if (640 <? String.length digits)%nat then LexOther
            else if Ascii.eqb c "0" && negb (Str.forallb (Ascii.eqb "0") digits)
            then LexError
            else cons_token (TInt (int_of_digits 0 digits)) (lex fuel' r1)
          else if Ascii.eqb c "." then
            if next_is Str.is_digit r then
              let '(frac, r2) := span Str.is_digit r in
              if next_is is_name_start r2 then LexOther
              else cons_token (TFloat ("." ++ frac)) (lex fuel' r2)
            else if Str.startswith ".." r then LexOther
            else cons_token TDot (lex fuel' r)
          else if is_name_start c then
            let '(id, r1) := span is_name_char s in
            if mem id keywords then LexOther
            else cons_token (TName id) (lex fuel' r1)
          else if Ascii.eqb c "+" then cons_token TPlus (lex fuel' r)
          else if Ascii.eqb c "-" then cons_token TMinus (lex fuel' r)
          else if Ascii.eqb c "(" then cons_token TLPar (lex fuel' r)
          else if Ascii.eqb c ")" then cons_token TRPar (lex fuel' r)
          else if Ascii.eqb c "," then cons_token TComma (lex fuel' r)
          else if Ascii.eqb c "*" then
            if next_is (Ascii.eqb "*") r
            then cons_token TDoubleStar (lex fuel' (Str.drop 1 r))
            else cons_token TStar (lex fuel' r)
          else if Ascii.eqb c "/" then
            if next_is (Ascii.eqb "/") r
            then cons_token TDoubleSlash (lex fuel' (Str.drop 1 r))
            else cons_token TSlash (lex fuel' r)
          else LexOther
      end
  end.

(** The outcome of a parsing function: a tree and the tokens left, a
    failure, or not enough fuel. *)
Inductive parsed : Type :=
| Parsed (e : expr) (rest : list token)
| NoParse
| NoFuel.

Section Grammar.

Variable float_value : string -> float.

(** Python's grammar on these tokens:
    sum     ::= term (('+' | '-') term)*
    term    ::= factor (('*' | '/' | '//') factor)*
    factor  ::= ('+' | '-') factor | power
    power   ::= primary ['**' factor]
    primary ::= atom ('.' NAME | '(' [sum (',' sum)*] ')')*
    atom    ::= NAME | NUMBER | '(' sum ')' *)
Fixpoint parse_sum (n : nat) (ts : list token) : parsed :=
  match n with
  | O => NoFuel
  | S n' =>
      match parse_term n' ts with
      | Parsed e rest => sum_tail n' e rest
      | other => other
      end
  end
with sum_tail (n : nat) (left : expr) (ts : list token) : parsed :=
  match n with
  | O => NoFuel
  | S n' =>
      match ts with
      | TPlus :: r =>
          match parse_term n' r with
          | Parsed e rest => sum_tail n' (BinOp left Add e) rest
          | other => other
          end
      | TMinus :: r =>
          match parse_term n' r with
          | Parsed e rest => sum_tail n' (BinOp left Sub e) rest
          | other => other
          end
      | _ => Parsed left ts
      end
  end
with parse_term (n : nat) (ts : list token) : parsed :=
  match n with
  | O => NoFuel
  | S n' =>
      match parse_factor n' ts with
      | Parsed e rest => term_tail n' e rest
      | other => other
      end
  end
with term_tail (n : nat) (left : expr) (ts : list token) : parsed :=
  match n with
  | O => NoFuel
  | S n' =>
      match ts with
      | TStar :: r =>
          match parse_factor n' r with
          | Parsed e rest => term_tail n' (BinOp left Mult e) rest
          | other => other
          end
      | TSlash :: r =>
          match parse_factor n' r with
          | Parsed e rest => term_tail n' (BinOp left Div e) rest
          | other => other
          end
      | TDoubleSlash :: r =>
          match parse_factor n' r with
          | Parsed e rest =>
              term_tail n' (BinOp left (OtherOperator "FloorDiv") e) rest
          | other => other
          end
      | _ => Parsed left ts
      end
  end
with parse_factor (n : nat) (ts : list token) : parsed :=
  match n with
  | O => NoFuel
  | S n' =>
      match ts with
      | TPlus :: r =>
          match parse_factor n' r with
          | Parsed e rest => Parsed (UnaryOp UAdd e) rest
          | other => other
          end
      | TMinus :: r =>
          match parse_factor n' r with
          | Parsed e rest => Parsed (UnaryOp USub e) rest
          | other => other
          end
      | _ =>
          match parse_atom n' ts with
          | Parsed base (TDoubleStar :: r) =>
              match parse_factor n' r with
              | Parsed e rest => Parsed (BinOp base Pow e) rest
              | other => other
              end
          | other => other
          end
      end
  end
with parse_atom (n : nat) (ts : list token) : parsed :=
  match n with
  | O => NoFuel
  | S n' =>
      match ts with
      | TInt z :: r => trailers n' (Constant (CNum (PyInt z))) r
      | TFloat text :: r =>
          trailers n' (Constant (CNum (PyFloat (float_value text)))) r
      | TName id :: r => trailers n' (Name id) r
      | TLPar :: r =>
          match parse_sum n' r with
          | Parsed e (TRPar :: rest) => trailers n' e rest
          | Parsed _ _ => NoParse
          | other => other
          end
      | _ => NoParse
      end
  end
with trailers (n : nat) (e : expr) (ts : list token) : parsed :=
  match n with
  | O => NoFuel
  | S n' =>
      match ts with
      | TDot :: TName attr :: r => trailers n' (Attribute e attr) r
      | TDot :: _ => NoParse
      | TLPar :: TRPar :: r => trailers n' (Call e []) r
      | TLPar :: r =>
          match parse_sum n' r with
          | Parsed a rest => arguments n' e [a] rest
          | other => other
          end
      | _ => Parsed e ts
      end
  end
with arguments (n : nat) (f : expr) (acc : list expr) (ts : list token) : parsed :=
  match n with
  | O => NoFuel
  | S n' =>
      match ts with
      | TRPar :: r => trailers n' (Call f (rev acc)) r
      | TComma :: r =>
          match parse_sum n' r with
          | Parsed a rest => arguments n' f (a :: acc) rest
          | other => other
          end
      | _ => NoParse
      end
  end.

End Grammar.

(** Token sequences on which Python's grammar has more productions than
    the ones above: a comma (tuples, trailing commas), an empty pair of
    parentheses, and a star right after an opening parenthesis. *)
Fixpoint beyond_grammar (ts : list token) : bool :=
  match ts with
  | [] => false
  | TComma :: _ => true
  | TLPar :: (TRPar :: _) => true
  | TLPar :: (TStar :: _) => true
  | TLPar :: (TDoubleStar :: _) => true
  | _ :: r => beyond_grammar r
  end.

Inductive fragment_parse : Type :=
| Tree (e : expr)
| Rejected.

(** [None] when the source is not covered.  A source that starts with a
    blank is rejected by Python for its indentation (or, when nothing
    follows, for being empty). *)
Definition parse_fragment (float_value : string -> float) (source : string)
  : option fragment_parse :=
  if negb (Str.forallb in_alphabet source) then None
  else
    match lex (S (String.length source)) source with
    | LexOther => None
    | LexError => Some Rejected
    | Tokens ts =>
        if next_is (fun c => Ascii.eqb c " " || Ascii.eqb c (ascii_of_N 9)) source
        then Some Rejected
        else
          match parse_sum float_value (8 * List.length ts + 16) ts with
          | Parsed e [] => Some (Tree e)
          | NoFuel => None
          | _ => if beyond_grammar ts then None else Some Rejected
          end
    end.

End Syntax.

(** ** The pattern of [is_well_formed]

    [is_well_formed] splices the names of the unknowns into a character
    class, compiles the pattern and asks [findall] for a match.  The
    fragment of [re] embedded here is what that needs: a pattern
    [^\s*[...]+\s*$] whose class holds literals, ranges and [\s]. *)

Inductive class_item : Type :=
| CLit (c : ascii)
| CRange (lo hi : ascii)
| CSpace.

Inductive compiled : Type :=
| ClassPattern (items : list class_item)
| BadPattern
| OtherPattern.

(** One element of a class as [sre_parse] reads it: a literal, [\s], or an
    escape that is left to [re_findall_ext]. *)
Inductive class_code : Type :=
| KLit (c : ascii)
| KSpace
| KOther.

Definition item_of_code (k : class_code) : class_item :=
  match k with
  | KLit c => CLit c
  | _ => CSpace
  end.

(** The outcome of reading a class: its items and the pattern after the
    closing bracket, an [re.error], or a class outside the fragment. *)
Inductive class_parse : Type :=
| ClassRead (items : list class_item) (rest : string)
| ClassError
| ClassOther.

Definition backslash : ascii := "\".

(** Reads the items of a class up to its closing bracket, as the loop of
    [sre_parse._parse] does: [fuel] bounds the number of items, [acc] holds
    the items read so far in reverse.  A bracket closes the class only once
    an item has been read; a [-] between two literals makes a range, which is
    an error when its bounds are out of order or not both literals. *)
Fixpoint parse_class (fuel : nat) (acc : list class_item) (p : string)
  : class_parse :=
  match fuel with
  | O => ClassOther
  | S fuel' =>
      match p with
      | EmptyString => ClassError
      | String this p1 =>
          if Ascii.eqb this "]" && negb (Nat.eqb (List.length acc) 0)
          then ClassRead (rev acc) p1
          else
            let '(code1, p2) :=
              if Ascii.eqb this backslash
              then match p1 with
                   | String e p1' => (if Ascii.eqb e "s" then KSpace else KOther, p1')
                   | EmptyString => (KOther, p1)
                   end
              else (KLit this, p1) in
            match code1 with
            | KOther => ClassOther
            | _ =>
                if Syntax.next_is (Ascii.eqb "-") p2
                then
                  match Str.drop 1 p2 with
                  | EmptyString => ClassError
                  | String that p4 =>
                      if Ascii.eqb that "]"
                      then ClassRead (rev (CLit "-" :: item_of_code code1 :: acc)) p4
                      else if Ascii.eqb that backslash
                      then if Syntax.next_is (Ascii.eqb "s") p4
                           then ClassError else ClassOther
                      else
                        match code1 with
                        | KLit lo =>
                            if (Str.code that <? Str.code lo)%N
                            then ClassError
                            else parse_class fuel' (CRange lo that :: acc) p4
                        | _ => ClassError
                        end
                  end
                else parse_class fuel' (item_of_code code1 :: acc) p2
            end
      end
  end.

(** [re.compile(pattern)] on the patterns [^\s*[...]+\s*$]. *)
Definition re_compile (pattern : string) : compiled :=
  if Str.startswith "^\s*[" pattern
  then
    let body := Str.drop 5 pattern in
    match parse_class (S (String.length body)) [] body with
    | ClassRead items rest =>
        if String.eqb rest "+\s*$" then ClassPattern items else OtherPattern
    | ClassError => BadPattern
    | ClassOther => OtherPattern
    end
  else OtherPattern.

Definition item_matches (c : ascii) (i : class_item) : bool :=
  match i with
  | CLit a => Ascii.eqb a c
  | CRange lo hi => Str.in_range lo hi c
  | CSpace => Str.is_space c
  end.

Definition class_matches (items : list class_item) (c : ascii) : bool :=
  List.existsb (item_matches c) items.

(** Matching [^\s*[items]+\s*$] by running its three-state automaton:
    [m_lead] while still in the leading [\s*], [m_body] once inside
    [[items]+], [m_trail] in the trailing [\s*]. *)
Record mstate : Type := { m_lead : bool; m_body : bool; m_trail : bool }.

Definition m_start : mstate := {| m_lead := true; m_body := false; m_trail := false |}.

Definition m_step (items : list class_item) (st : mstate) (c : ascii) : mstate :=
  {| m_lead := m_lead st && Str.is_space c;
     m_body := (m_lead st || m_body st) && class_matches items c;
     m_trail := (m_body st || m_trail st) && Str.is_space c |}.

Definition m_accept (st : mstate) : bool := m_body st || m_trail st.

(** Runs the automaton; [$] accepts at the end of the subject and also just
    before a newline that ends it. *)
Fixpoint m_run (items : list class_item) (st : mstate) (s : string) : bool :=
  match s with
  | EmptyString => m_accept st
  | String c r =>
      (m_accept st && Ascii.eqb c Str.newline
       && match r with EmptyString => true | _ => false end)
      || m_run items (m_step items st c) r
  end.

Definition class_pattern_matches (items : list class_item) (subject : string) : bool :=
  m_run items m_start subject.

Definition base_pattern : string :=
  "^\s*[-+*/()0-9.xyz,sqrtlogsincostanfloorceilfactorialabsmodPIpow\s]+\s*$".

Section Validation.

Variable py : PyLib.

(** [bool(re.compile(pattern).findall(subject))]. *)
Definition re_findall (pattern subject : string) : result bool :=
  match re_compile pattern with
  | ClassPattern items => Ok (class_pattern_matches items subject)
  | BadPattern => raise (OtherException "re.error") (re_error_str py pattern)
  | OtherPattern =>
      match re_findall_ext py pattern subject with
      | Some matches => Ok matches
      | None => raise (OtherException "re.error") (re_error_str py pattern)
      end
  end.

Definition build_pattern (unknowns : option (list string)) : string :=
  let pattern := base_pattern in
  match unknowns with
  | Some unknowns =>
      let char_to_add := Str.join unknowns in
      let index := Str.find pattern "sqrt" in
      Str.slice_to pattern index ++ char_to_add ++ Str.slice_from pattern index
  | None => pattern
  end.

Definition is_well_formed (formula : string) (unknowns : option (list string))
  : result bool :=
  if negb (check_parentheses formula)
  then raise ValueError "Parentheses are not matched"
  else if Str.isspace formula || String.eqb formula ""
  then raise ValueError "Formula is empty"
  else
    matches <- re_findall (build_pattern unknowns) formula ;;
    if matches : bool then Ok true else Ok false.

End Validation.

(** ** [SafeEvaluator] *)

Section Evaluator.

Variable py : PyLib.

(** [ast.parse(expression, mode='eval').body] *)
Definition ast_parse (source : string) : result expr :=
  match Syntax.parse_fragment (float_of_literal py) source with
  | Some (Syntax.Tree e) => Ok e
  | Some Syntax.Rejected => raise SyntaxError (syntax_error_str py source)
  | None => ast_parse_ext py source
  end.

(** The name of the class of a node, as [type(node).__name__] gives it. *)
Definition node_type_name (node : expr) : string :=
  match node with
  | Constant _ => "Constant"
  | BinOp _ _ _ => "BinOp"
  | UnaryOp _ _ => "UnaryOp"
  | Call _ _ => "Call"
  | Attribute _ _ => "Attribute"
  | Name _ => "Name"
  | OtherNode t => t
  end.

(** [str(type(node))] *)
Definition node_type_str (node : expr) : string :=
  "<class 'ast." ++ node_type_name node ++ "'>".

Fixpoint _get_attr_name_base (node : expr) : result string :=
  match node with
  | Name id => Ok id
  | Attribute value attr =>
      base <- _get_attr_name_base value ;;
      Ok (base ++ "." ++ attr)
  | _ => raise ValueError ("Cannot determine attribute base from " ++ node_type_str node)
  end.

Definition _get_func_name (node : expr) : result string :=
  match node with
  | Attribute value attr =>
      base <- _get_attr_name_base value ;;
      Ok (base ++ "." ++ attr)
  | Name id => Ok id
  | _ => raise ValueError ("Cannot determine function name from " ++ node_type_str node)
  end.

(** Called on [ast.Attribute] nodes only. *)
Definition _get_attr_name (value : expr) (attr : string) : result string :=
  base <- _get_attr_name_base value ;;
  Ok (base ++ "." ++ attr).

(** [self.operators[op_type](left, right)], after the membership test. *)
Definition apply_operator (op : operator) (left right : pynum) : result pynum :=
  match op with
  | OtherOperator name => raise ValueError ("Unsupported operator: " ++ name)
  | _ => binop py op left right
  end.

Definition apply_unary (op : unaryop) (operand : pynum) : result pynum :=
  match op with
  | USub => Ok (neg operand)
  | UAdd => Ok (pos operand)
  | OtherUnaryOp name => raise ValueError ("Unsupported unary operator: " ++ name)
  end.

(** The branches for [ast.Num] and [ast.Expression] are not reached: a
    numeric literal is an [ast.Constant], which is tested first, and the
    body of the parsed tree is never an [ast.Expression]. *)
Fixpoint _eval_node (node : expr) : result pynum :=
  match node with
  | Constant value =>
      match value with
      | CNum (PyComplex _ _) =>
          raise ValueError "Unsupported constant type: <class 'complex'>"
      | CNum n => Ok n
      | COther type_text =>
          raise ValueError ("Unsupported constant type: " ++ type_text)
      end
  | BinOp lhs op rhs =>
      l <- _eval_node lhs ;;
      r <- _eval_node rhs ;;
      apply_operator op l r
  | UnaryOp op operand =>
      v <- _eval_node operand ;;
      apply_unary op v
  | Call func args =>
      func_name <- _get_func_name func ;;
      if negb (mem func_name SAFE_FUNCTIONS)
      then raise NameError ("Unsupported function: " ++ func_name)
      else
        vs <- (fix eval_args (l : list expr) : result (list pynum) :=
                 match l with
                 | [] => Ok []
                 | arg :: rest =>
                     v <- _eval_node arg ;;
                     vs <- eval_args rest ;;
                     Ok (v :: vs)
                 end) args ;;
        call_function py func_name vs
  | Attribute value attr =>
      attr_name <- _get_attr_name value attr ;;
      match assoc attr_name SAFE_CONSTANTS with
      | Some c => Ok (PyFloat c)
      | None => raise NameError ("Unsupported attribute: " ++ attr_name)
      end
  | Name id => raise NameError ("name '" ++ id ++ "' is not defined")
  | OtherNode type_name =>
      raise ValueError ("Unsupported expression type: " ++ type_name)
  end.

Definition evaluate (expression : string) : result pynum :=
  match (tree <- ast_parse expression ;; _eval_node tree) with
  | Ok v => Ok v
  | Raise e =>
      match exn_class e with
      | ZeroDivisionError =>
          raise ZeroDivisionError ("Can't divide by 0 in " ++ expression)
      | SyntaxError | TypeError =>
          raise ValueError ("Invalid expression: " ++ expression ++ " - " ++ exn_msg e)
      | _ => Raise e
      end
  end.

Definition safe_eval (expression : string) : result pynum := evaluate expression.

End Evaluator.

(** ** [get_sqrt_value] and [_find_negative_sqrt] *)

Definition not_char (a : ascii) (c : ascii) : bool := negb (Ascii.eqb c a).

(** A match of [math\.sqrt\((.+?)\)] at the start of [s]: its group.  The
    group is at least one character, then as few as possible up to a
    closing parenthesis, and holds no newline. *)
Definition lazy_sqrt_match (s : string) : option string :=
  if Str.startswith "math.sqrt(" s then
    match Str.drop 10 s with
    | String c r =>
        if Ascii.eqb c Str.newline then None
        else
          let '(g, after) := Syntax.span (not_char ")") r in
          if Str.forallb (not_char Str.newline) g
             && Syntax.next_is (Ascii.eqb ")") after
          then Some (String c g) else None
    | EmptyString => None
    end
  else None.

(** The group of the leftmost match, which is [matches[0]]. *)
Fixpoint first_lazy_sqrt (s : string) : option string :=
  match lazy_sqrt_match s with
  | Some g => Some g
  | None =>
      match s with
      | EmptyString => None
      | String _ r => first_lazy_sqrt r
      end
  end.

Definition get_sqrt_value (formula_string : string) : string :=
  match first_lazy_sqrt formula_string with
  | Some g => g
  | None => ""
  end.

(** A match of [math\.sqrt\(([^)]+)\)] at the start of [s]: its group, one
    or more characters other than a closing parenthesis, followed by one. *)
Definition greedy_sqrt_match (s : string) : option string :=
  if Str.startswith "math.sqrt(" s then
    let '(g, after) := Syntax.span (not_char ")") (Str.drop 10 s) in
    match g with
    | EmptyString => None
    | String _ _ => if Syntax.next_is (Ascii.eqb ")") after then Some g else None
    end
  else None.

(** The groups of the matches that [finditer] yields: leftmost first, each
    search starting where the previous match ended.  [skip] counts the
    characters of the last match still to be passed over. *)
Fixpoint sqrt_arguments (skip : nat) (s : string) : list string :=
  match s with
  | EmptyString => []
  | String _ r =>
      match skip with
      | S k => sqrt_arguments k r
      | O =>
          match greedy_sqrt_match s with
          | Some g => g :: sqrt_arguments (10 + String.length g) r
          | None => sqrt_arguments O r
          end
      end
  end.

(** ** [compute_formula] *)

(** The rewrites of lines 399-410, in their order. *)
Definition keyword_rewrites : list (string * string) :=
  [ ("PI", "math.pi"); ("sqrt(", "math.sqrt("); ("log(", "math.log(");
    ("sin(", "math.sin("); ("cos(", "math.cos("); ("tan(", "math.tan(");
    ("mod(", "math.fmod("); ("pow(", "math.pow(");
    ("factorial(", "math.factorial("); ("abs(", "math.fabs(");
    ("floor(", "math.floor("); ("ceil(", "math.ceil(") ].

Definition rewrite_keywords (input_string : string) : string :=
  fold_left (fun formula '(old, new) => Str.replace formula old new)
            keyword_rewrites input_string.

(** How the loop over the bindings ends: with the formula to evaluate, or
    with a value that [compute_formula] returns at once. *)
Inductive substitution : Type :=
| Substituted (formula : string)
| Returned (o : output).

Definition report_sqrt (value formula : string) : string :=
  "Can't sqrt with value (" ++ value ++ ") in " ++ formula.

Definition is_None (value : pyobj) : bool :=
  match value with
  | PyNone => true
  | _ => false
  end.

Definition nonempty (s : string) : bool :=
  match s with
  | EmptyString => false
  | String _ _ => true
  end.

Section Pipeline.

Variable py : PyLib.

(** The loop of lines 413-424 over [unknown_value.items()]: [formula] is
    the text rewritten so far, [input_string] the text the caller gave. *)
Fixpoint substitute_values (input_string formula : string)
         (items : list (string * pyobj)) : result substitution :=
  match items with
  | [] => Ok (Substituted formula)
  | (key, value) :: rest =>
      if negb (is_word key)
      then raise ValueError ("Unknown key '" ++ key ++ "' is not a valid variable name")
      else if negb (is_number value)
      then
        shown <- obj_str py value ;;
        raise ValueError ("Value of '" ++ key ++ "' = " ++ shown ++ " is not a number")
      else if Str.contains key input_string
      then
        if negb (is_None value)
        then
          shown <- obj_str py value ;;
          substitute_values input_string
            (Str.replace formula key ("(" ++ shown ++ ")")) rest
        else Ok (Returned (Text "Undefined variable"))
      else substitute_values input_string formula rest
  end.

(** The loop of [_find_negative_sqrt] over the matches. *)
Fixpoint negative_sqrt_among (formula : string) (args : list string)
  : result (option (pynum * string)) :=
  match args with
  | [] => Ok None
  | arg :: rest =>
      match (arg_value <- safe_eval py arg ;;
             negative <- lt_zero arg_value ;;
             Ok (arg_value, negative)) with
      | Ok (arg_value, true) => Ok (Some (arg_value, formula))
      | Ok (_, false) => negative_sqrt_among formula rest
      | Raise e =>
          match exn_class e with
          | ValueError | NameError | ZeroDivisionError =>
              negative_sqrt_among formula rest
          | _ => Raise e
          end
      end
  end.

Definition _find_negative_sqrt (formula : string) : result (option (pynum * string)) :=
  negative_sqrt_among formula (sqrt_arguments O formula).

(** Lines 428-453: the check for a negative square root, then the
    evaluation of the whole formula and its handlers.  The text of line 448
    is built inside the [try], so that an exception of the conversion of
    [computed_value] is handled as one of its evaluation. *)
Definition evaluate_formula (formula : string) : result output :=
  neg_sqrt <- _find_negative_sqrt formula ;;
  match neg_sqrt with
  | Some (value, formula_at_point) =>
      shown <- num_str py value ;;
      Ok (Text (report_sqrt shown formula_at_point))
  | None =>
      match safe_eval py formula with
      | Ok v => Ok (Number v)
      | Raise e =>
          match exn_class e with
          | ZeroDivisionError =>
              raise ZeroDivisionError ("Can't divide by 0 in " ++ formula)
          | ValueError =>
              let error_str := Str.lower (exn_msg e) in
              let sqrt_value := get_sqrt_value formula in
              if Str.contains "math domain error" error_str && nonempty sqrt_value
              then
                match (computed_value <- safe_eval py sqrt_value ;;
                       num_str py computed_value) with
                | Ok shown => Ok (Text (report_sqrt shown formula))
                | Raise e' =>
                    match exn_class e' with
                    | ValueError | NameError | ZeroDivisionError =>
                        Ok (Text (report_sqrt sqrt_value formula))
                    | _ => Raise e'
                    end
                end
              else
                raise ValueError
                  ("Value Error occurred in " ++ formula ++ ": " ++ exn_msg e)
          | NameError => raise NameError (exn_msg e)
          | _ => Raise e
          end
      end
  end.

(** [unknown_value] is [None] or a [dict], given by its items in
    insertion order.  The test that a supplied [unknown_value] is a [dict]
    (lines 381-383) holds by the type of the argument. *)
Definition compute_formula (input_string : string)
           (unknown_value : option (list (string * pyobj))) : result output :=
  let unknown_value := match unknown_value with Some d => d | None => [] end in
  match is_well_formed py input_string (Some (map fst unknown_value)) with
  | Ok false => Ok (Text "Formula is not well formed")
  | Raise e =>
      match exn_class e with
      | ValueError => Ok (Text (exn_msg e))
      | TypeError | AttributeError => Ok (Text ("Validation error: " ++ exn_msg e))
      | _ => Raise e
      end
  | Ok true =>
      let formula := rewrite_keywords input_string in
      s <- substitute_values input_string formula unknown_value ;;
      match s with
      | Returned o => Ok o
      | Substituted formula => evaluate_formula formula
      end
  end.

End Pipeline.

(** ** [get_operator_value] *)

Definition is_alnum (c : ascii) : bool := Str.is_alpha c || Str.is_digit c.

(** The longest prefix of [s] that is followed by a closing parenthesis. *)
Fixpoint upto_last_close (s : string) : option string :=
  match s with
  | EmptyString => None
  | String c r =>
      match upto_last_close r with
      | Some g => Some (String c g)
      | None => if Ascii.eqb c ")" then Some EmptyString else None
      end
  end.

(** A match of [(.+)\)] at the start of [s]: its group, which is as long
    as it can be on the line it starts on, and not empty. *)
Definition greedy_group (s : string) : option string :=
  let '(line, _) := Syntax.span (not_char Str.newline) s in
  match line with
  | EmptyString => None
  | String c r => option_map (String c) (upto_last_close r)
  end.

(** A match of [<op>\((.+)\)] at the start of [s], for an [op] that the
    pattern reads as literal text. *)
Definition call_match (op s : string) : option string :=
  if Str.startswith (op ++ "(") s
  then greedy_group (Str.drop (String.length op + 1) s)
  else None.

(** [pattern.search(s)]: the leftmost match, by its group. *)
Fixpoint search_call (op s : string) : option string :=
  match call_match op s with
  | Some g => Some g
  | None =>
      match s with
      | EmptyString => None
      | String _ r => search_call op r
      end
  end.

(** The loop over [enumerate(content)]: the index of the first comma met
    at depth 0, where [i] is the index of the first character of
    [content]. *)
Fixpoint split_index (depth : Z) (i : nat) (content : string) : option nat :=
  match content with
  | EmptyString => None
  | String char r =>
      if Ascii.eqb char "(" then split_index (depth + 1) (S i) r
      else if Ascii.eqb char ")" then split_index (depth - 1) (S i) r
      else if Ascii.eqb char "," && (depth =? 0) then Some i
      else split_index depth (S i) r
  end.

(** [s.lstrip()], [s.rstrip()] and [s.strip()]. *)
Fixpoint lstrip (s : string) : string :=
  match s with
  | EmptyString => EmptyString
  | String c r => if Str.is_space c then lstrip r else s
  end.

Fixpoint rstrip (s : string) : string :=
  match s with
  | EmptyString => EmptyString
  | String c r =>
      match rstrip r with
      | EmptyString => if Str.is_space c then EmptyString else String c EmptyString
      | r' => String c r'
      end
  end.

Definition strip (s : string) : string := rstrip (lstrip s).

(** [re_search_ext pattern s] stands for the group of
    [re.compile(pattern).search(s)] when [op] holds a character that is not
    a letter or a digit, and that the pattern may read as an operator. *)
Definition get_operator_value
           (re_search_ext : string -> string -> result (option string))
           (formula_string op : string) : result (list string) :=
  found <- (if Str.forallb is_alnum op
            then Ok (search_call op formula_string)
            else re_search_ext (op ++ "\((.+)\)") formula_string) ;;
  match found with
  | None => Ok [""; ""]
  | Some content =>
      match split_index 0 O content with
      | None => Ok [content; ""]
      | Some i =>
          let first_operand := strip (Str.take i content) in
          let second_operand := strip (Str.drop (i + 1) content) in
          Ok [first_operand; second_operand]
      end
  end.

(** * [main.py]

    The console is the lines still to be read and the texts written so
    far; a function that reads or writes takes a console and gives its
    outcome with the console it leaves.  Writing always succeeds, and every
    exception of this development is an [Exception], which the handler of
    [input_and_solve] catches. *)

Record console : Type := { pending : list string; printed : list string }.

Definition io (A : Type) : Type := console -> result A * console.

Definition io_ret {A : Type} (a : A) : io A := fun st => (Ok a, st).

Definition io_bind {A B : Type} (m : io A) (k : A -> io B) : io B :=
  fun st =>
    match m st with
    | (Ok a, st') => k a st'
    | (Raise e, st') => (Raise e, st')
    end.

Definition io_lift {A : Type} (r : result A) : io A := fun st => (r, st).

Notation "x <<- m ;; k" := (io_bind m (fun x => k))
  (at level 61, m at next level, right associativity).

(** [input(prompt)]: writes the prompt and reads one line; [EOFError] when
    there is none. *)
Definition input (prompt : string) : io string :=
  fun st =>
    let st' := {| pending := tl (pending st); printed := printed st ++ [prompt] |} in
    match pending st with
    | [] => (raise (OtherException "EOFError") "EOF when reading a line", st')
    | line :: _ => (Ok line, st')
    end.

(** [print(text)] *)
Definition print (text : string) : io unit :=
  fun st =>
    (Ok tt, {| pending := pending st;
               printed := printed st ++ [text ++ String Str.newline ""] |}).

(** The characters for which [str.isdigit] and [str.isalpha] hold, among
    the code points 0..255: the digits with the superscripts 2, 3 and 1,
    and the letters of Latin-1. *)
Definition isdigit_char (c : ascii) : bool :=
  let n := Str.code c in
  ((48 <=? n) && (n <=? 57) || (n =? 178) || (n =? 179) || (n =? 185))%N.

Definition isalpha_char (c : ascii) : bool :=
  let n := Str.code c in
  ((65 <=? n) && (n <=? 90) || (97 <=? n) && (n <=? 122)
   || (n =? 170) || (n =? 181) || (n =? 186)
   || (192 <=? n) && (n <=? 214) || (216 <=? n) && (n <=? 246)
   || (248 <=? n) && (n <=? 255))%N.

(** [s.isdigit()] and [s.isalpha()]: at least one character, and all of
    them digits, or letters. *)
Definition isdigit (s : string) : bool := nonempty s && Str.forallb isdigit_char s.
Definition isalpha (s : string) : bool := nonempty s && Str.forallb isalpha_char s.

(** [unknown_dict[key] = value]: a key already there keeps its place. *)
Fixpoint dict_set (d : list (string * pyobj)) (key : string) (value : pyobj)
  : list (string * pyobj) :=
  match d with
  | [] => [(key, value)]
  | (k, v) :: rest =>
      if String.eqb k key then (k, value) :: rest
      else (k, v) :: dict_set rest key value
  end.

Section Main.

Variable py : PyLib.

(** [float(value)] for a [str], with [None] for a [ValueError];
    [str(unknown_dict)]; and [int(s)] for a text that [isdigit] rejects or
    that holds more than 640 digits. *)
Variable float_of_str : string -> option float.
Variable dict_str : list (string * pyobj) -> string.
Variable int_of_str_ext : string -> result Z.

Definition is_valid_number (value : string) : bool :=
  match float_of_str value with
  | Some _ => true
  | None => false
  end.

(** [int(s)].  Of the characters of [isdigit], the decimal digits only make
    a number. *)
Definition int_of_str (s : string) : result Z :=
  if negb (isdigit s) || (640 <? String.length s)%nat then int_of_str_ext s
  else if Str.forallb Str.is_digit s then Ok (Syntax.int_of_digits 0 s)
  else raise ValueError ("invalid literal for int() with base 10: '" ++ s ++ "'").

(** The loop over [range(int(number_of_unknowns))], from the index [i],
    with [count] rounds to go: the dictionary, or [None] where the function
    returns the empty text. *)
Fixpoint read_unknowns (count : nat) (i : Z) (unknown_dict : list (string * pyobj))
  : io (option (list (string * pyobj))) :=
  match count with
  | O => io_ret (Some unknown_dict)
  | S count' =>
      index <<- io_lift (int_str py (i + 1)) ;;
      unknown_name <<- input ("Enter the name of the unknown " ++ index ++ ": ") ;;
      if negb (isalpha unknown_name)
      then
        _ <<- print "Error: Unknown name must contain only letters" ;;
        io_ret None
      else
        unknown_value <<- input ("Enter the value of " ++ unknown_name ++ ": ") ;;
        if negb (is_valid_number unknown_value)
        then
          _ <<- print "Error: Unknown value must be a number (e.g., 5, -3, 3.14, -2.5)" ;;
          io_ret None
        else
          match float_of_str unknown_value with
          | Some x =>
              read_unknowns count' (i + 1)
                (dict_set unknown_dict unknown_name (PyNum (PyFloat x)))
          | None =>
              io_lift (raise ValueError
                         ("could not convert string to float: " ++ unknown_value))
          end
  end.

(** [str(result)], which is also what the f-string makes of it. *)
Definition output_str (o : output) : result string :=
  match o with
  | Number n => num_str py n
  | Text s => Ok s
  end.

Definition input_and_solve : io string :=
  input_formula <<- input "Enter a formula: " ;;
  number_of_unknowns <<- input "Enter the number of unknowns: " ;;
  if negb (isdigit number_of_unknowns)
  then
    _ <<- print "Error: Number of unknowns must be a positive integer" ;;
    io_ret ""
  else
    n <<- io_lift (int_of_str number_of_unknowns) ;;
    read <<- read_unknowns (Z.to_nat n) 0 [] ;;
    match read with
    | None => io_ret ""
    | Some unknown_dict =>
        match (result <- compute_formula py input_formula (Some unknown_dict) ;;
               output_str result) with
        | Ok shown =>
            _ <<- print (input_formula ++ " with " ++ dict_str unknown_dict
                         ++ " = " ++ shown) ;;
            io_ret shown
        | Raise e =>
            _ <<- print ("Error: " ++ exn_msg e) ;;
            io_ret ""
        end
    end.

End Main.

(** * Properties *)

(** A runtime in which nothing outside the embedded fragments is
    available.  The concrete runs below stay inside the fragments; of this
    record they use the text of a syntax error only. *)
Definition bare_runtime : PyLib := {|
  re_findall_ext := fun _ _ => None;
  re_error_str := fun _ => "error";
  ast_parse_ext := fun _ => raise SyntaxError "invalid syntax (<unknown>, line 1)";
  syntax_error_str := fun _ => "invalid syntax (<unknown>, line 1)";
  int_max_str_digits := 4300;
  int_limit_str := "Exceeds the limit (4300 digits) for integer string conversion";
  float_str := fun _ => "nan";
  complex_str := fun _ _ => "nanj";
  float_of_literal := fun _ => S754_nan;
  operator_ext := fun _ _ _ => raise TypeError "unsupported operand";
  complex_quot := fun _ _ => (S754_nan, S754_nan);
  math_ext := fun _ _ => raise TypeError "unsupported argument"
|}.

(** [r] raises an exception of class [c]. *)
Definition raises {A : Type} (r : result A) (c : exc_class) : Prop :=
  exists msg, r = raise c msg.

(** ** Parentheses *)

Definition opens (s : string) : nat := Str.count "(" s.
Definition closes (s : string) : nat := Str.count ")" s.

(** Some closing parenthesis has no opening one before it. *)
Definition unmatched_close (s : string) : Prop :=
  exists p q, s = p ++ q /\ (opens p < closes p)%nat.

(** Some opening parenthesis is still open at the end. *)
Definition unclosed_open (s : string) : Prop := (closes s < opens s)%nat.

Definition unbalanced (s : string) : Prop := unmatched_close s \/ unclosed_open s.

(** Empty, or whitespace only. *)
Definition blank (s : string) : Prop := Str.all_space s = true.

(** The walk of [check_parentheses] with the height of the stack in place
    of the stack. *)
Fixpoint balanced_from (n : nat) (s : string) : bool :=
  match s with
  | EmptyString => Nat.eqb n 0
  | String c r =>
      if Ascii.eqb c "(" then balanced_from (S n) r
      else if Ascii.eqb c ")"
      then match n with
           | O => false
           | S n' => balanced_from n' r
           end
      else balanced_from n r
  end.

Lemma check_parentheses_from_height (s : string) :
  forall stack, Forall (fun c => c = "("%char) stack ->
  check_parentheses_from stack s = balanced_from (List.length stack) s.
Proof.
  induction s as [|c r IH]; intros stack Hst; simpl.
  - reflexivity.
  - destruct (Ascii.eqb c "(") eqn:Ho.
    + apply Ascii.eqb_eq in Ho. subst c.
      rewrite IH by (constructor; auto). reflexivity.
    + destruct (Ascii.eqb c ")") eqn:Hc.
      * destruct stack as [|top stack']; [reflexivity|].
        inversion Hst as [|? ? Htop Hrest]; subst. simpl.
        apply IH. assumption.
      * apply IH. assumption.
Qed.

Lemma count_paren_step (c : ascii) (r : string) :
  (Ascii.eqb c "(" = true -> opens (String c r) = S (opens r) /\ closes (String c r) = closes r)
  /\ (Ascii.eqb c "(" = false -> Ascii.eqb c ")" = true ->
      opens (String c r) = opens r /\ closes (String c r) = S (closes r))
  /\ (Ascii.eqb c "(" = false -> Ascii.eqb c ")" = false ->
      opens (String c r) = opens r /\ closes (String c r) = closes r).
Proof.
  unfold opens, closes; simpl.
  repeat split; intros.
  - rewrite H. reflexivity.
  - apply Ascii.eqb_eq in H. subst c. reflexivity.
  - rewrite H. reflexivity.
  - rewrite H0. reflexivity.
  - rewrite H. reflexivity.
  - rewrite H0. reflexivity.
Qed.

Lemma balanced_from_unmatched_close (s : string) :
  forall n p q, s = p ++ q -> (n + opens p < closes p)%nat ->
  balanced_from n s = false.
Proof.
  induction s as [|c r IH]; intros n p q Hs Hlt.
  - destruct p; [|discriminate]. unfold opens, closes in Hlt. simpl in Hlt. lia.
  - destruct p as [|c' p'].
    + unfold opens, closes in Hlt. simpl in Hlt. lia.
    + simpl in Hs. injection Hs as Hc Hr. subst c'.
      destruct (count_paren_step c p') as (Ho & Hcl & Hn).
      simpl. destruct (Ascii.eqb c "(") eqn:E1.
      * destruct (Ho eq_refl) as [A B]. rewrite A, B in Hlt.
        eapply IH; [eassumption|]. lia.
      * destruct (Ascii.eqb c ")") eqn:E2.
        -- destruct (Hcl eq_refl eq_refl) as [A B]. rewrite A, B in Hlt.
           destruct n; [reflexivity|].
           eapply IH; [eassumption|]. lia.
        -- destruct (Hn eq_refl eq_refl) as [A B]. rewrite A, B in Hlt.
           eapply IH; eassumption.
Qed.

Lemma balanced_from_unclosed_open (s : string) :
  forall n, (closes s < n + opens s)%nat -> balanced_from n s = false.
Proof.
  induction s as [|c r IH]; intros n Hlt.
  - unfold opens, closes in Hlt. simpl in Hlt. simpl.
    apply Nat.eqb_neq. lia.
  - destruct (count_paren_step c r) as (Ho & Hcl & Hn).
    simpl. destruct (Ascii.eqb c "(") eqn:E1.
    + destruct (Ho eq_refl) as [A B]. rewrite A, B in Hlt. apply IH. lia.
    + destruct (Ascii.eqb c ")") eqn:E2.
      * destruct (Hcl eq_refl eq_refl) as [A B]. rewrite A, B in Hlt.
        destruct n; [reflexivity|]. apply IH. lia.
      * destruct (Hn eq_refl eq_refl) as [A B]. rewrite A, B in Hlt.
        apply IH. lia.
Qed.

Lemma balanced_from_false (s : string) :
  forall n, balanced_from n s = false ->
  (exists p q, s = p ++ q /\ (n + opens p < closes p)%nat)
  \/ (closes s < n + opens s)%nat.
Proof.
  induction s as [|c r IH]; intros n Hf.
  - simpl in Hf. apply Nat.eqb_neq in Hf. right.
    unfold opens, closes. simpl. lia.
  - destruct (count_paren_step c r) as (Ho & Hcl & Hn).
    simpl in Hf. destruct (Ascii.eqb c "(") eqn:E1.
    + destruct (Ho eq_refl) as [A B].
      destruct (IH _ Hf) as [(p & q & Hs & Hlt)|Hlt].
      * left. exists (String c p), q. split; [simpl; congruence|].
        destruct (count_paren_step c p) as (Ho' & _ & _).
        destruct (Ho' E1) as [A' B']. rewrite A', B'. lia.
      * right. rewrite A, B. lia.
    + destruct (Ascii.eqb c ")") eqn:E2.
      * destruct (Hcl eq_refl eq_refl) as [A B].
        destruct n as [|n'].
        -- left. exists (String c ""), r. split; [reflexivity|].
           destruct (count_paren_step c "") as (_ & Hcl' & _).
           destruct (Hcl' E1 E2) as [A' B']. rewrite A', B'.
           unfold opens, closes. simpl. lia.
        -- destruct (IH _ Hf) as [(p & q & Hs & Hlt)|Hlt].
           ++ left. exists (String c p), q. split; [simpl; congruence|].
              destruct (count_paren_step c p) as (_ & Hcl' & _).
              destruct (Hcl' E1 E2) as [A' B']. rewrite A', B'. lia.
           ++ right. rewrite A, B. lia.
      * destruct (Hn eq_refl eq_refl) as [A B].
        destruct (IH _ Hf) as [(p & q & Hs & Hlt)|Hlt].
        -- left. exists (String c p), q. split; [simpl; congruence|].
           destruct (count_paren_step c p) as (_ & _ & Hn').
           destruct (Hn' E1 E2) as [A' B']. rewrite A', B'. lia.
        -- right. rewrite A, B. lia.
Qed.

(** [check_parentheses] rejects exactly the unbalanced texts. *)
Lemma check_parentheses_false_iff (s : string) :
  check_parentheses s = false <-> unbalanced s.
Proof.
  unfold check_parentheses. rewrite check_parentheses_from_height by constructor.
  simpl. split.
  - intros Hf. destruct (balanced_from_false _ _ Hf) as [(p & q & Hs & Hlt)|Hlt].
    + left. exists p, q. split; [assumption|lia].
    + right. unfold unclosed_open. lia.
  - intros [(p & q & Hs & Hlt)|Hlt].
    + eapply balanced_from_unmatched_close; [eassumption|lia].
    + apply balanced_from_unclosed_open. unfold unclosed_open in Hlt. lia.
Qed.

Lemma space_is_not_paren (c : ascii) :
  Str.is_space c = true -> Ascii.eqb c "(" = false /\ Ascii.eqb c ")" = false.
Proof.
  intros Hs. split.
  - destruct (Ascii.eqb c "(") eqn:E; [|reflexivity].
    apply Ascii.eqb_eq in E. subst c. discriminate Hs.
  - destruct (Ascii.eqb c ")") eqn:E; [|reflexivity].
    apply Ascii.eqb_eq in E. subst c. discriminate Hs.
Qed.

Lemma blank_balanced (s : string) :
  blank s -> forall n, balanced_from n s = Nat.eqb n 0.
Proof.
  unfold blank. induction s as [|c r IH]; intros Hb n; simpl.
  - reflexivity.
  - simpl in Hb. apply andb_true_iff in Hb as [Hc Hr].
    destruct (space_is_not_paren _ Hc) as [E1 E2]. rewrite E1, E2.
    apply IH. assumption.
Qed.

Lemma blank_check_parentheses (s : string) :
  blank s -> check_parentheses s = true.
Proof.
  intros Hb. unfold check_parentheses.
  rewrite check_parentheses_from_height by constructor.
  rewrite blank_balanced by assumption. reflexivity.
Qed.

Lemma blank_is_empty_or_space (s : string) :
  blank s -> Str.isspace s || String.eqb s "" = true.
Proof.
  unfold blank. destruct s as [|c r]; intros Hb.
  - reflexivity.
  - unfold Str.isspace. rewrite Hb. reflexivity.
Qed.

Section ValidationFacts.

Variable py : PyLib.

Lemma is_well_formed_unbalanced (formula : string) (unknowns : option (list string)) :
  check_parentheses formula = false ->
  is_well_formed py formula unknowns = raise ValueError "Parentheses are not matched".
Proof. intros H. unfold is_well_formed. rewrite H. reflexivity. Qed.

Lemma is_well_formed_blank (formula : string) (unknowns : option (list string)) :
  blank formula ->
  is_well_formed py formula unknowns = raise ValueError "Formula is empty".
Proof.
  intros H. unfold is_well_formed.
  rewrite (blank_check_parentheses _ H). simpl.
  rewrite (blank_is_empty_or_space _ H). reflexivity.
Qed.

(** The only [ValueError]s of [is_well_formed] are its own two. *)
Lemma is_well_formed_raises (formula : string) (unknowns : option (list string)) (e : exn) :
  is_well_formed py formula unknowns = Raise e ->
  e = mk_exn ValueError "Parentheses are not matched"
  \/ e = mk_exn ValueError "Formula is empty"
  \/ exn_class e = OtherException "re.error".
Proof.
  unfold is_well_formed.
  destruct (negb (check_parentheses formula)).
  - intros H. injection H as <-. auto.
  - destruct (Str.isspace formula || String.eqb formula "").
    + intros H. injection H as <-. auto.
    + unfold re_findall.
      destruct (re_compile (build_pattern unknowns)); simpl.
      * destruct (class_pattern_matches items formula); discriminate.
      * intros H. injection H as <-. auto.
      * destruct (re_findall_ext py (build_pattern unknowns) formula) as [[]|]; simpl;
          try discriminate.
        intros H. injection H as <-. auto.
Qed.

End ValidationFacts.

(** C2: a formula that is empty or whitespace only yields the text
    "Formula is empty", and a formula with unbalanced parentheses (a closing
    one with no opening one before it, or an opening one never closed)
    yields the text "Parentheses are not matched"; both are returned, not
    raised, whatever the bindings.  The parentheses are checked first: the
    second answer needs no assumption that the formula is not blank, and a
    blank formula always passes the parentheses check. *)
Theorem compute_formula_empty_or_unbalanced
        (py : PyLib) (formula : string) (unknown_value : option (list (string * pyobj))) :
  (blank formula ->
   compute_formula py formula unknown_value = Ok (Text "Formula is empty"))
  /\ (unbalanced formula ->
      compute_formula py formula unknown_value = Ok (Text "Parentheses are not matched"))
  /\ (blank formula -> check_parentheses formula = true).
Proof.
  repeat split.
  - intros Hb. unfold compute_formula.
    rewrite is_well_formed_blank by assumption. reflexivity.
  - intros Hu. apply check_parentheses_false_iff in Hu. unfold compute_formula.
    rewrite is_well_formed_unbalanced by assumption. reflexivity.
  - apply blank_check_parentheses.
Qed.

Lemma compute_formula_empty_or_unbalanced_witness :
  compute_formula bare_runtime "   " (Some [("x", PyNum (PyInt 7))])
    = Ok (Text "Formula is empty")
  /\ compute_formula bare_runtime "x + 1)" (Some [("x", PyNum (PyInt 7))])
    = Ok (Text "Parentheses are not matched")
  /\ compute_formula bare_runtime "(x + 1" None
    = Ok (Text "Parentheses are not matched").
Proof.
  split; [|split].
  - apply (proj1 (compute_formula_empty_or_unbalanced bare_runtime "   " _)).
    reflexivity.
  - apply (proj1 (proj2 (compute_formula_empty_or_unbalanced bare_runtime "x + 1)" _))).
    left. exists "x + 1)", "". split; [reflexivity|]. vm_compute. lia.
  - apply (proj1 (proj2 (compute_formula_empty_or_unbalanced bare_runtime "(x + 1" _))).
    right. unfold unclosed_open. vm_compute. lia.
Defined.

(** ** The stages of [compute_formula] *)

Section PipelineFacts.

Variable py : PyLib.

(** [compute_formula] gets as far as evaluating [formula]: the input
    passes [is_well_formed] and the loop over the bindings ends with
    [formula]. *)
Definition reaches_evaluation (input_string : string)
           (bindings : list (string * pyobj)) (formula : string) : Prop :=
  is_well_formed py input_string (Some (map fst bindings)) = Ok true
  /\ substitute_values py input_string (rewrite_keywords input_string) bindings
     = Ok (Substituted formula).

Lemma compute_formula_evaluates (input_string : string)
      (bindings : list (string * pyobj)) (formula : string) :
  reaches_evaluation input_string bindings formula ->
  compute_formula py input_string (Some bindings) = evaluate_formula py formula.
Proof.
  intros [Hwf Hsub]. unfold compute_formula. rewrite Hwf, Hsub. reflexivity.
Qed.

(** A binding that passes [is_number] is not [None]. *)
Lemma is_number_not_None (value : pyobj) :
  is_number value = true -> is_None value = false.
Proof. destruct value as [[]| | |]; simpl; congruence. Qed.

(** The only exception of a conversion to [str] is the [ValueError] of an
    integer beyond the bound on digits. *)
Lemma int_str_raises (z : Z) (e : exn) :
  int_str py z = Raise e -> e = mk_exn ValueError (int_limit_str py).
Proof.
  unfold int_str. cbv zeta.
  destruct ((640 <? digits z)%nat && (0 <? int_max_str_digits py)%nat
            && (int_max_str_digits py <? digits z)%nat).
  - intros H. injection H as <-. reflexivity.
  - discriminate.
Qed.

Lemma obj_str_raises (value : pyobj) (e : exn) :
  obj_str py value = Raise e -> e = mk_exn ValueError (int_limit_str py).
Proof.
  destruct value as [[z|[]|f|re im]| | |]; cbn [obj_str num_str]; try discriminate.
  apply int_str_raises.
Qed.

(** An integer of at most 640 digits always has its text. *)
Lemma int_str_short (z : Z) :
  (digits z <= 640)%nat -> int_str py z = Ok (Str.of_Z z).
Proof.
  intros H. unfold int_str. cbv zeta.
  replace (640 <? digits z)%nat with false; [reflexivity|].
  symmetry. apply Nat.ltb_ge. assumption.
Qed.

Lemma int_str_value (z : Z) (shown : string) :
  int_str py z = Ok shown -> shown = Str.of_Z z.
Proof.
  unfold int_str. cbv zeta.
  destruct ((640 <? digits z)%nat && (0 <? int_max_str_digits py)%nat
            && (int_max_str_digits py <? digits z)%nat).
  - discriminate.
  - intros H. injection H as <-. reflexivity.
Qed.

(** A value that [is_number] rejects has a text. *)
Lemma obj_str_not_number (value : pyobj) :
  is_number value = false -> exists shown, obj_str py value = Ok shown.
Proof.
  destruct value as [[z|b|f|re im]| | |]; cbn [is_number obj_str num_str];
    try discriminate; intros _; eexists; reflexivity.
Qed.

(** The loop over the bindings never ends with a returned value. *)
Lemma substitute_values_never_returns (input_string : string)
      (items : list (string * pyobj)) :
  forall formula o,
  substitute_values py input_string formula items <> Ok (Returned o).
Proof.
  induction items as [|[key value] rest IH]; intros formula o;
    cbn [substitute_values].
  - discriminate.
  - destruct (is_word key); cbn [negb]; [|discriminate].
    destruct (is_number value) eqn:Hn; cbn [negb].
    + rewrite (is_number_not_None _ Hn). cbn [negb].
      destruct (Str.contains key input_string); [|apply IH].
      destruct (obj_str py value) as [shown|e]; cbn [bind]; [apply IH|discriminate].
    + destruct (obj_str py value) as [shown|e]; discriminate.
Qed.

(** The loop raises a [ValueError] as soon as one binding has a name that
    [is_word] rejects or a value that [is_number] rejects. *)
Lemma substitute_values_invalid (input_string : string)
      (items : list (string * pyobj)) :
  forall formula,
  List.existsb (fun '(key, value) => negb (is_word key) || negb (is_number value)) items
    = true ->
  raises (substitute_values py input_string formula items) ValueError.
Proof.
  induction items as [|[key value] rest IH]; intros formula Hbad;
    cbn [substitute_values List.existsb] in *.
  - discriminate.
  - destruct (is_word key); cbn [negb orb] in *.
    + destruct (is_number value) eqn:Hn; cbn [negb orb] in *.
      * rewrite (is_number_not_None _ Hn). cbn [negb].
        destruct (Str.contains key input_string); [|apply IH; assumption].
        destruct (obj_str py value) as [shown|e] eqn:Hs; cbn [bind].
        -- apply IH. assumption.
        -- rewrite (obj_str_raises _ _ Hs). eexists. reflexivity.
      * destruct (obj_str_not_number _ Hn) as [shown ->]. eexists. reflexivity.
    + eexists. reflexivity.
Qed.

(** Every text [evaluate_formula] returns is a square-root report. *)
Lemma evaluate_formula_text (formula text : string) :
  evaluate_formula py formula = Ok (Text text) ->
  exists value where_, text = report_sqrt value where_.
Proof.
  unfold evaluate_formula.
  destruct (_find_negative_sqrt py formula) as [[[v f]|]|e]; cbn [bind].
  - destruct (num_str py v) as [shown|e]; cbn [bind]; [|discriminate].
    intros H. injection H as <-. eauto.
  - destruct (safe_eval py formula) as [v|e].
    + discriminate.
    + destruct (exn_class e); try discriminate.
      destruct (Str.contains "math domain error" (Str.lower (exn_msg e))
                && nonempty (get_sqrt_value formula)); [|discriminate].
      destruct (computed_value <- safe_eval py (get_sqrt_value formula) ;;
                num_str py computed_value) as [shown|e'].
      * intros H. injection H as <-. eauto.
      * destruct (exn_class e'); try discriminate;
          intros H; injection H as <-; eauto.
  - discriminate.
Qed.

End PipelineFacts.

(** C10: whatever the formula and the bindings, [compute_formula] does not
    return the text "Undefined variable": the branch that returns it needs a
    binding whose value is [None], and [is_number] has rejected such a
    binding before. *)
Theorem compute_formula_never_undefined_variable
        (py : PyLib) (formula : string) (unknown_value : option (list (string * pyobj))) :
  compute_formula py formula unknown_value <> Ok (Text "Undefined variable").
Proof.
  unfold compute_formula.
  set (d := match unknown_value with Some d => d | None => [] end).
  destruct (is_well_formed py formula (Some (map fst d))) as [[|]|e] eqn:Hwf.
  - destruct (substitute_values py formula (rewrite_keywords formula) d)
      as [[f|o]|e] eqn:Hsub; simpl.
    + intros H. apply evaluate_formula_text in H as (v & w & H). discriminate H.
    + exfalso. eapply substitute_values_never_returns. eassumption.
    + discriminate.
  - discriminate.
  - apply is_well_formed_raises in Hwf as [->|[->|Hc]]; simpl; try discriminate.
    rewrite Hc. discriminate.
Qed.

(** The branch is closed by [is_number] alone: a binding to [None] whose
    name occurs in the formula makes the loop raise. *)
Lemma substitute_values_None (py : PyLib) (input_string formula key : string)
      (rest : list (string * pyobj)) :
  is_word key = true ->
  substitute_values py input_string formula ((key, PyNone) :: rest)
  = raise ValueError ("Value of '" ++ key ++ "' = None is not a number").
Proof. intros Hw. simpl. rewrite Hw. reflexivity. Qed.

(** ** The evaluator *)

Section EvaluatorFacts.

Variable py : PyLib.

(** The evaluation of the arguments of a call, from left to right. *)
Fixpoint eval_args (l : list expr) : result (list pynum) :=
  match l with
  | [] => Ok []
  | arg :: rest =>
      v <- _eval_node py arg ;;
      vs <- eval_args rest ;;
      Ok (v :: vs)
  end.

Lemma _eval_node_Call (func : expr) (args : list expr) :
  _eval_node py (Call func args)
  = (func_name <- _get_func_name func ;;
     if negb (mem func_name SAFE_FUNCTIONS)
     then raise NameError ("Unsupported function: " ++ func_name)
     else vs <- eval_args args ;; call_function py func_name vs).
Proof. reflexivity. Qed.

Lemma eval_args_raise (before : list expr) (a : expr) (after : list expr)
      (vs : list pynum) (e : exn) :
  eval_args before = Ok vs ->
  _eval_node py a = Raise e ->
  eval_args (before ++ a :: after) = Raise e.
Proof.
  revert vs. induction before as [|b before IH]; intros vs Hb Ha; simpl.
  - rewrite Ha. reflexivity.
  - simpl in Hb. destruct (_eval_node py b) as [v|e']; simpl in *; [|discriminate].
    destruct (eval_args before) as [vs'|e'] eqn:Hvs; simpl in *; [|discriminate].
    rewrite (IH vs' eq_refl Ha). reflexivity.
Qed.

(** [reaches tree node]: the evaluation of [tree] comes to evaluate
    [node], everything evaluated before it having given a value. *)
Inductive reaches : expr -> expr -> Prop :=
| reaches_here (node : expr) : reaches node node
| reaches_left (l : expr) (op : operator) (r node : expr) :
    reaches l node -> reaches (BinOp l op r) node
| reaches_right (l : expr) (op : operator) (r node : expr) (v : pynum) :
    _eval_node py l = Ok v -> reaches r node -> reaches (BinOp l op r) node
| reaches_operand (op : unaryop) (operand node : expr) :
    reaches operand node -> reaches (UnaryOp op operand) node
| reaches_argument (func : expr) (name : string) (before : list expr) (a : expr)
                   (after : list expr) (vs : list pynum) (node : expr) :
    _get_func_name func = Ok name ->
    mem name SAFE_FUNCTIONS = true ->
    eval_args before = Ok vs ->
    reaches a node ->
    reaches (Call func (before ++ a :: after)) node.

(** An exception raised where the evaluation has come to is the
    exception the evaluation of the whole tree raises. *)
Lemma reaches_raise (tree node : expr) (e : exn) :
  reaches tree node ->
  _eval_node py node = Raise e ->
  _eval_node py tree = Raise e.
Proof.
  intros Hr He. induction Hr as
    [ node | l op r node Hr IH | l op r node v Hl Hr IH | op operand node Hr IH
    | func name before a after vs node Hf Hm Hb Hr IH ].
  - assumption.
  - simpl. rewrite (IH He). reflexivity.
  - simpl. rewrite Hl. simpl. rewrite (IH He). reflexivity.
  - simpl. rewrite (IH He). reflexivity.
  - rewrite _eval_node_Call, Hf. cbn [bind]. rewrite Hm. cbn [negb].
    rewrite (eval_args_raise _ _ _ _ _ Hb (IH He)). reflexivity.
Qed.

Lemma _eval_node_Name (id : string) :
  _eval_node py (Name id) = raise NameError ("name '" ++ id ++ "' is not defined").
Proof. reflexivity. Qed.

(** What [evaluate] makes of an exception of the evaluator. *)
Definition evaluate_handler (expression : string) (e : exn) : exn :=
  match exn_class e with
  | ZeroDivisionError =>
      mk_exn ZeroDivisionError ("Can't divide by 0 in " ++ expression)
  | SyntaxError | TypeError =>
      mk_exn ValueError ("Invalid expression: " ++ expression ++ " - " ++ exn_msg e)
  | _ => e
  end.

Lemma evaluate_raise (expression : string) (tree : expr) (e : exn) :
  ast_parse py expression = Ok tree ->
  _eval_node py tree = Raise e ->
  evaluate py expression = Raise (evaluate_handler expression e).
Proof.
  intros Hp He. unfold evaluate, evaluate_handler. rewrite Hp. simpl. rewrite He.
  destruct (exn_class e); reflexivity.
Qed.

Lemma evaluate_rejected (expression : string) (e : exn) :
  ast_parse py expression = Raise e ->
  evaluate py expression = Raise (evaluate_handler expression e).
Proof.
  intros Hp. unfold evaluate, evaluate_handler. rewrite Hp. simpl.
  destruct (exn_class e); reflexivity.
Qed.

End EvaluatorFacts.

(** ** Texts without a square-root call *)

Lemma sqrt_arguments_none (s : string) :
  Str.contains "math.sqrt(" s = false -> forall skip, sqrt_arguments skip s = [].
Proof.
  induction s as [|c r IH]; intros Hc skip.
  - reflexivity.
  - cbn [Str.contains] in Hc. apply orb_false_iff in Hc as [Hs Hr].
    cbn [sqrt_arguments]. destruct skip as [|k].
    + unfold greedy_sqrt_match. rewrite Hs. apply IH. assumption.
    + apply IH. assumption.
Qed.

Lemma get_sqrt_value_none (s : string) :
  Str.contains "math.sqrt(" s = false -> get_sqrt_value s = "".
Proof.
  intros Hc. unfold get_sqrt_value.
  assert (H : first_lazy_sqrt s = None).
  { induction s as [|c r IH].
    - reflexivity.
    - cbn [Str.contains] in Hc. apply orb_false_iff in Hc as [Hs Hr].
      cbn [first_lazy_sqrt]. unfold lazy_sqrt_match at 1. rewrite Hs.
      apply IH. assumption. }
  rewrite H. reflexivity.
Qed.

(** ** The handlers of [compute_formula] *)

Section HandlerFacts.

Variable py : PyLib.

(** What lines 438-453 make of an exception [e] of [safe_eval]. *)
Definition formula_handler (formula : string) (e : exn) : result output :=
  match exn_class e with
  | ZeroDivisionError => raise ZeroDivisionError ("Can't divide by 0 in " ++ formula)
  | ValueError =>
      if Str.contains "math domain error" (Str.lower (exn_msg e))
         && nonempty (get_sqrt_value formula)
      then
        match (computed_value <- safe_eval py (get_sqrt_value formula) ;;
               num_str py computed_value) with
        | Ok shown => Ok (Text (report_sqrt shown formula))
        | Raise e' =>
            match exn_class e' with
            | ValueError | NameError | ZeroDivisionError =>
                Ok (Text (report_sqrt (get_sqrt_value formula) formula))
            | _ => Raise e'
            end
        end
      else raise ValueError ("Value Error occurred in " ++ formula ++ ": " ++ exn_msg e)
  | NameError => raise NameError (exn_msg e)
  | _ => Raise e
  end.

Lemma evaluate_formula_raise (formula : string) (e : exn) :
  _find_negative_sqrt py formula = Ok None ->
  safe_eval py formula = Raise e ->
  evaluate_formula py formula = formula_handler formula e.
Proof.
  intros Hn He. unfold evaluate_formula, formula_handler.
  rewrite Hn. cbn [bind]. rewrite He. reflexivity.
Qed.

Lemma evaluate_formula_value (formula : string) (v : pynum) :
  _find_negative_sqrt py formula = Ok None ->
  safe_eval py formula = Ok v ->
  evaluate_formula py formula = Ok (Number v).
Proof.
  intros Hn He. unfold evaluate_formula. rewrite Hn. cbn [bind]. rewrite He.
  reflexivity.
Qed.

Lemma no_sqrt_no_negative_sqrt (formula : string) :
  Str.contains "math.sqrt(" formula = false ->
  _find_negative_sqrt py formula = Ok None.
Proof.
  intros H. unfold _find_negative_sqrt.
  rewrite sqrt_arguments_none by assumption. reflexivity.
Qed.

End HandlerFacts.

(** C7, as the code has it: when the formula passes [is_well_formed] and
    some binding has a name that [is_word] rejects or a value that
    [is_number] rejects, [compute_formula] raises a [ValueError].  The
    bindings are examined one by one in the substitution loop, after the
    validation of the formula and after the keyword rewrites; when the
    validation does not pass, its answer is returned whatever the
    bindings. *)
Theorem invalid_binding_raises
        (py : PyLib) (formula : string) (bindings : list (string * pyobj)) :
  List.existsb (fun '(key, value) => negb (is_word key) || negb (is_number value))
               bindings = true ->
  (is_well_formed py formula (Some (map fst bindings)) = Ok true ->
   raises (compute_formula py formula (Some bindings)) ValueError)
  /\ (is_well_formed py formula (Some (map fst bindings)) = Ok false ->
      compute_formula py formula (Some bindings) = Ok (Text "Formula is not well formed"))
  /\ (forall msg,
      is_well_formed py formula (Some (map fst bindings)) = raise ValueError msg ->
      compute_formula py formula (Some bindings) = Ok (Text msg)).
Proof.
  intros Hbad. repeat split.
  - intros Hwf. unfold compute_formula. rewrite Hwf.
    destruct (substitute_values_invalid py formula bindings (rewrite_keywords formula) Hbad)
      as [msg Hr].
    rewrite Hr. exists msg. reflexivity.
  - intros Hwf. unfold compute_formula. rewrite Hwf. reflexivity.
  - intros msg Hwf. unfold compute_formula. rewrite Hwf. reflexivity.
Qed.

Lemma invalid_binding_raises_witness :
  raises (compute_formula bare_runtime "x + 1" (Some [("x", PyNum (PyInt 7)); ("y2", PyStr "two")]))
         ValueError.
Proof.
  apply (invalid_binding_raises bare_runtime "x + 1"
           [("x", PyNum (PyInt 7)); ("y2", PyStr "two")]); reflexivity.
Defined.

(** C7 as stated fails: with a non-alphabetic name and a non-numeric
    value in the bindings, a formula that does not pass the validation gets
    the validation's text back, and nothing is raised. *)
Lemma invalid_binding_returns_text :
  compute_formula bare_runtime "x + 1)" (Some [("x1", PyStr "seven")])
  = Ok (Text "Parentheses are not matched")
  /\ compute_formula bare_runtime "" (Some [("x1", PyStr "seven")])
     = Ok (Text "Formula is empty")
  /\ compute_formula bare_runtime "x # 1" (Some [("x1", PyStr "seven")])
     = Ok (Text "Formula is not well formed").
Proof. repeat split; vm_compute; reflexivity. Qed.

(** C4, as the code has it: the evaluator raises [NameError] on every bare
    identifier, and when the evaluation of the formula comes to a bare
    identifier, [compute_formula] raises that [NameError]. *)
Theorem undefined_name_raises
        (py : PyLib) (input_string : string) (bindings : list (string * pyobj))
        (formula : string) (tree : expr) (id : string) :
  reaches_evaluation py input_string bindings formula ->
  _find_negative_sqrt py formula = Ok None ->
  ast_parse py formula = Ok tree ->
  reaches py tree (Name id) ->
  _eval_node py (Name id) = raise NameError ("name '" ++ id ++ "' is not defined")
  /\ compute_formula py input_string (Some bindings)
     = raise NameError ("name '" ++ id ++ "' is not defined").
Proof.
  intros Hre Hneg Hparse Hreach. split; [reflexivity|].
  rewrite (compute_formula_evaluates _ _ _ _ Hre).
  pose proof (reaches_raise py _ _ _ Hreach (_eval_node_Name py id)) as Hraise.
  pose proof (evaluate_raise py _ _ _ Hparse Hraise) as Hev.
  rewrite (evaluate_formula_raise py formula _ Hneg Hev). reflexivity.
Qed.

Lemma undefined_name_raises_witness :
  compute_formula bare_runtime "x + y" (Some [("x", PyNum (PyInt 7))])
  = raise NameError "name 'y' is not defined".
Proof.
  apply (undefined_name_raises bare_runtime "x + y" [("x", PyNum (PyInt 7))] "(7) + y"
           (BinOp (Constant (CNum (PyInt 7))) Add (Name "y")) "y").
  - split; reflexivity.
  - reflexivity.
  - reflexivity.
  - eapply reaches_right; [reflexivity|]. apply reaches_here.
Defined.

(** C4 as stated fails: a formula that names an unbound identifier need
    not raise [NameError].  With only [x] bound, [x/0 + y] passes the
    validation and [y] survives the substitution, but the division is
    evaluated first and its [ZeroDivisionError] is what is raised; [x + h]
    does not pass the validation, and a text is returned. *)
Lemma undefined_name_not_raised :
  compute_formula bare_runtime "x/0 + y" (Some [("x", PyNum (PyInt 7))])
  = raise ZeroDivisionError "Can't divide by 0 in (7)/0 + y"
  /\ compute_formula bare_runtime "x + h" (Some [("x", PyNum (PyInt 7))])
     = Ok (Text "Formula is not well formed").
Proof. split; vm_compute; reflexivity. Qed.

(** What becomes of a formula that the parser rejects, once the search for
    a negative square root has found nothing. *)
Lemma rejected_formula_handled (py : PyLib) (formula : string) (e : exn) :
  _find_negative_sqrt py formula = Ok None ->
  ast_parse py formula = Raise e ->
  exn_class e = SyntaxError ->
  evaluate_formula py formula
  = formula_handler py formula
      (mk_exn ValueError ("Invalid expression: " ++ formula ++ " - " ++ exn_msg e)).
Proof.
  intros Hneg Hparse Hclass.
  pose proof (evaluate_rejected py _ _ Hparse) as Hev.
  unfold evaluate_handler in Hev. rewrite Hclass in Hev.
  apply (evaluate_formula_raise py formula _ Hneg Hev).
Qed.

(** A formula without any square-root call that the parser rejects. *)
Lemma rejected_formula_without_sqrt (py : PyLib) (formula : string) (e : exn) :
  Str.contains "math.sqrt(" formula = false ->
  ast_parse py formula = Raise e ->
  exn_class e = SyntaxError ->
  raises (evaluate_formula py formula) ValueError.
Proof.
  intros Hno Hparse Hclass.
  rewrite (rejected_formula_handled py formula e
             (no_sqrt_no_negative_sqrt py _ Hno) Hparse Hclass).
  unfold formula_handler. cbn [exn_class exn_msg].
  rewrite get_sqrt_value_none by assumption. rewrite andb_false_r.
  eexists. reflexivity.
Qed.

(** C9, as the code has it: a formula that passes the validation and that
    the parser rejects makes [compute_formula] raise a [ValueError] with the
    text "Value Error occurred in ...", provided no negative square root is
    found beforehand and the handler of domain errors has nothing to
    report (the message does not hold "math domain error", or the formula
    holds no square-root call to extract). *)
Theorem malformed_expression_raises
        (py : PyLib) (input_string : string) (bindings : list (string * pyobj))
        (formula : string) (e : exn) :
  let detail := "Invalid expression: " ++ formula ++ " - " ++ exn_msg e in
  reaches_evaluation py input_string bindings formula ->
  _find_negative_sqrt py formula = Ok None ->
  ast_parse py formula = Raise e ->
  exn_class e = SyntaxError ->
  Str.contains "math domain error" (Str.lower detail)
  && nonempty (get_sqrt_value formula) = false ->
  compute_formula py input_string (Some bindings)
  = raise ValueError ("Value Error occurred in " ++ formula ++ ": " ++ detail).
Proof.
  intros detail Hre Hneg Hparse Hclass Hno.
  rewrite (compute_formula_evaluates _ _ _ _ Hre).
  rewrite (rejected_formula_handled py formula e Hneg Hparse Hclass).
  unfold formula_handler. cbn [exn_class exn_msg]. fold detail. rewrite Hno.
  reflexivity.
Qed.

Lemma malformed_expression_raises_witness :
  compute_formula bare_runtime "x +" (Some [("x", PyNum (PyInt 7))])
  = raise ValueError
      "Value Error occurred in (7) +: Invalid expression: (7) + - invalid syntax (<unknown>, line 1)".
Proof.
  apply (malformed_expression_raises bare_runtime "x +" [("x", PyNum (PyInt 7))] "(7) +"
           (mk_exn SyntaxError "invalid syntax (<unknown>, line 1)")).
  - split; reflexivity.
  - reflexivity.
  - reflexivity.
  - reflexivity.
  - reflexivity.
Defined.

(** C9 as stated fails: [1+] passes the validation, is not an expression,
    and [compute_formula] raises instead of returning a text. *)
Lemma malformed_expression_not_returned :
  is_well_formed bare_runtime "1+" (Some []) = Ok true
  /\ ast_parse bare_runtime "1+" = raise SyntaxError "invalid syntax (<unknown>, line 1)"
  /\ compute_formula bare_runtime "1+" None
     = raise ValueError
         "Value Error occurred in 1+: Invalid expression: 1+ - invalid syntax (<unknown>, line 1)".
Proof. repeat split; vm_compute; reflexivity. Qed.

(** C8, as the code has it: when no negative square root was found
    beforehand and the evaluation raises a [ValueError] whose message holds
    "math domain error", the first square-root argument is extracted with
    [get_sqrt_value].  Without one, a [ValueError] "Value Error occurred in
    ..." is raised.  With one, a text is returned in every case: with the
    value of the argument when it evaluates to a value that has a text, and
    with the text of the argument when its evaluation raises [ValueError],
    [NameError] or [ZeroDivisionError], or gives an integer of more digits
    than the interpreter converts. *)
Theorem domain_error_handling
        (py : PyLib) (input_string : string) (bindings : list (string * pyobj))
        (formula : string) (e : exn) :
  reaches_evaluation py input_string bindings formula ->
  _find_negative_sqrt py formula = Ok None ->
  safe_eval py formula = Raise e ->
  exn_class e = ValueError ->
  Str.contains "math domain error" (Str.lower (exn_msg e)) = true ->
  let sqrt_value := get_sqrt_value formula in
  (sqrt_value = "" ->
   compute_formula py input_string (Some bindings)
   = raise ValueError ("Value Error occurred in " ++ formula ++ ": " ++ exn_msg e))
  /\ (sqrt_value <> "" ->
      forall computed_value shown,
      safe_eval py sqrt_value = Ok computed_value ->
      num_str py computed_value = Ok shown ->
      compute_formula py input_string (Some bindings)
      = Ok (Text (report_sqrt shown formula)))
  /\ (sqrt_value <> "" ->
      forall e', safe_eval py sqrt_value = Raise e' ->
      exn_class e' = ValueError \/ exn_class e' = NameError
      \/ exn_class e' = ZeroDivisionError ->
      compute_formula py input_string (Some bindings)
      = Ok (Text (report_sqrt sqrt_value formula)))
  /\ (sqrt_value <> "" ->
      forall computed_value e',
      safe_eval py sqrt_value = Ok computed_value ->
      num_str py computed_value = Raise e' ->
      compute_formula py input_string (Some bindings)
      = Ok (Text (report_sqrt sqrt_value formula))).
Proof.
  intros Hre Hneg He Hclass Hdom sqrt_value.
  rewrite (compute_formula_evaluates _ _ _ _ Hre).
  rewrite (evaluate_formula_raise py formula _ Hneg He).
  unfold formula_handler. rewrite Hclass, Hdom. fold sqrt_value.
  repeat split.
  - intros ->. reflexivity.
  - intros Hne v shown Hv Hs. destruct sqrt_value; [congruence|].
    cbn [nonempty andb]. rewrite Hv. cbn [bind]. rewrite Hs. reflexivity.
  - intros Hne e' He' Hc. destruct sqrt_value; [congruence|]. cbn [nonempty andb].
    rewrite He'. cbn [bind]. destruct Hc as [-> | [-> | ->]]; reflexivity.
  - intros Hne v e' Hv Hs. destruct sqrt_value; [congruence|].
    cbn [nonempty andb]. rewrite Hv. cbn [bind]. rewrite Hs.
    rewrite (obj_str_raises py (PyNum v) e' Hs). reflexivity.
Qed.

Lemma domain_error_handling_witness :
  compute_formula bare_runtime "mod(x, 0)" (Some [("x", PyNum (PyInt 1))])
  = raise ValueError "Value Error occurred in math.fmod((1), 0): math domain error"
  /\ compute_formula bare_runtime "sqrt(4) + mod(x, 0)" (Some [("x", PyNum (PyInt 1))])
     = Ok (Text "Can't sqrt with value (4) in math.sqrt(4) + math.fmod((1), 0)")
  /\ compute_formula bare_runtime "sqrt(x)" (Some [("x", PyNum (PyInt (-1)))])
     = Ok (Text "Can't sqrt with value ((-1) in math.sqrt((-1))").
Proof.
  split; [|split].
  - apply (domain_error_handling bare_runtime "mod(x, 0)" [("x", PyNum (PyInt 1))]
             "math.fmod((1), 0)" (mk_exn ValueError "math domain error"));
      try reflexivity.
    split; reflexivity.
  - apply (proj1 (proj2
             (domain_error_handling bare_runtime "sqrt(4) + mod(x, 0)"
                [("x", PyNum (PyInt 1))] "math.sqrt(4) + math.fmod((1), 0)"
                (mk_exn ValueError "math domain error")
                (conj eq_refl eq_refl) eq_refl eq_refl eq_refl eq_refl))
             ltac:(discriminate) (PyInt 4) "4" eq_refl eq_refl).
  - apply (proj1 (proj2 (proj2
             (domain_error_handling bare_runtime "sqrt(x)"
                [("x", PyNum (PyInt (-1)))] "math.sqrt((-1))"
                (mk_exn ValueError "math domain error")
                (conj eq_refl eq_refl) eq_refl eq_refl eq_refl eq_refl)))
             ltac:(discriminate)
             (mk_exn ValueError
                "Invalid expression: (-1 - invalid syntax (<unknown>, line 1)") eq_refl
             (or_introl eq_refl)).
Defined.

(** C8 as stated fails: with [x] bound to -1, the argument of [sqrt(x)] is
    extracted as the text [(-1], which does not evaluate, and
    [compute_formula] returns a text where the claim has it raise. *)
Lemma domain_error_not_reevaluable_returns :
  _find_negative_sqrt bare_runtime "math.sqrt((-1))" = Ok None
  /\ safe_eval bare_runtime "math.sqrt((-1))" = raise ValueError "math domain error"
  /\ get_sqrt_value "math.sqrt((-1))" = "(-1"
  /\ raises (safe_eval bare_runtime "(-1") ValueError
  /\ compute_formula bare_runtime "sqrt(x)" (Some [("x", PyNum (PyInt (-1)))])
     = Ok (Text "Can't sqrt with value ((-1) in math.sqrt((-1))").
Proof.
  repeat split; try (vm_compute; reflexivity).
  eexists. vm_compute. reflexivity.
Qed.

(** ** The sign of [fmod] *)

Definition sign_bit (f : float) : option bool :=
  match f with
  | S754_zero s | S754_infinity s | S754_finite s _ _ => Some s
  | S754_nan => None
  end.

Lemma binary_round_aux_sign (sx : bool) (mx ex : Z) (lx : location) :
  let f := binary_round_aux prec emax sx mx ex lx in
  f = S754_nan \/ sign_bit f = Some sx.
Proof.
  cbv zeta. unfold binary_round_aux.
  destruct (shr_fexp prec emax mx ex lx) as [mrs' e'].
  destruct (shr_fexp prec emax _ e' loc_Exact) as [mrs'' e''].
  destruct (shr_m mrs'') as [|m|m].
  - right. reflexivity.
  - destruct (e'' <=? emax - prec); right; reflexivity.
  - left. reflexivity.
Qed.

Lemma binary_round_sign (sx : bool) (mx : positive) (ex : Z) :
  let f := binary_round prec emax sx mx ex in
  f = S754_nan \/ sign_bit f = Some sx.
Proof.
  cbv zeta. unfold binary_round.
  destruct (shl_align mx ex _) as [mz ez]. apply binary_round_aux_sign.
Qed.

(** The remainder takes the sign of the dividend. *)
Lemma c_fmod_sign (x y : float) :
  Num.c_fmod x y <> S754_nan -> sign_bit (Num.c_fmod x y) = sign_bit x.
Proof.
  destruct x as [sx|sx| |sx mx ex], y as [sy|sy| |sy my ey];
    try (simpl; congruence).
  unfold Num.c_fmod. cbv zeta.
  remember (Z.rem (Zpos mx * 2 ^ (ex - Z.min ex ey))
                  (Zpos my * 2 ^ (ey - Z.min ex ey))) as r eqn:Er.
  assert (Hr : 0 <= r).
  { subst r. apply Z.rem_nonneg.
    - assert (0 < 2 ^ (ey - Z.min ex ey)) by (apply Z.pow_pos_nonneg; lia). lia.
    - assert (0 <= 2 ^ (ex - Z.min ex ey)) by (apply Z.pow_nonneg; lia). lia. }
  clear Er. intros Hnan. unfold binary_normalize in *.
  destruct r as [|p|p]; [| |lia].
  - destruct sx; reflexivity.
  - destruct sx; cbn [cond_Zopp Z.opp] in *.
    + destruct (binary_round_sign true p (Z.min ex ey)) as [H|H]; [congruence|exact H].
    + destruct (binary_round_sign false p (Z.min ex ey)) as [H|H]; [congruence|exact H].
Qed.

Lemma fmod_sign (x y r : float) :
  Num.fmod x y = Ok r -> r <> S754_nan -> sign_bit r = sign_bit x.
Proof.
  unfold Num.fmod.
  destruct (Num.is_inf y && Num.is_finite x).
  - intros H _. injection H as <-. reflexivity.
  - destruct (Num.is_nan (Num.c_fmod x y) && negb (Num.is_nan x) && negb (Num.is_nan y));
      [discriminate|].
    intros H Hn. injection H as <-. apply c_fmod_sign. assumption.
Qed.

(** C1: the values of the specification.  With [x] bound to 7, [x + 1] is
    8 and [x * 2] is 14 (integers), and [mod(x, 2)] is the float 1.0; with
    [x] bound to 5, [factorial(x)] is 120.  [mod] is C's [fmod], whose
    result takes the sign of the dividend ([fmod_sign]): with [x] bound to
    -7, [mod(x, 2)] is -1.0. *)
Theorem compute_formula_examples (py : PyLib) :
  compute_formula py "x + 1" (Some [("x", PyNum (PyInt 7))]) = Ok (Number (PyInt 8))
  /\ compute_formula py "x * 2" (Some [("x", PyNum (PyInt 7))]) = Ok (Number (PyInt 14))
  /\ compute_formula py "mod(x, 2)" (Some [("x", PyNum (PyInt 7))])
     = Ok (Number (PyFloat (Num.of_Z 1)))
  /\ compute_formula py "factorial(x)" (Some [("x", PyNum (PyInt 5))])
     = Ok (Number (PyInt 120))
  /\ compute_formula py "mod(x, 2)" (Some [("x", PyNum (PyInt (-7)))])
     = Ok (Number (PyFloat (Num.of_Z (-1)))).
Proof. repeat split; vm_compute; reflexivity. Qed.

(** ** Substitution of the bindings *)

Section ReplaceFacts.

(** A name that starts with a letter and holds no opening parenthesis,
    and a replacement text that starts with one and holds no letter. *)
Variable k0 : ascii.
Variable key' : string.
Variable rest' : string.
Let key := String k0 key'.
Let new := String "(" rest'.

Hypothesis k0_letter : Str.is_alpha k0 = true.
Hypothesis key_no_paren : Str.forallb (not_char "(") key = true.
Hypothesis new_no_letter : Str.forallb (fun c => negb (Str.is_alpha c)) new = true.

Lemma startswith_app_new (p t : string) :
  Str.forallb (not_char "(") p = true ->
  Str.startswith p (new ++ t) = true -> p = "".
Proof.
  destruct p as [|p0 p']; [reflexivity|].
  cbn. intros Hp H. apply andb_true_iff in Hp as [Hp0 _].
  apply andb_true_iff in H as [H0 _]. unfold not_char in Hp0.
  rewrite H0 in Hp0. discriminate.
Qed.

(** A prefix found in the result of the replacement was already there. *)
Lemma startswith_replace_scan (p : string) :
  Str.forallb (not_char "(") p = true ->
  forall s, Str.startswith p (Str.replace_scan key new O s) = true ->
  Str.startswith p s = true.
Proof.
  induction p as [|p0 p' IH]; intros Hp s H.
  - reflexivity.
  - destruct s as [|c r]; [cbn in H; discriminate|].
    cbn [Str.replace_scan] in H.
    destruct (Str.startswith key (String c r)) eqn:Hk.
    + apply startswith_app_new in H; [discriminate|assumption].
    + cbn [Str.startswith] in *. apply andb_true_iff in H as [H0 H1].
      rewrite H0. cbn [Str.forallb] in Hp. apply andb_true_iff in Hp as [_ Hp'].
      apply (IH Hp'). assumption.
Qed.

Lemma replace_scan_not_startswith (s : string) :
  Str.startswith key (Str.replace_scan key new O s) = false.
Proof.
  destruct (Str.startswith key (Str.replace_scan key new O s)) eqn:H; [|reflexivity].
  pose proof (startswith_replace_scan key key_no_paren s H) as Hs.
  destruct s as [|c r]; [cbn in Hs; discriminate|].
  cbn [Str.replace_scan] in H. rewrite Hs in H.
  apply startswith_app_new in H; [discriminate|exact key_no_paren].
Qed.

(** No occurrence of the name starts inside a text without letters. *)
Lemma contains_after_no_letter (u t : string) :
  Str.forallb (fun c => negb (Str.is_alpha c)) u = true ->
  Str.contains key (u ++ t) = Str.contains key t.
Proof.
  induction u as [|c u IH]; intros Hu.
  - reflexivity.
  - cbn [Str.forallb] in Hu. apply andb_true_iff in Hu as [Hc Hu].
    cbn [append Str.contains].
    rewrite (IH Hu).
    replace (Str.startswith key (String c (u ++ t))) with false; [reflexivity|].
    unfold key. cbn [Str.startswith].
    destruct (Ascii.eqb k0 c) eqn:E; [|reflexivity].
    apply Ascii.eqb_eq in E. subst c. rewrite k0_letter in Hc. discriminate.
Qed.

(** After the replacement no occurrence of the name is left. *)
Lemma replace_scan_removes (s : string) :
  forall skip, Str.contains key (Str.replace_scan key new skip s) = false.
Proof.
  induction s as [|c r IH]; intros skip.
  - reflexivity.
  - destruct skip as [|k]; [|cbn [Str.replace_scan]; apply IH].
    pose proof (replace_scan_not_startswith (String c r)) as Hn.
    cbn [Str.replace_scan] in *.
    destruct (Str.startswith key (String c r)).
    + rewrite contains_after_no_letter by exact new_no_letter. apply IH.
    + cbn [Str.contains]. rewrite Hn. apply IH.
Qed.

End ReplaceFacts.

Lemma letters_then_end_no_paren (s : string) :
  letters_then_end s = true -> Str.forallb (not_char "(") s = true.
Proof.
  induction s as [|c r IH]; intros H; [reflexivity|].
  cbn [letters_then_end] in H. cbn [Str.forallb].
  destruct (Str.is_alpha c) eqn:Ha.
  - rewrite (IH H), andb_true_r. unfold not_char.
    destruct (Ascii.eqb c "(") eqn:E; [|reflexivity].
    apply Ascii.eqb_eq in E. subst c. discriminate.
  - apply andb_true_iff in H as [Hc Hr]. apply Ascii.eqb_eq in Hc. subst c.
    destruct r; [reflexivity|discriminate].
Qed.

Lemma string_of_uint_no_letter (d : Decimal.uint) :
  Str.forallb (fun c => negb (Str.is_alpha c)) (NilEmpty.string_of_uint d) = true.
Proof. induction d; cbn; auto. Qed.

(** [str(n)] of an integer holds no letter. *)
Lemma of_Z_no_letter (z : Z) :
  Str.forallb (fun c => negb (Str.is_alpha c)) (Str.of_Z z) = true.
Proof.
  unfold Str.of_Z, NilZero.string_of_int.
  destruct (Z.to_int z) as [d|d]; unfold NilZero.string_of_uint.
  - destruct d; try apply string_of_uint_no_letter. reflexivity.
  - cbn [Str.forallb]. apply andb_true_iff. split; [reflexivity|].
    destruct d; try apply string_of_uint_no_letter. reflexivity.
Qed.

Lemma forallb_app (p : ascii -> bool) (a b : string) :
  Str.forallb p (a ++ b) = Str.forallb p a && Str.forallb p b.
Proof.
  induction a as [|c a IH]; cbn; [reflexivity|]. rewrite IH. apply andb_assoc.
Qed.

(** Replacing a name by the parenthesized text of an integer leaves no
    occurrence of the name. *)
Lemma replace_by_integer_removes (formula key : string) (z : Z) :
  is_word key = true ->
  Str.contains key (Str.replace formula key ("(" ++ Str.of_Z z ++ ")")) = false.
Proof.
  intros Hw. destruct key as [|k0 key']; [discriminate|].
  unfold is_word in Hw. apply andb_true_iff in Hw as [Hk0 Hl].
  cbn [Str.replace append].
  apply replace_scan_removes.
  - assumption.
  - apply letters_then_end_no_paren. assumption.
  - cbn [Str.forallb]. apply andb_true_iff. split; [reflexivity|].
    rewrite forallb_app, of_Z_no_letter. reflexivity.
Qed.

(** C6, as the code has it.  For a binding with a valid name and a numeric
    value: the name is looked for in the text the caller gave, and when it
    occurs there, its occurrences are replaced, from left to right, in the
    working text, which is the text after the keyword rewrites and after
    the substitution of the bindings before this one; when it does not
    occur there, the working text is left as it is.  The replacement is
    the text of the value between parentheses; a value that has no text (an
    integer of more digits than the interpreter converts) ends the loop
    with its [ValueError].  When the value is an integer, no occurrence of
    the name is left in the working text. *)
Theorem substitution_step
        (py : PyLib) (input_string formula key : string) (value : pyobj)
        (rest : list (string * pyobj)) :
  is_word key = true ->
  is_number value = true ->
  (Str.contains key input_string = true ->
   (forall shown, obj_str py value = Ok shown ->
    substitute_values py input_string formula ((key, value) :: rest)
    = substitute_values py input_string
        (Str.replace formula key ("(" ++ shown ++ ")")) rest)
   /\ (forall e, obj_str py value = Raise e ->
       substitute_values py input_string formula ((key, value) :: rest)
       = raise ValueError (int_limit_str py)))
  /\ (Str.contains key input_string = false ->
      substitute_values py input_string formula ((key, value) :: rest)
      = substitute_values py input_string formula rest)
  /\ (forall z shown, value = PyNum (PyInt z) -> obj_str py value = Ok shown ->
      Str.contains key (Str.replace formula key ("(" ++ shown ++ ")")) = false).
Proof.
  intros Hw Hn. split; [intros Hc; split|split].
  - intros shown Hs. cbn [substitute_values]. rewrite Hw, Hn, Hc.
    rewrite (is_number_not_None _ Hn). cbn [negb]. rewrite Hs. reflexivity.
  - intros e Hs. cbn [substitute_values]. rewrite Hw, Hn, Hc.
    rewrite (is_number_not_None _ Hn). cbn [negb]. rewrite Hs.
    rewrite (obj_str_raises py _ _ Hs). reflexivity.
  - intros Hc. cbn [substitute_values]. rewrite Hw, Hn, Hc. reflexivity.
  - intros z shown -> Hs. cbn [obj_str num_str] in Hs.
    rewrite (int_str_value py _ _ Hs).
    apply replace_by_integer_removes. assumption.
Qed.

Lemma substitution_step_witness :
  substitute_values bare_runtime "x + xy" "x + xy" [("x", PyNum (PyInt 7)); ("y", PyNum (PyInt 2))]
  = substitute_values bare_runtime "x + xy" "(7) + (7)y" [("y", PyNum (PyInt 2))]
  /\ Str.contains "x" "(7) + (7)y" = false.
Proof.
  split.
  - apply (proj1 (proj1 (substitution_step bare_runtime "x + xy" "x + xy" "x"
                           (PyNum (PyInt 7)) [("y", PyNum (PyInt 2))] eq_refl eq_refl)
                        eq_refl) "7" eq_refl).
  - apply (proj2 (proj2 (substitution_step bare_runtime "x + xy" "x + xy" "x"
                           (PyNum (PyInt 7)) [] eq_refl eq_refl)) 7 "7" eq_refl eq_refl).
Defined.

(** C6 as stated fails: the replacement is made in the rewritten text, not
    in the text the caller gave.  With [m] bound to 5, the [m] of the
    prefix [math.] that the rewrite of [sqrt(] has introduced is replaced
    too, and the formula no longer parses. *)
Lemma substitution_reaches_rewritten_text :
  rewrite_keywords "m + sqrt(4)" = "m + math.sqrt(4)"
  /\ substitute_values bare_runtime "m + sqrt(4)" (rewrite_keywords "m + sqrt(4)")
       [("m", PyNum (PyInt 5))]
     = Ok (Substituted "(5) + (5)ath.sqrt(4)")
  /\ raises (compute_formula bare_runtime "m + sqrt(4)" (Some [("m", PyNum (PyInt 5))]))
            ValueError.
Proof.
  repeat split; try (vm_compute; reflexivity).
  eexists. vm_compute. reflexivity.
Qed.

(** ** The class of allowed characters *)

(** The characters that a name can bring into the class as literals. *)
Definition plain (c : ascii) : bool :=
  negb (Ascii.eqb c "]") && negb (Ascii.eqb c backslash) && negb (Ascii.eqb c "-").

Definition lit_items (s : string) : list class_item :=
  map CLit (list_ascii_of_string s).

Definition class_prefix : string := "-+*/()0-9.xyz".
Definition class_letters : string := "sqrtlogsincostanfloorceilfactorialabsmodPIpow".

Definition prefix_items : list class_item :=
  [ CLit "-"; CLit "+"; CLit "*"; CLit "/"; CLit "("; CLit ")"; CRange "0" "9";
    CLit "."; CLit "x"; CLit "y"; CLit "z" ].

(** The class that [is_well_formed] builds from the names of the bindings. *)
Definition allowed_items (unknowns : list string) : list class_item :=
  prefix_items ++ lit_items ("," ++ Str.join unknowns)
  ++ lit_items class_letters ++ [CSpace].

(** The same as a predicate on characters: the digits, the whitespace, the
    punctuation and the letters [x y z] of the pattern, the letters of the
    keywords, and the characters of the names. *)
Definition allowed (unknowns : list string) (c : ascii) : bool :=
  Str.is_digit c || Str.is_space c
  || Str.existsb (Ascii.eqb c) "-+*/().,xyz"
  || Str.existsb (Ascii.eqb c) class_letters
  || Str.existsb (Ascii.eqb c) (Str.join unknowns).

Lemma length_append (a b : string) :
  String.length (a ++ b) = (String.length a + String.length b)%nat.
Proof. induction a as [|c a IH]; cbn; [reflexivity|]. rewrite IH. reflexivity. Qed.

Lemma next_is_dash_plain (l rest : string) :
  Str.forallb plain l = true ->
  Syntax.next_is (Ascii.eqb "-") rest = false ->
  Syntax.next_is (Ascii.eqb "-") (l ++ rest) = false.
Proof.
  destruct l as [|c l]; intros Hl Hr; [exact Hr|].
  cbn [append Syntax.next_is Str.forallb] in *.
  apply andb_true_iff in Hl as [Hc _]. unfold plain in Hc.
  rewrite Ascii.eqb_sym.
  destruct (Ascii.eqb c "-"); [|reflexivity].
  rewrite andb_false_r in Hc. discriminate.
Qed.

(** A run of plain characters is read as that many literals. *)
Lemma parse_class_plain (l : string) :
  forall fuel acc rest,
  Str.forallb plain l = true ->
  Syntax.next_is (Ascii.eqb "-") rest = false ->
  (String.length l <= fuel)%nat ->
  parse_class fuel acc (l ++ rest)
  = parse_class (fuel - String.length l) (rev (lit_items l) ++ acc) rest.
Proof.
  induction l as [|c l IH]; intros fuel acc rest Hl Hr Hf.
  - cbn. rewrite Nat.sub_0_r. reflexivity.
  - destruct fuel as [|f]; [cbn in Hf; lia|].
    cbn [Str.forallb] in Hl. apply andb_true_iff in Hl as [Hc Hl].
    pose proof (next_is_dash_plain l rest Hl Hr) as Hnext.
    unfold plain in Hc.
    apply andb_true_iff in Hc as [Hc Hdash].
    apply andb_true_iff in Hc as [Hbr Hbs].
    apply negb_true_iff in Hbr, Hbs.
    cbn [append parse_class String.length]. rewrite Hbr, Hbs. cbn [andb].
    rewrite Hnext.
    rewrite IH by (try assumption; cbn in Hf; lia).
    cbn [Nat.sub lit_items list_ascii_of_string map rev item_of_code].
    rewrite <- app_assoc. reflexivity.
Qed.

Lemma build_pattern_keys (unknowns : list string) :
  build_pattern (Some unknowns)
  = "^\s*[" ++ class_prefix ++ "," ++ Str.join unknowns ++ class_letters ++ "\s]+\s*$".
Proof. reflexivity. Qed.

Lemma parse_class_prefix (fuel : nat) (rest : string) :
  parse_class (11 + fuel) [] (class_prefix ++ String "," rest)
  = parse_class fuel (rev prefix_items) (String "," rest).
Proof. reflexivity. Qed.

Lemma parse_class_end (fuel : nat) (acc : list class_item) :
  (2 <= fuel)%nat ->
  parse_class fuel acc "\s]+\s*$" = ClassRead (rev (CSpace :: acc)) "+\s*$".
Proof.
  intros Hf. destruct fuel as [|[|f]]; try lia. reflexivity.
Qed.

Lemma forallb_plain_cons (c : ascii) (l : string) :
  plain c = true -> Str.forallb plain l = true -> Str.forallb plain (String c l) = true.
Proof. intros Hc Hl. cbn [Str.forallb]. rewrite Hc, Hl. reflexivity. Qed.

(** With names made of plain characters, the pattern compiles to the class
    of the allowed items. *)
Lemma re_compile_plain (unknowns : list string) :
  Str.forallb plain (Str.join unknowns) = true ->
  re_compile (build_pattern (Some unknowns)) = ClassPattern (allowed_items unknowns).
Proof.
  intros Hk. rewrite build_pattern_keys. set (k := Str.join unknowns) in *.
  unfold re_compile.
  change (Str.startswith "^\s*[" ("^\s*[" ++ class_prefix ++ "," ++ k ++ class_letters ++ "\s]+\s*$"))
    with true.
  cbn iota.
  change (Str.drop 5 ("^\s*[" ++ class_prefix ++ "," ++ k ++ class_letters ++ "\s]+\s*$"))
    with (class_prefix ++ String "," (k ++ class_letters ++ "\s]+\s*$")).
  set (fuel := S (String.length (class_prefix ++ String "," (k ++ class_letters ++ "\s]+\s*$")))).
  assert (Hfuel : fuel = (11 + (1 + String.length k + (String.length class_letters + 11)))%nat).
  { unfold fuel. rewrite length_append. cbn [String.length].
    rewrite length_append, length_append. cbn. lia. }
  rewrite Hfuel, parse_class_prefix.
  change (String "," (k ++ class_letters ++ "\s]+\s*$"))
    with (String "," k ++ (class_letters ++ "\s]+\s*$")).
  rewrite parse_class_plain;
    [ | apply forallb_plain_cons; [reflexivity|assumption] | reflexivity
      | cbn [String.length]; lia ].
  rewrite parse_class_plain;
    [ | reflexivity | reflexivity | cbn [String.length]; lia ].
  rewrite parse_class_end by (cbn [String.length]; lia).
  change (String.eqb "+\s*$" "+\s*$") with true. cbn iota.
  f_equal. unfold allowed_items.
  cbn [rev]. rewrite !rev_app_distr, !rev_involutive, <- !app_assoc.
  reflexivity.
Qed.

Lemma class_matches_app (a b : list class_item) (c : ascii) :
  class_matches (a ++ b) c = class_matches a c || class_matches b c.
Proof. apply existsb_app. Qed.

Lemma class_matches_lit_items (s : string) (c : ascii) :
  class_matches (lit_items s) c = Str.existsb (Ascii.eqb c) s.
Proof.
  induction s as [|a s IH]; [reflexivity|].
  unfold class_matches, lit_items in *. cbn [list_ascii_of_string map List.existsb Str.existsb].
  rewrite IH. cbn [item_matches]. rewrite Ascii.eqb_sym. reflexivity.
Qed.

Lemma class_matches_prefix (c : ascii) :
  class_matches prefix_items c || Ascii.eqb c ","
  = Str.is_digit c || Str.existsb (Ascii.eqb c) "-+*/().,xyz".
Proof. destruct c as [[] [] [] [] [] [] [] []]; reflexivity. Qed.

Lemma class_matches_allowed (unknowns : list string) (c : ascii) :
  class_matches (allowed_items unknowns) c = allowed unknowns c.
Proof.
  unfold allowed_items, allowed.
  rewrite !class_matches_app, !class_matches_lit_items.
  change (Str.existsb (Ascii.eqb c) ("," ++ Str.join unknowns))
    with (Ascii.eqb c "," || Str.existsb (Ascii.eqb c) (Str.join unknowns)).
  change (class_matches [CSpace] c) with (Str.is_space c || false).
  pose proof (class_matches_prefix c) as H.
  destruct (class_matches prefix_items c), (Ascii.eqb c ","), (Str.is_space c),
    (Str.is_digit c), (Str.existsb (Ascii.eqb c) "-+*/().,xyz"),
    (Str.existsb (Ascii.eqb c) (Str.join unknowns)),
    (Str.existsb (Ascii.eqb c) class_letters); cbn in H |- *; congruence.
Qed.

(** ** Matching the pattern *)

Definition m_dead : mstate := {| m_lead := false; m_body := false; m_trail := false |}.

Lemma m_run_dead (items : list class_item) (s : string) :
  m_run items m_dead s = false.
Proof. induction s as [|c r IH]; [reflexivity|]. cbn. exact IH. Qed.

(** A character that is neither in the class nor whitespace stops every
    match. *)
Lemma m_run_rejects (items : list class_item) (s : string) :
  forall st,
  Str.existsb (fun c => negb (class_matches items c) && negb (Str.is_space c)) s = true ->
  m_run items st s = false.
Proof.
  induction s as [|c r IH]; intros st Hbad; [discriminate|].
  cbn [Str.existsb] in Hbad. cbn [m_run].
  destruct (negb (class_matches items c) && negb (Str.is_space c)) eqn:Hc.
  - apply andb_true_iff in Hc as [Hcl Hsp].
    apply negb_true_iff in Hcl, Hsp.
    assert (Hn : Ascii.eqb c Str.newline = false).
    { destruct (Ascii.eqb c Str.newline) eqn:E; [|reflexivity].
      apply Ascii.eqb_eq in E. subst c. discriminate. }
    rewrite Hn, andb_false_r. cbn [andb orb].
    unfold m_step. rewrite Hcl, Hsp, !andb_false_r. apply m_run_dead.
  - cbn [orb] in Hbad. rewrite (IH _ Hbad), orb_false_r.
    destruct r as [|c' r']; [discriminate|]. apply andb_false_r.
Qed.

(** When whitespace belongs to the class, a text whose characters all
    belong to the class matches, unless it is empty. *)
Lemma m_run_accepts (items : list class_item) (s : string) :
  forall st,
  m_lead st || m_body st = true ->
  Str.forallb (class_matches items) s = true ->
  nonempty s = true ->
  m_run items st s = true.
Proof.
  induction s as [|c r IH]; intros st Hst Hall Hne; [discriminate|].
  cbn [Str.forallb] in Hall. apply andb_true_iff in Hall as [Hc Hr].
  cbn [m_run]. apply orb_true_iff. right.
  assert (Hb : m_body (m_step items st c) = true).
  { unfold m_step. cbn. rewrite Hst, Hc. reflexivity. }
  destruct r as [|c' r'].
  - cbn. unfold m_accept. cbn. rewrite Hst, Hc. reflexivity.
  - apply IH; [rewrite Hb; apply orb_true_r|assumption|reflexivity].
Qed.

Lemma class_pattern_matches_iff (items : list class_item) (s : string) :
  (forall c, Str.is_space c = true -> class_matches items c = true) ->
  nonempty s = true ->
  class_pattern_matches items s = Str.forallb (class_matches items) s.
Proof.
  intros Hsp Hne. unfold class_pattern_matches.
  destruct (Str.forallb (class_matches items) s) eqn:Hall.
  - apply m_run_accepts; [reflexivity|assumption|assumption].
  - apply m_run_rejects. clear Hne.
    induction s as [|c r IH]; [discriminate|].
    cbn [Str.forallb Str.existsb] in *.
    destruct (class_matches items c) eqn:Hc.
    + cbn [andb negb orb] in *. apply IH. assumption.
    + destruct (Str.is_space c) eqn:Hs; [rewrite (Hsp _ Hs) in Hc; discriminate|].
      reflexivity.
Qed.

Lemma not_blank_nonempty (s : string) :
  Str.all_space s = false -> nonempty s = true.
Proof. destruct s; [discriminate|reflexivity]. Qed.

Lemma not_blank_not_empty_or_space (s : string) :
  Str.all_space s = false -> Str.isspace s || String.eqb s "" = false.
Proof.
  destruct s as [|c r]; [discriminate|]. intros H.
  unfold Str.isspace. rewrite H. reflexivity.
Qed.

(** [is_well_formed] on a formula that is balanced and not blank, with names
    made of plain characters: whether every character is allowed. *)
Lemma is_well_formed_allowed (py : PyLib) (formula : string) (unknowns : list string) :
  check_parentheses formula = true ->
  Str.all_space formula = false ->
  Str.forallb plain (Str.join unknowns) = true ->
  is_well_formed py formula (Some unknowns) = Ok (Str.forallb (allowed unknowns) formula).
Proof.
  intros Hp Hb Hk. unfold is_well_formed. rewrite Hp. cbn [negb].
  rewrite (not_blank_not_empty_or_space _ Hb).
  unfold re_findall. rewrite (re_compile_plain _ Hk). cbn [bind].
  rewrite class_pattern_matches_iff.
  - replace (Str.forallb (class_matches (allowed_items unknowns)) formula)
      with (Str.forallb (allowed unknowns) formula).
    + destruct (Str.forallb (allowed unknowns) formula); reflexivity.
    + clear. induction formula as [|c r IH]; [reflexivity|].
      cbn [Str.forallb]. rewrite IH, class_matches_allowed. reflexivity.
  - intros c Hs. rewrite class_matches_allowed. unfold allowed. rewrite Hs.
    rewrite orb_true_r. reflexivity.
  - apply not_blank_nonempty. assumption.
Qed.

Lemma unknown_function_raises (py : PyLib) (name : string) (args : list expr) :
  mem name SAFE_FUNCTIONS = false ->
  _eval_node py (Call (Name name) args)
  = raise NameError ("Unsupported function: " ++ name).
Proof.
  intros Hm. rewrite _eval_node_Call. cbn [_get_func_name bind]. rewrite Hm.
  reflexivity.
Qed.

(** C3, as the code has it.  The validation looks at characters, not at
    names: for a formula that is balanced and not blank, and bindings whose
    names are made of plain characters, [compute_formula] returns the text
    "Formula is not well formed" exactly when some character of the formula
    is not allowed.  A call of an unknown function spelled with allowed
    characters passes the validation; the evaluator raises [NameError] on
    it. *)
Theorem not_well_formed_iff
        (py : PyLib) (formula : string) (bindings : list (string * pyobj)) :
  check_parentheses formula = true ->
  Str.all_space formula = false ->
  Str.forallb plain (Str.join (map fst bindings)) = true ->
  (compute_formula py formula (Some bindings) = Ok (Text "Formula is not well formed")
   <-> Str.forallb (allowed (map fst bindings)) formula = false)
  /\ (forall name args,
      mem name SAFE_FUNCTIONS = false ->
      raises (_eval_node py (Call (Name name) args)) NameError).
Proof.
  intros Hp Hb Hk. split.
  - unfold compute_formula. rewrite (is_well_formed_allowed py _ _ Hp Hb Hk).
    destruct (Str.forallb (allowed (map fst bindings)) formula).
    + split; [|discriminate]. intros H. exfalso.
      destruct (substitute_values py formula (rewrite_keywords formula) bindings)
        as [[f|o]|e] eqn:Hsub; cbn [bind] in H.
      * apply evaluate_formula_text in H as (v & w & H). discriminate H.
      * eapply substitute_values_never_returns. eassumption.
      * discriminate H.
    + split; reflexivity.
  - intros name args Hm. eexists. apply unknown_function_raises. assumption.
Qed.

Lemma not_well_formed_iff_witness :
  compute_formula bare_runtime "chips(x)" (Some [("x", PyNum (PyInt 7))])
  = Ok (Text "Formula is not well formed").
Proof.
  apply (proj1 (not_well_formed_iff bare_runtime "chips(x)" [("x", PyNum (PyInt 7))]
                  eq_refl eq_refl eq_refl)).
  reflexivity.
Defined.

(** C3 as stated fails: [absc] is not a supported function, but its
    letters are all allowed; [absc(x)] passes the validation and the
    evaluation raises [NameError]. *)
Lemma unknown_function_passes_validation :
  is_well_formed bare_runtime "absc(x)" (Some ["x"]) = Ok true
  /\ compute_formula bare_runtime "absc(x)" (Some [("x", PyNum (PyInt 7))])
     = raise NameError "Unsupported function: absc".
Proof. split; vm_compute; reflexivity. Qed.

(** ** Integers as floats *)

Lemma shr_m_of_loc (m : Z) (l : location) : shr_m (shr_record_of_loc m l) = m.
Proof. destruct l as [|[]]; reflexivity. Qed.

Lemma shr_1_positive (mrs : shr_record) (q : positive) :
  shr_m mrs = Zpos q ->
  1 < Zpos (digits2_pos q) ->
  exists q', shr_m (shr_1 mrs) = Zpos q'
             /\ Zpos (digits2_pos q') = Zpos (digits2_pos q) - 1.
Proof.
  destruct mrs as [m r s]. cbn [shr_m]. intros -> Hd.
  destruct q as [q|q|]; cbn [digits2_pos] in *.
  - exists q. split; [reflexivity|]. rewrite Pos2Z.inj_succ. lia.
  - exists q. split; [reflexivity|]. rewrite Pos2Z.inj_succ. lia.
  - lia.
Qed.

(** Shifting a mantissa by fewer places than it has digits leaves a
    positive mantissa. *)
Lemma iter_shr_1_positive (p : positive) :
  forall (mrs : shr_record) (q : positive),
  shr_m mrs = Zpos q ->
  Zpos p < Zpos (digits2_pos q) ->
  exists q', shr_m (iter_pos shr_1 p mrs) = Zpos q'
             /\ Zpos (digits2_pos q') = Zpos (digits2_pos q) - Zpos p.
Proof.
  induction p as [p IH|p IH|]; intros mrs q Hm Hd; cbn [iter_pos].
  - rewrite Pos2Z.inj_xI in *.
    destruct (shr_1_positive mrs q Hm) as (q1 & H1 & D1); [lia|].
    destruct (IH _ q1 H1) as (q2 & H2 & D2); [lia|].
    destruct (IH _ q2 H2) as (q3 & H3 & D3); [lia|].
    exists q3. split; [assumption|lia].
  - rewrite Pos2Z.inj_xO in *.
    destruct (IH _ q Hm) as (q2 & H2 & D2); [lia|].
    destruct (IH _ q2 H2) as (q3 & H3 & D3); [lia|].
    exists q3. split; [assumption|lia].
  - apply shr_1_positive; assumption.
Qed.

Lemma shr_fexp_positive (q : positive) (e : Z) (l : location) :
  emin prec emax <= e ->
  exists mrs e' q', shr_fexp prec emax (Zpos q) e l = (mrs, e')
                    /\ shr_m mrs = Zpos q' /\ e <= e'.
Proof.
  intros He. unfold shr_fexp, shr. cbn [Zdigits2].
  set (d := Zpos (digits2_pos q)).
  assert (Hd : 0 < d) by (unfold d; lia).
  unfold fexp, emin, prec, emax in *.
  remember (Z.max (d + e - 53) (3 - 1024 - 53) - e) as n eqn:Hn.
  destruct n as [|p|p].
  - exists (shr_record_of_loc (Zpos q) l), e, q.
    rewrite shr_m_of_loc. repeat split; lia.
  - destruct (iter_shr_1_positive p (shr_record_of_loc (Zpos q) l) q) as (q' & H & _).
    + apply shr_m_of_loc.
    + fold d. lia.
    + eexists _, _, q'. repeat split; [exact H|lia].
  - exists (shr_record_of_loc (Zpos q) l), e, q.
    rewrite shr_m_of_loc. repeat split; lia.
Qed.

Lemma round_nearest_even_positive (q : positive) (l : location) :
  exists q', round_nearest_even (Zpos q) l = Zpos q'.
Proof.
  destruct l as [|[]]; cbn [round_nearest_even].
  - exists q. reflexivity.
  - destruct (Z.even (Zpos q)); [exists q|exists (q + 1)%positive]; reflexivity.
  - exists q. reflexivity.
  - exists (q + 1)%positive. reflexivity.
Qed.

(** A float that is neither zero nor NaN. *)
Definition proper (f : float) : bool :=
  match f with
  | S754_finite _ _ _ | S754_infinity _ => true
  | _ => false
  end.

Lemma binary_round_aux_proper (sx : bool) (q : positive) (e : Z) (l : location) :
  emin prec emax <= e ->
  proper (binary_round_aux prec emax sx (Zpos q) e l) = true.
Proof.
  intros He. unfold binary_round_aux.
  destruct (shr_fexp_positive q e l He) as (mrs1 & e1 & q1 & -> & Hm1 & He1).
  rewrite Hm1.
  destruct (round_nearest_even_positive q1 (loc_of_shr_record mrs1)) as (q2 & ->).
  destruct (shr_fexp_positive q2 e1 loc_Exact) as (mrs3 & e3 & q3 & -> & Hm3 & He3);
    [lia|].
  rewrite Hm3. destruct (e3 <=? emax - prec); reflexivity.
Qed.

Lemma binary_round_proper (sx : bool) (m : positive) (e : Z) :
  emin prec emax <= e ->
  proper (binary_round prec emax sx m e) = true.
Proof.
  intros He. unfold binary_round, shl_align.
  set (e' := fexp prec emax (Zpos (digits2_pos m) + e)).
  assert (He' : emin prec emax <= e') by (unfold e', fexp; lia).
  destruct (e' - e); apply binary_round_aux_proper; assumption.
Qed.

(** An integer converts to zero only when it is zero. *)
Lemma of_Z_is_zero (z : Z) : Num.is_zero (Num.of_Z z) = (z =? 0).
Proof.
  unfold Num.of_Z, binary_normalize. destruct z as [|p|p]; [reflexivity| |].
  - pose proof (binary_round_proper false p 0) as H.
    destruct (binary_round prec emax false p 0); try reflexivity;
      (discriminate H; unfold emin, prec, emax; lia).
  - pose proof (binary_round_proper true p 0) as H.
    destruct (binary_round prec emax true p 0); try reflexivity;
      (discriminate H; unfold emin, prec, emax; lia).
Qed.

(** ** Division *)

(** [n == 0] *)
Definition num_is_zero (n : pynum) : bool :=
  match n with
  | PyInt z => z =? 0
  | PyBool b => negb b
  | PyFloat f => Num.is_zero f
  | PyComplex re im => Num.is_zero re && Num.is_zero im
  end.

Definition is_integer (n : pynum) : bool :=
  match n with
  | PyInt _ | PyBool _ => true
  | _ => false
  end.

(** A division of two integers is made on the integers; any other division
    converts its operands first, and an integer dividend must then be in
    the range of floats. *)
Definition dividend_converts (a b : pynum) : Prop :=
  match a with
  | PyInt z => is_integer b = true \/ Num.is_inf (Num.of_Z z) = false
  | _ => True
  end.

(** The operands of a float division: real, and not both integers. *)
Definition float_division (ra rb : Num.real) : bool :=
  match ra, rb with
  | Num.RInt _, Num.RInt _ => false
  | _, _ => true
  end.

Lemma real_is_zero_num (n : pynum) (r : Num.real) :
  Num.as_real n = Some r -> Num.real_is_zero r = num_is_zero n.
Proof.
  destruct n as [z|[]|f|re im]; cbn; intros H; try discriminate;
    injection H as <-; reflexivity.
Qed.

Lemma int_to_float_cases (z : Z) :
  (Num.is_inf (Num.of_Z z) = true
   /\ Num.int_to_float z = raise OverflowError "int too large to convert to float")
  \/ (Num.is_inf (Num.of_Z z) = false /\ Num.int_to_float z = Ok (Num.of_Z z)).
Proof.
  unfold Num.int_to_float. cbv zeta. destruct (Num.is_inf (Num.of_Z z)); auto.
Qed.

Section DivisionFacts.

Variable py : PyLib.

(** The division of two integers raises nothing but [ZeroDivisionError]
    and [OverflowError]. *)
Lemma int_truediv_result (x y : Z) :
  (exists q, Num.int_truediv x y = Ok q) \/ raises (Num.int_truediv x y) OverflowError.
Proof.
  unfold Num.int_truediv. cbv zeta. destruct (Num.is_inf _).
  - right. eexists. reflexivity.
  - left. eexists. reflexivity.
Qed.

Lemma int_division_raises_iff (x y : Z) :
  raises (int_binop py Div x y) ZeroDivisionError <-> (y =? 0) = true.
Proof.
  unfold int_binop. destruct (y =? 0).
  - split; [reflexivity|]. intros _. eexists. reflexivity.
  - split; [|discriminate]. intros [msg H].
    destruct (int_truediv_result x y) as [[q Hq]|[m Hq]]; rewrite Hq in H;
      discriminate H.
Qed.

Lemma float_division_raises_iff (x y : float) :
  raises (float_binop py Div x y) ZeroDivisionError <-> Num.is_zero y = true.
Proof.
  unfold float_binop. destruct (Num.is_zero y).
  - split; [reflexivity|]. intros _. eexists. reflexivity.
  - split; [|discriminate]. intros [msg H]. discriminate H.
Qed.

Lemma complex_division_raises_iff (x y : float * float) :
  raises (if Num.is_zero (fst y) && Num.is_zero (snd y)
          then raise ZeroDivisionError "complex division by zero"
          else let '(re, im) := complex_quot py x y in Ok (PyComplex re im))
         ZeroDivisionError
  <-> Num.is_zero (fst y) && Num.is_zero (snd y) = true.
Proof.
  destruct (Num.is_zero (fst y) && Num.is_zero (snd y)).
  - split; [reflexivity|]. intros _. eexists. reflexivity.
  - split; [|discriminate]. intros [msg H].
    destruct (complex_quot py x y). discriminate H.
Qed.

(** An operand converts: as a float, and as a complex number. *)
Definition converts (n : pynum) : Prop :=
  match n with
  | PyInt z => Num.is_inf (Num.of_Z z) = false
  | _ => True
  end.

(** What the conversion of an operand gives: its value, which is zero
    exactly when the operand is, or an [OverflowError] for an integer that
    is not zero. *)
Lemma to_complex_cases (n : pynum) :
  (converts n
   /\ exists x, Num.to_complex n = Ok x
                /\ Num.is_zero (fst x) && Num.is_zero (snd x) = num_is_zero n)
  \/ (~ converts n /\ num_is_zero n = false /\ raises (Num.to_complex n) OverflowError).
Proof.
  destruct n as [z|b|f|re im]; cbn [Num.to_complex num_is_zero converts].
  - destruct (int_to_float_cases z) as [[Hi ->]|[Hi ->]].
    + right. repeat split; [congruence| |eexists; reflexivity].
      destruct z; [discriminate Hi|reflexivity|reflexivity].
    + left. split; [assumption|]. exists (Num.of_Z z, Num.zero). split; [reflexivity|].
      cbn [fst snd Num.is_zero Num.zero]. rewrite andb_true_r. apply of_Z_is_zero.
  - left. split; [exact I|]. eexists. split; [reflexivity|].
    cbn [fst snd Num.is_zero Num.zero]. rewrite andb_true_r, of_Z_is_zero.
    destruct b; reflexivity.
  - left. split; [exact I|]. eexists. split; [reflexivity|].
    cbn [fst snd Num.is_zero Num.zero]. apply andb_true_r.
  - left. split; [exact I|]. eexists. split; reflexivity.
Qed.

Lemma to_float_cases (n : pynum) (r : Num.real) :
  Num.as_real n = Some r ->
  (converts n /\ exists x, Num.to_float r = Ok x /\ Num.is_zero x = num_is_zero n)
  \/ (~ converts n /\ num_is_zero n = false /\ raises (Num.to_float r) OverflowError).
Proof.
  destruct n as [z|b|f|re im]; cbn [Num.as_real]; intros H; try discriminate;
    injection H as <-; cbn [Num.to_float num_is_zero converts].
  - destruct (int_to_float_cases z) as [[Hi ->]|[Hi ->]].
    + right. repeat split; [congruence| |eexists; reflexivity].
      destruct z; [discriminate Hi|reflexivity|reflexivity].
    + left. split; [assumption|]. exists (Num.of_Z z). split; [reflexivity|].
      apply of_Z_is_zero.
  - left. split; [exact I|]. exists (Num.of_Z (Z.b2z b)). destruct b; split; reflexivity.
  - left. split; [exact I|]. exists f. split; reflexivity.
Qed.

Lemma overflow_is_not_zero_division {A : Type} (r : result A) :
  raises r OverflowError -> ~ raises r ZeroDivisionError.
Proof. intros [m ->] [m' H]. discriminate H. Qed.

Lemma raises_bind {A B : Type} (r : result A) (k : A -> result B) (c : exc_class) :
  raises r c -> raises (bind r k) c.
Proof. intros [m ->]. exists m. reflexivity. Qed.

(** The conversions come first, the dividend's before the divisor's; then
    the divisor is tested. *)
Lemma converted_division_raises_iff {A : Type} (a b : pynum)
      (ca cb : result A) (divide : A -> A -> result pynum) (zero : A -> bool) :
  (converts a /\ (exists x, ca = Ok x) \/ ~ converts a /\ raises ca OverflowError) ->
  (converts b /\ (exists y, cb = Ok y /\ zero y = num_is_zero b)
   \/ ~ converts b /\ num_is_zero b = false /\ raises cb OverflowError) ->
  (forall x y, raises (divide x y) ZeroDivisionError <-> zero y = true) ->
  raises (x <- ca ;; y <- cb ;; divide x y) ZeroDivisionError
  <-> num_is_zero b = true /\ converts a.
Proof.
  intros [[Ca (x & ->)]|[Ca Ha]] Hb Hd.
  - cbn [bind]. destruct Hb as [[Cb (y & -> & Hz)]|(Cb & Hz & Hb)].
    + cbn [bind]. rewrite Hd, Hz. intuition.
    + split.
      * intros H. exfalso. revert H. apply overflow_is_not_zero_division.
        apply raises_bind. assumption.
      * intros [H _]. congruence.
  - split.
    + intros H. exfalso. revert H. apply overflow_is_not_zero_division.
      apply raises_bind. assumption.
    + intros [_ H]. contradiction.
Qed.

(** A division raises [ZeroDivisionError] exactly when its divisor is
    zero and its dividend converts. *)
Lemma truediv_raises_iff (a b : pynum) :
  raises (binop py Div a b) ZeroDivisionError
  <-> num_is_zero b = true /\ dividend_converts a b.
Proof.
  assert (Hconv : is_integer a && is_integer b = false ->
                  (dividend_converts a b <-> converts a)).
  { unfold dividend_converts, converts.
    destruct a, b; cbn [is_integer andb]; intuition congruence. }
  unfold binop.
  destruct (Num.as_real a) as [ra|] eqn:Ha; [destruct (Num.as_real b) as [rb|] eqn:Hb|].
  - destruct (to_float_cases a ra Ha) as [[Ca (x & Hx & _)]|(Ca & _ & Hx)];
      destruct (to_float_cases b rb Hb) as [[Cb (y & Hy & Hz)]|(Cb & Hz & Hy)];
      destruct ra as [x'|x'], rb as [y'|y'];
      try (rewrite int_division_raises_iff, <- (real_is_zero_num _ _ Hb);
           cbn [Num.real_is_zero];
           destruct a as [?|?|?|? ?]; try discriminate Ha;
           destruct b as [?|?|?|? ?]; try discriminate Hb;
           cbn [dividend_converts is_integer]; intuition);
      (rewrite Hconv
         by (destruct a as [?|?|?|? ?]; try discriminate Ha;
             destruct b as [?|?|?|? ?]; try discriminate Hb; reflexivity);
       apply converted_division_raises_iff with (zero := Num.is_zero);
       [ first [ left; split; [assumption|]; eexists; eassumption
               | right; split; assumption ]
       | first [ left; split; [assumption|]; eexists; split; eassumption
               | right; repeat split; assumption ]
       | intros; apply float_division_raises_iff ]).
  - destruct b as [?|?|?|re im]; try discriminate Hb.
    rewrite Hconv by apply andb_false_r. unfold complex_truediv.
    destruct ra;
      (apply converted_division_raises_iff
         with (zero := fun y => Num.is_zero (fst y) && Num.is_zero (snd y));
       [ destruct (to_complex_cases a) as [[Ca (x & Hx & _)]|(Ca & _ & Hx)];
         [left; split; [assumption|]; eexists; eassumption|right; split; assumption]
       | left; split; [exact I|]; eexists; split; reflexivity
       | intros; apply complex_division_raises_iff ]).
  - destruct a as [?|?|?|re im]; try discriminate Ha.
    assert (Hd : dividend_converts (PyComplex re im) b <-> converts (PyComplex re im))
      by (cbn; intuition).
    rewrite Hd. unfold complex_truediv.
    apply converted_division_raises_iff
      with (zero := fun y => Num.is_zero (fst y) && Num.is_zero (snd y)).
    + left. split; [exact I|]. eexists. reflexivity.
    + destruct (to_complex_cases b) as [[Cb (y & Hy & Hz)]|(Cb & Hz & Hy)];
        [left; split; [assumption|]; eexists; split; eassumption
        |right; repeat split; assumption].
    + intros. apply complex_division_raises_iff.
Qed.

(** With a divisor that is not zero, a division of real operands that are
    not both integers is the division of the operands as floats. *)
Lemma truediv_nonzero (a b : pynum) (ra rb : Num.real) (x y : float) :
  Num.as_real a = Some ra ->
  Num.as_real b = Some rb ->
  float_division ra rb = true ->
  Num.to_float ra = Ok x ->
  Num.to_float rb = Ok y ->
  num_is_zero b = false ->
  binop py Div a b = Ok (PyFloat (SFdiv prec emax x y)).
Proof.
  intros Ha Hb Hf Hx Hy Hz. unfold binop. rewrite Ha, Hb.
  assert (Hzy : Num.is_zero y = false).
  { destruct (to_float_cases b rb Hb) as [[_ (y' & Hy' & Hz')]|(_ & _ & [m Hy'])];
      rewrite Hy' in Hy; [|discriminate Hy].
    injection Hy as <-. congruence. }
  destruct ra, rb; try discriminate Hf; rewrite Hx, Hy; cbn [bind float_binop];
    rewrite Hzy; reflexivity.
Qed.

(** A [ZeroDivisionError] raised where the evaluation has come to leaves
    [compute_formula] as a [ZeroDivisionError] about the formula. *)
Lemma zero_division_propagates (input_string : string)
      (bindings : list (string * pyobj)) (formula : string) (tree node : expr) :
  reaches_evaluation py input_string bindings formula ->
  _find_negative_sqrt py formula = Ok None ->
  ast_parse py formula = Ok tree ->
  reaches py tree node ->
  raises (_eval_node py node) ZeroDivisionError ->
  compute_formula py input_string (Some bindings)
  = raise ZeroDivisionError ("Can't divide by 0 in " ++ formula).
Proof.
  intros Hre Hneg Hparse Hreach [msg Hnode].
  rewrite (compute_formula_evaluates _ _ _ _ Hre).
  pose proof (reaches_raise py _ _ _ Hreach Hnode) as Hraise.
  pose proof (evaluate_raise py _ _ _ Hparse Hraise) as Hev.
  rewrite (evaluate_formula_raise py formula _ Hneg Hev). reflexivity.
Qed.

Lemma _eval_node_division (l r : expr) (a b : pynum) :
  _eval_node py l = Ok a ->
  _eval_node py r = Ok b ->
  _eval_node py (BinOp l Div r) = binop py Div a b.
Proof. intros Hl Hr. cbn [_eval_node]. rewrite Hl, Hr. reflexivity. Qed.

End DivisionFacts.

(** C5, as the code has it.  A division raises [ZeroDivisionError]
    exactly when its divisor is zero and its dividend converts: two
    integers are divided as integers, and any other division converts its
    operands before the divisor is tested, so that an integer dividend
    beyond the range of floats raises [OverflowError] instead.  When the
    divisor is not zero, a division of real operands that are not both
    integers is the binary64 division of the operands as floats.  When the
    evaluation of a formula comes to a division whose divisor is zero and
    whose dividend converts, [compute_formula] raises
    [ZeroDivisionError]. *)
Theorem division_by_zero (py : PyLib) :
  (forall a b,
     raises (binop py Div a b) ZeroDivisionError
     <-> num_is_zero b = true /\ dividend_converts a b)
  /\ (forall a b ra rb x y,
        Num.as_real a = Some ra -> Num.as_real b = Some rb ->
        float_division ra rb = true ->
        Num.to_float ra = Ok x -> Num.to_float rb = Ok y ->
        num_is_zero b = false ->
        binop py Div a b = Ok (PyFloat (SFdiv prec emax x y)))
  /\ (forall input_string bindings formula tree l r a b,
        reaches_evaluation py input_string bindings formula ->
        _find_negative_sqrt py formula = Ok None ->
        ast_parse py formula = Ok tree ->
        reaches py tree (BinOp l Div r) ->
        _eval_node py l = Ok a -> _eval_node py r = Ok b ->
        num_is_zero b = true -> dividend_converts a b ->
        compute_formula py input_string (Some bindings)
        = raise ZeroDivisionError ("Can't divide by 0 in " ++ formula)).
Proof.
  split; [|split].
  - apply truediv_raises_iff.
  - intros. eapply truediv_nonzero; eassumption.
  - intros input_string bindings formula tree l r a b
           Hre Hneg Hparse Hreach Hl Hr Hz Hc.
    eapply zero_division_propagates; try eassumption.
    rewrite (_eval_node_division py _ _ _ _ Hl Hr).
    apply truediv_raises_iff. split; assumption.
Qed.

Lemma division_by_zero_witness :
  compute_formula bare_runtime "x/0" (Some [("x", PyNum (PyInt 1))])
  = raise ZeroDivisionError "Can't divide by 0 in (1)/0"
  /\ binop bare_runtime Div (PyInt 7) (PyFloat (Num.of_Z 2))
     = Ok (PyFloat (S754_finite false 7881299347898368 (-51))).
Proof.
  split.
  - apply (proj2 (proj2 (division_by_zero bare_runtime)) "x/0" [("x", PyNum (PyInt 1))]
             "(1)/0"
             (BinOp (Constant (CNum (PyInt 1))) Div (Constant (CNum (PyInt 0))))
             (Constant (CNum (PyInt 1))) (Constant (CNum (PyInt 0)))
             (PyInt 1) (PyInt 0));
      try reflexivity; try (split; reflexivity); try apply reaches_here.
    left. reflexivity.
  - exact (proj1 (proj2 (division_by_zero bare_runtime)) (PyInt 7)
             (PyFloat (Num.of_Z 2)) (Num.RInt 7) (Num.RFloat (Num.of_Z 2))
             (Num.of_Z 7) (Num.of_Z 2)
             eq_refl eq_refl eq_refl eq_refl eq_refl eq_refl).
Defined.

(** C5 as stated fails: the evaluation of this formula comes to a division
    whose divisor, the float 0.0, is zero; its dividend is the integer
    10^309, beyond the range of floats, and the division raises
    [OverflowError], which [compute_formula] lets through. *)
Definition huge_over_zero : string :=
  "1000000000000000000000000000000000000000000000000000000000000000000000000000000000000000000000000000000000000000000000000000000000000000000000000000000000000000000000000000000000000000000000000000000000000000000000000000000000000000000000000000000000000000000000000000000000000000000000000000000000000000000000/abs(0)".

Lemma division_by_zero_overflows :
  ast_parse bare_runtime (rewrite_keywords huge_over_zero)
  = Ok (BinOp (Constant (CNum (PyInt (10 ^ 309)))) Div
              (Call (Attribute (Name "math") "fabs") [Constant (CNum (PyInt 0))]))
  /\ _eval_node bare_runtime
       (Call (Attribute (Name "math") "fabs") [Constant (CNum (PyInt 0))])
     = Ok (PyFloat (S754_zero false))
  /\ compute_formula bare_runtime huge_over_zero None
     = raise OverflowError "int too large to convert to float".
Proof. repeat split; vm_compute; reflexivity. Qed.

(** * Further properties of the module *)

(** ** [check_parentheses] *)

Lemma append_empty_r (s : string) : s ++ "" = s.
Proof. induction s as [|c r IH]; cbn; [reflexivity|]. rewrite IH. reflexivity. Qed.

Lemma append_assoc (a b c : string) : (a ++ b) ++ c = a ++ b ++ c.
Proof. induction a as [|x a IH]; cbn; [reflexivity|]. rewrite IH. reflexivity. Qed.

(** A walk that comes down from height [k] to the ground, followed by
    another text, goes on from where the first one ends. *)
Lemma balanced_from_app (a b : string) :
  forall k n, balanced_from k a = true ->
  balanced_from (k + n) (a ++ b) = balanced_from n b.
Proof.
  induction a as [|c r IH]; intros k n Ha; cbn [balanced_from append] in *.
  - apply Nat.eqb_eq in Ha. subst k. reflexivity.
  - destruct (Ascii.eqb c "(").
    + apply (IH (S k) n Ha).
    + destruct (Ascii.eqb c ")").
      * destruct k as [|k']; [discriminate|]. cbn [Nat.add]. apply (IH k' n Ha).
      * apply (IH k n Ha).
Qed.

Lemma check_parentheses_balanced (s : string) :
  check_parentheses s = balanced_from 0 s.
Proof.
  unfold check_parentheses. rewrite check_parentheses_from_height by constructor.
  reflexivity.
Qed.

(** X1: [check_parentheses] accepts a text exactly when no prefix of it
    holds more closing than opening parentheses and the whole text holds as
    many of each. *)
Theorem check_parentheses_accepts_iff (s : string) :
  check_parentheses s = true
  <-> (forall p q, s = p ++ q -> (closes p <= opens p)%nat) /\ opens s = closes s.
Proof.
  split.
  - intros Ht.
    assert (Hn : ~ unbalanced s).
    { intros Hu. apply check_parentheses_false_iff in Hu. congruence. }
    assert (Hp : forall p q, s = p ++ q -> (closes p <= opens p)%nat).
    { intros p q Hs. apply Nat.nlt_ge. intros Hlt. apply Hn. left.
      exists p, q. split; assumption. }
    split; [exact Hp|].
    assert (closes s <= opens s)%nat
      by (apply (Hp s ""); symmetry; apply append_empty_r).
    assert (~ (closes s < opens s)%nat) by (intros Hlt; apply Hn; right; exact Hlt).
    lia.
  - intros [Hp He].
    destruct (check_parentheses s) eqn:Hc; [reflexivity|].
    apply check_parentheses_false_iff in Hc as [(p & q & Hs & Hlt)|Hlt].
    + specialize (Hp p q Hs). lia.
    + unfold unclosed_open in Hlt. lia.
Qed.

(** X2: accepted texts compose: the concatenation of two accepted texts
    is accepted, and so is an accepted text between parentheses. *)
Theorem check_parentheses_compose (a b : string) :
  check_parentheses a = true ->
  check_parentheses b = true ->
  check_parentheses (a ++ b) = true
  /\ check_parentheses ("(" ++ a ++ ")") = true.
Proof.
  rewrite !check_parentheses_balanced. intros Ha Hb. split.
  - pose proof (balanced_from_app a b 0 0 Ha) as H. cbn [Nat.add] in H.
    rewrite H. exact Hb.
  - pose proof (balanced_from_app a ")" 0 1 Ha) as H. cbn [Nat.add] in H.
    change (balanced_from 0 ("(" ++ a ++ ")")) with (balanced_from 1 (a ++ ")")).
    rewrite H. reflexivity.
Qed.

Lemma check_parentheses_compose_witness :
  check_parentheses ("(x + 1)" ++ " * sqrt(y)") = true
  /\ check_parentheses ("(" ++ "(x + 1)" ++ ")") = true.
Proof. apply (check_parentheses_compose "(x + 1)" " * sqrt(y)"); reflexivity. Defined.

(** ** [is_word] *)

Lemma letters_then_end_iff (s : string) :
  letters_then_end s = true
  <-> exists l, Str.forallb Str.is_alpha l = true
                /\ (s = l \/ s = l ++ String Str.newline "").
Proof.
  induction s as [|c r IH]; cbn [letters_then_end].
  - split; [|reflexivity]. intros _. exists "". split; [reflexivity|left; reflexivity].
  - destruct (Str.is_alpha c) eqn:Hc.
    + rewrite IH. split.
      * intros (l & Hl & Hs). exists (String c l). split.
        -- cbn [Str.forallb]. rewrite Hc. exact Hl.
        -- destruct Hs as [->| ->]; [left|right]; reflexivity.
      * intros (l & Hl & Hs). destruct l as [|c' l'].
        -- destruct Hs as [Hs|Hs]; [discriminate|].
           cbn in Hs. injection Hs as -> _. discriminate Hc.
        -- cbn [Str.forallb] in Hl. apply andb_true_iff in Hl as [_ Hl].
           exists l'. split; [exact Hl|].
           destruct Hs as [Hs|Hs]; cbn in Hs; injection Hs as _ ->; auto.
    + split.
      * intros H. apply andb_true_iff in H as [Hn Hr].
        apply Ascii.eqb_eq in Hn. subst c. destruct r; [|discriminate].
        exists "". split; [reflexivity|right; reflexivity].
      * intros (l & Hl & Hs). destruct l as [|c' l'].
        -- destruct Hs as [Hs|Hs]; [discriminate|]. cbn in Hs.
           injection Hs as -> ->. reflexivity.
        -- cbn [Str.forallb] in Hl. apply andb_true_iff in Hl as [Hc' _].
           destruct Hs as [Hs|Hs]; cbn in Hs; injection Hs as -> _; congruence.
Qed.

Lemma is_word_letters (word : string) :
  is_word word = true
  <-> exists l, nonempty l = true /\ Str.forallb Str.is_alpha l = true
                /\ (word = l \/ word = l ++ String Str.newline "").
Proof.
  unfold is_word. destruct word as [|c r].
  - split; [discriminate|]. intros (l & Hn & _ & [Hs|Hs]); destruct l; discriminate.
  - rewrite andb_true_iff, letters_then_end_iff. split.
    + intros [Hc (l & Hl & Hs)]. exists l. split; [|split; assumption].
      destruct l as [|c' l']; [|reflexivity].
      destruct Hs as [Hs|Hs]; [discriminate|]. cbn in Hs. injection Hs as -> _.
      discriminate Hc.
    + intros (l & Hn & Hl & Hs). split; [|exists l; split; assumption].
      destruct l as [|c' l']; [discriminate|].
      cbn [Str.forallb] in Hl. apply andb_true_iff in Hl as [Hc' _].
      destruct Hs as [Hs|Hs]; cbn in Hs; injection Hs as -> _; exact Hc'.
Qed.

(** X3: [is_word] accepts exactly the texts made of one or more ASCII
    letters, and those followed by one final newline: the [$] of the pattern
    also matches before a newline that ends the text. *)
Theorem is_word_iff (word : string) :
  is_word word = true
  <-> exists l, nonempty l = true /\ Str.forallb Str.is_alpha l = true
                /\ (word = l \/ word = l ++ String Str.newline "").
Proof. apply is_word_letters. Qed.

(** ** [get_sqrt_value] *)

Lemma span_spec (p : ascii -> bool) (s : string) :
  forall a b, Syntax.span p s = (a, b) ->
  s = a ++ b /\ Str.forallb p a = true /\ Syntax.next_is p b = false.
Proof.
  induction s as [|c r IH]; intros a b H; cbn [Syntax.span] in H.
  - injection H as <- <-. repeat split.
  - destruct (p c) eqn:Hc.
    + destruct (Syntax.span p r) as [a' b'] eqn:Hr. injection H as <- <-.
      destruct (IH a' b' eq_refl) as (Hs & Ha & Hb).
      repeat split; [cbn; congruence| |exact Hb].
      cbn [Str.forallb]. rewrite Hc. exact Ha.
    + injection H as <- <-. repeat split. cbn. exact Hc.
Qed.

Lemma span_app (p : ascii -> bool) (a b : string) :
  Str.forallb p a = true -> Syntax.next_is p b = false ->
  Syntax.span p (a ++ b) = (a, b).
Proof.
  induction a as [|c a IH]; intros Ha Hb.
  - destruct b as [|c b]; [reflexivity|]. cbn in *. rewrite Hb. reflexivity.
  - cbn [Str.forallb] in Ha. apply andb_true_iff in Ha as [Hc Ha].
    cbn [append Syntax.span]. rewrite Hc, (IH Ha Hb). reflexivity.
Qed.

Lemma startswith_drop (p s : string) :
  Str.startswith p s = true -> s = p ++ Str.drop (String.length p) s.
Proof.
  revert s. induction p as [|a p IH]; intros s H.
  - reflexivity.
  - destruct s as [|b s]; [discriminate|]. cbn [Str.startswith] in H.
    apply andb_true_iff in H as [Hab Hp]. apply Ascii.eqb_eq in Hab. subst b.
    cbn. f_equal. apply IH. exact Hp.
Qed.

Lemma next_is_eqb (a : ascii) (s : string) :
  Syntax.next_is (Ascii.eqb a) s = true -> exists r, s = String a r.
Proof.
  destruct s as [|c r]; [discriminate|]. cbn. intros H.
  apply Ascii.eqb_eq in H. subst c. exists r. reflexivity.
Qed.

(** The shape of a text [get_sqrt_value] finds. *)
Definition sqrt_group (g : string) : Prop :=
  exists c rest,
    g = String c rest
    /\ Str.forallb (not_char Str.newline) g = true
    /\ Str.forallb (not_char ")") rest = true.

Lemma lazy_sqrt_match_spec (s g : string) :
  lazy_sqrt_match s = Some g ->
  sqrt_group g /\ exists after, s = "math.sqrt(" ++ g ++ ")" ++ after.
Proof.
  unfold lazy_sqrt_match. destruct (Str.startswith "math.sqrt(" s) eqn:Hs; [|discriminate].
  apply startswith_drop in Hs. cbn [String.length] in Hs.
  destruct (Str.drop 10 s) as [|c r]; [discriminate|].
  destruct (Ascii.eqb c Str.newline) eqn:Hc; [discriminate|].
  destruct (Syntax.span (not_char ")") r) as [g' after] eqn:Hspan.
  destruct (Str.forallb (not_char Str.newline) g' && Syntax.next_is (Ascii.eqb ")") after)
    eqn:Hok; [|discriminate].
  intros H. injection H as <-.
  apply andb_true_iff in Hok as [Hnl Hnext].
  destruct (span_spec _ _ _ _ Hspan) as (Hr & Hg & _).
  destruct (next_is_eqb _ _ Hnext) as [after' ->].
  split.
  - exists c, g'. repeat split; [|exact Hg].
    cbn [Str.forallb]. unfold not_char at 1. rewrite Hc. exact Hnl.
  - exists after'. rewrite Hs at 1. rewrite Hr. cbn. reflexivity.
Qed.

Lemma first_lazy_sqrt_spec (s g : string) :
  first_lazy_sqrt s = Some g ->
  sqrt_group g /\ exists before after, s = before ++ "math.sqrt(" ++ g ++ ")" ++ after.
Proof.
  induction s as [|x r IH]; cbn [first_lazy_sqrt].
  - cbn. discriminate.
  - destruct (lazy_sqrt_match (String x r)) as [g'|] eqn:Hm.
    + intros H. injection H as <-.
      destruct (lazy_sqrt_match_spec _ _ Hm) as [Hg [after Hs]].
      split; [exact Hg|]. exists "", after. exact Hs.
    + intros H. destruct (IH H) as [Hg (before & after & Hs)].
      split; [exact Hg|]. exists (String x before), after. subst r. reflexivity.
Qed.

(** X4: what [get_sqrt_value] returns, when it is not the empty text, is
    a text that follows [math.sqrt(] in the formula and is followed by a
    closing parenthesis; it holds no newline, and no closing parenthesis
    after its first character, so that an argument with parentheses of its
    own is cut at the first that closes. *)
Theorem get_sqrt_value_occurs (formula_string : string) :
  get_sqrt_value formula_string <> "" ->
  sqrt_group (get_sqrt_value formula_string)
  /\ exists before after,
       formula_string
       = before ++ "math.sqrt(" ++ get_sqrt_value formula_string ++ ")" ++ after.
Proof.
  unfold get_sqrt_value.
  destruct (first_lazy_sqrt formula_string) as [g|] eqn:H; [|congruence].
  intros _. apply first_lazy_sqrt_spec. exact H.
Qed.

Lemma get_sqrt_value_occurs_witness :
  sqrt_group (get_sqrt_value "1 + math.sqrt((2-3)*4)")
  /\ exists before after,
       "1 + math.sqrt((2-3)*4)"
       = before ++ "math.sqrt(" ++ get_sqrt_value "1 + math.sqrt((2-3)*4)" ++ ")" ++ after.
Proof. apply (get_sqrt_value_occurs "1 + math.sqrt((2-3)*4)"). discriminate. Defined.

Lemma startswith_within (n : string) :
  forall v w, Str.startswith n (v ++ w) = true ->
  (String.length n <= String.length v)%nat ->
  Str.startswith n v = true.
Proof.
  induction n as [|a n IH]; intros v w H Hl; [reflexivity|].
  destruct v as [|b v]; [cbn in Hl; lia|].
  cbn [append Str.startswith] in *. apply andb_true_iff in H as [Hab H].
  rewrite Hab. cbn [andb]. apply (IH v w H). cbn in Hl. lia.
Qed.

Lemma startswith_shorter (n : string) :
  forall u v w, Str.startswith n (u ++ v ++ w) = true ->
  (String.length n <= String.length u + String.length v)%nat ->
  Str.startswith n (u ++ v) = true.
Proof.
  induction n as [|a n IH]; intros u v w H Hl; [reflexivity|].
  destruct u as [|x u].
  - cbn [append] in *. apply (startswith_within _ v w H). exact Hl.
  - cbn [append Str.startswith] in *. apply andb_true_iff in H as [Hab H].
    rewrite Hab. cbn [andb]. apply (IH u v w H). cbn in Hl. lia.
Qed.

(** The first match of the pattern of [get_sqrt_value]. *)
Lemma first_lazy_sqrt_first (before : string) (c : ascii) (rest after : string) :
  Str.contains "math.sqrt(" (before ++ "math.sqrt") = false ->
  Str.forallb (not_char Str.newline) (String c rest) = true ->
  Str.forallb (not_char ")") rest = true ->
  first_lazy_sqrt (before ++ "math.sqrt(" ++ String c rest ++ ")" ++ after)
  = Some (String c rest).
Proof.
  intros Hb Hnl Hp.
  set (text := "math.sqrt(" ++ String c rest ++ ")" ++ after).
  induction before as [|x b IH].
  - unfold text. cbn [append first_lazy_sqrt]. unfold lazy_sqrt_match.
    cbn [Str.startswith Ascii.eqb Bool.eqb andb Str.drop].
    cbn [Str.forallb] in Hnl. apply andb_true_iff in Hnl as [Hc Hnl].
    unfold not_char in Hc. apply negb_true_iff in Hc. rewrite Hc.
    rewrite (span_app (not_char ")") rest (String ")" after) Hp eq_refl).
    rewrite Hnl. reflexivity.
  - cbn [append Str.contains] in Hb. apply orb_false_iff in Hb as [Hs Hb].
    cbn [append first_lazy_sqrt].
    replace (lazy_sqrt_match (String x (b ++ text))) with (@None string);
      [apply (IH Hb)|].
    unfold lazy_sqrt_match.
    destruct (Str.startswith "math.sqrt(" (String x (b ++ text))) eqn:E;
      [|reflexivity].
    exfalso.
    assert (E' : Str.startswith "math.sqrt("
                   (String x b ++ "math.sqrt" ++ String "(" (String c rest ++ ")" ++ after))
                 = true) by exact E.
    apply startswith_shorter in E'; [|cbn; lia].
    cbn [append] in E'. rewrite E' in Hs. discriminate.
Qed.

(** X5: [get_sqrt_value] returns the text between the first [math.sqrt(]
    of the formula and the first closing parenthesis after the first
    character of that text. *)
Theorem get_sqrt_value_first (before : string) (c : ascii) (rest after : string) :
  Str.contains "math.sqrt(" (before ++ "math.sqrt") = false ->
  Str.forallb (not_char Str.newline) (String c rest) = true ->
  Str.forallb (not_char ")") rest = true ->
  get_sqrt_value (before ++ "math.sqrt(" ++ String c rest ++ ")" ++ after)
  = String c rest.
Proof.
  intros Hb Hnl Hp. unfold get_sqrt_value.
  rewrite (first_lazy_sqrt_first before c rest after Hb Hnl Hp). reflexivity.
Qed.

Lemma get_sqrt_value_first_witness :
  get_sqrt_value ("math.log(2) + " ++ "math.sqrt(" ++ "(0-1" ++ ")" ++ ")") = "(0-1".
Proof.
  apply (get_sqrt_value_first "math.log(2) + " "(" "0-1" ")"); reflexivity.
Defined.

(** ** [_find_negative_sqrt] *)

Lemma negative_sqrt_among_spec (py : PyLib) (formula : string) (args : list string) :
  (forall value where_,
     negative_sqrt_among py formula args = Ok (Some (value, where_)) ->
     where_ = formula /\ lt_zero value = Ok true
     /\ exists arg, In arg args /\ safe_eval py arg = Ok value)
  /\ (forall e, negative_sqrt_among py formula args = Raise e ->
      exn_class e <> ValueError /\ exn_class e <> NameError
      /\ exn_class e <> ZeroDivisionError).
Proof.
  induction args as [|arg rest [IHv IHe]]; cbn [negative_sqrt_among].
  - split; intros; discriminate.
  - destruct (safe_eval py arg) as [v|e0] eqn:Hev; cbn [bind].
    + destruct (lt_zero v) as [[|]|e1] eqn:Hlt; cbn [bind].
      * split; [|discriminate]. intros value where_ H. injection H as <- <-.
        repeat split; [exact Hlt|]. exists arg. split; [left; reflexivity|exact Hev].
      * split.
        -- intros value where_ H. destruct (IHv _ _ H) as (Hw & Hl & a & Hin & Ha).
           repeat split; try assumption. exists a. split; [right; exact Hin|exact Ha].
        -- exact IHe.
      * destruct v; cbn in Hlt; try discriminate. injection Hlt as <-.
        cbn [exn_class]. split; [discriminate|].
        intros e H. injection H as <-. cbn. repeat split; discriminate.
    + destruct (exn_class e0) eqn:Hc;
        try (split;
             [ intros value where_ H; destruct (IHv _ _ H) as (Hw & Hl & a & Hin & Ha);
               repeat split; try assumption; exists a; split; [right; exact Hin|exact Ha]
             | exact IHe ]);
        (split; [discriminate|]; intros e H; injection H as <-; rewrite Hc;
         repeat split; discriminate).
Qed.

(** X6: [_find_negative_sqrt] answers with the formula it was given and
    with a value that is negative and is the value of one of the arguments
    it has matched; an exception it lets through is never a [ValueError], a
    [NameError] or a [ZeroDivisionError]. *)
Theorem find_negative_sqrt_answer (py : PyLib) (formula : string) :
  (forall value where_,
     _find_negative_sqrt py formula = Ok (Some (value, where_)) ->
     where_ = formula /\ lt_zero value = Ok true
     /\ exists arg, In arg (sqrt_arguments O formula) /\ safe_eval py arg = Ok value)
  /\ (forall e, _find_negative_sqrt py formula = Raise e ->
      exn_class e <> ValueError /\ exn_class e <> NameError
      /\ exn_class e <> ZeroDivisionError).
Proof. apply negative_sqrt_among_spec. Qed.

Lemma find_negative_sqrt_answer_witness :
  _find_negative_sqrt bare_runtime "math.sqrt(4) + math.sqrt(2-5)"
  = Ok (Some (PyInt (-3), "math.sqrt(4) + math.sqrt(2-5)"))
  /\ lt_zero (PyInt (-3)) = Ok true.
Proof.
  split; [reflexivity|].
  apply (proj1 (find_negative_sqrt_answer bare_runtime "math.sqrt(4) + math.sqrt(2-5)")
           (PyInt (-3)) "math.sqrt(4) + math.sqrt(2-5)" eq_refl).
Defined.

(** ** [SafeEvaluator.evaluate] *)

(** X7: [evaluate] never raises a [SyntaxError] or a [TypeError], which it
    turns into [ValueError]s, and a [ZeroDivisionError] it raises names the
    expression. *)
Theorem evaluate_exceptions (py : PyLib) (expression : string) (e : exn) :
  evaluate py expression = Raise e ->
  exn_class e <> SyntaxError /\ exn_class e <> TypeError
  /\ (exn_class e = ZeroDivisionError ->
      exn_msg e = "Can't divide by 0 in " ++ expression).
Proof.
  unfold evaluate.
  destruct (tree <- ast_parse py expression ;; _eval_node py tree) as [v|e0];
    [discriminate|].
  destruct (exn_class e0) eqn:Hc; intros H; injection H as <-;
    cbn [exn_class exn_msg]; try rewrite Hc;
    repeat split; try discriminate; try reflexivity.
Qed.

Lemma evaluate_exceptions_witness :
  evaluate bare_runtime "1/0" = raise ZeroDivisionError "Can't divide by 0 in 1/0"
  /\ exn_msg (mk_exn ZeroDivisionError "Can't divide by 0 in 1/0")
     = "Can't divide by 0 in " ++ "1/0".
Proof.
  split; [reflexivity|].
  apply (proj2 (proj2 (evaluate_exceptions bare_runtime "1/0" _ eq_refl))).
  reflexivity.
Defined.

(** ** What the evaluator accepts *)

Section ExprInduction.

Variable P : expr -> Prop.

Hypothesis HConstant : forall value, P (Constant value).
Hypothesis HBinOp : forall l op r, P l -> P r -> P (BinOp l op r).
Hypothesis HUnaryOp : forall op operand, P operand -> P (UnaryOp op operand).
Hypothesis HCall : forall func args, P func -> Forall P args -> P (Call func args).
Hypothesis HAttribute : forall value attr, P value -> P (Attribute value attr).
Hypothesis HName : forall id, P (Name id).
Hypothesis HOtherNode : forall type_name, P (OtherNode type_name).

(** Induction on trees, the arguments of a call included. *)
Fixpoint expr_induction (e : expr) : P e :=
  match e with
  | Constant value => HConstant value
  | BinOp l op r => HBinOp l op r (expr_induction l) (expr_induction r)
  | UnaryOp op operand => HUnaryOp op operand (expr_induction operand)
  | Call func args =>
      HCall func args (expr_induction func)
        ((fix all (l : list expr) : Forall P l :=
            match l with
            | [] => Forall_nil P
            | a :: r => Forall_cons a (expr_induction a) (all r)
            end) args)
  | Attribute value attr => HAttribute value attr (expr_induction value)
  | Name id => HName id
  | OtherNode type_name => HOtherNode type_name
  end.

End ExprInduction.

(** The operators of [SAFE_OPERATORS]. *)
Definition supported_operator (op : operator) : bool :=
  match op with
  | OtherOperator _ => false
  | _ => true
  end.

Definition supported_unaryop (op : unaryop) : bool :=
  match op with
  | OtherUnaryOp _ => false
  | _ => true
  end.

(** The trees built from the constructs of the three tables only: [int],
    [bool] and [float] constants, the operators of [SAFE_OPERATORS], calls of
    the functions of [SAFE_FUNCTIONS], and the constant [math.pi]. *)
Inductive permitted : expr -> Prop :=
| permitted_number (n : pynum) :
    is_number (PyNum n) = true -> permitted (Constant (CNum n))
| permitted_binop (l : expr) (op : operator) (r : expr) :
    supported_operator op = true -> permitted l -> permitted r ->
    permitted (BinOp l op r)
| permitted_unaryop (op : unaryop) (operand : expr) :
    supported_unaryop op = true -> permitted operand ->
    permitted (UnaryOp op operand)
| permitted_call (func : expr) (name : string) (args : list expr) :
    _get_func_name func = Ok name -> mem name SAFE_FUNCTIONS = true ->
    Forall permitted args -> permitted (Call func args)
| permitted_pi : permitted (Attribute (Name "math") "pi").

Lemma eval_args_values (py : PyLib) (args : list expr) (vs : list pynum) :
  eval_args py args = Ok vs ->
  Forall (fun a => exists v, _eval_node py a = Ok v) args.
Proof.
  revert vs. induction args as [|a rest IH]; intros vs H; [constructor|].
  cbn [eval_args] in H.
  destruct (_eval_node py a) as [v|e] eqn:Ha; cbn [bind] in H; [|discriminate].
  destruct (eval_args py rest) as [vs'|e] eqn:Hr; cbn [bind] in H; [|discriminate].
  constructor; [exists v; exact Ha|]. apply (IH vs'). reflexivity.
Qed.

Lemma dotted_math_pi (base attr : string) :
  base ++ "." ++ attr = "math.pi" -> base = "math" /\ attr = "pi".
Proof.
  intros H.
  destruct base as [|c0 base]; cbn in H; [discriminate|]. injection H as -> H.
  destruct base as [|c1 base]; cbn in H; [discriminate|]. injection H as -> H.
  destruct base as [|c2 base]; cbn in H; [discriminate|]. injection H as -> H.
  destruct base as [|c3 base]; cbn in H; [discriminate|]. injection H as -> H.
  destruct base as [|c4 base]; cbn in H.
  - injection H as <-. split; reflexivity.
  - injection H as -> H.
    destruct base as [|c5 base]; cbn in H; [discriminate|]. injection H as -> H.
    destruct base as [|c6 base]; cbn in H; [discriminate|]. injection H as -> H.
    destruct base; discriminate.
Qed.

Lemma dotted_not_math (base attr : string) : base ++ "." ++ attr <> "math".
Proof.
  intros H.
  destruct base as [|c0 base]; cbn in H; [discriminate|]. injection H as -> H.
  destruct base as [|c1 base]; cbn in H; [discriminate|]. injection H as -> H.
  destruct base as [|c2 base]; cbn in H; [discriminate|]. injection H as -> H.
  destruct base as [|c3 base]; cbn in H; [discriminate|]. injection H as -> H.
  destruct base; discriminate.
Qed.

Lemma attribute_base_math (value : expr) :
  _get_attr_name_base value = Ok "math" -> value = Name "math".
Proof.
  destruct value; cbn [_get_attr_name_base]; try discriminate.
  - destruct (_get_attr_name_base value) as [base|e]; cbn [bind]; [|discriminate].
    intros H. injection H as H. exfalso. exact (dotted_not_math _ _ H).
  - intros H. injection H as ->. reflexivity.
Qed.

(** The only attribute that has a value is [math.pi]. *)
Lemma evaluated_attribute (py : PyLib) (value : expr) (attr : string) (v : pynum) :
  _eval_node py (Attribute value attr) = Ok v ->
  value = Name "math" /\ attr = "pi" /\ v = PyFloat Num.pi.
Proof.
  cbn [_eval_node]. unfold _get_attr_name.
  destruct (_get_attr_name_base value) as [base|e] eqn:Hb; cbn [bind]; [|discriminate].
  unfold SAFE_CONSTANTS. cbn [assoc].
  destruct (String.eqb "math.pi" (base ++ "." ++ attr)) eqn:E; [|discriminate].
  apply String.eqb_eq in E. symmetry in E.
  destruct (dotted_math_pi _ _ E) as [-> ->].
  intros H. injection H as <-.
  split; [apply attribute_base_math; exact Hb|split; reflexivity].
Qed.

(** X8: whatever the evaluator gives a value to is built from the
    constructs of its three tables only: a tree that evaluates holds, where
    it is evaluated, nothing but numeric constants, the operators of
    [SAFE_OPERATORS], calls of the functions of [SAFE_FUNCTIONS] and the
    constant [math.pi]. *)
Theorem evaluated_is_permitted (py : PyLib) (e : expr) :
  forall v, _eval_node py e = Ok v -> permitted e.
Proof.
  induction e as
    [ value | l op r IHl IHr | op operand IH | func args _ IHargs | value attr _
    | id | type_name ] using expr_induction; intros v H.
  - cbn [_eval_node] in H. destruct value as [[z|b|f|re im]|t]; try discriminate;
      constructor; reflexivity.
  - cbn [_eval_node] in H.
    destruct (_eval_node py l) as [a|e] eqn:Hl; cbn [bind] in H; [|discriminate].
    destruct (_eval_node py r) as [b|e] eqn:Hr; cbn [bind] in H; [|discriminate].
    destruct op; try discriminate;
      (constructor; [reflexivity|apply (IHl a); reflexivity|apply (IHr b); reflexivity]).
  - cbn [_eval_node] in H.
    destruct (_eval_node py operand) as [a|e] eqn:Ho; cbn [bind] in H; [|discriminate].
    destruct op; try discriminate;
      (constructor; [reflexivity|apply (IH a); reflexivity]).
  - rewrite _eval_node_Call in H.
    destruct (_get_func_name func) as [name|e] eqn:Hf; cbn [bind] in H; [|discriminate].
    destruct (mem name SAFE_FUNCTIONS) eqn:Hm; cbn [negb] in H; [|discriminate].
    destruct (eval_args py args) as [vs|e] eqn:Ha; cbn [bind] in H; [|discriminate].
    apply (permitted_call func name args Hf Hm).
    pose proof (eval_args_values py args vs Ha) as Hv.
    clear -IHargs Hv. induction args as [|a rest IHrest]; [constructor|].
    inversion IHargs as [|? ? Ha Hrest]; subst.
    inversion Hv as [|? ? [v Hv1] Hv2]; subst.
    constructor; [apply (Ha v Hv1)|apply IHrest; assumption].
  - destruct (evaluated_attribute py value attr v H) as (-> & -> & _).
    constructor.
  - discriminate.
  - discriminate.
Qed.

Lemma evaluated_is_permitted_witness :
  permitted (BinOp (Call (Attribute (Name "math") "sqrt") [Constant (CNum (PyInt 4))])
                   Add (Attribute (Name "math") "pi")).
Proof.
  apply (evaluated_is_permitted bare_runtime _
           (PyFloat (S754_finite false 5788918689699468 (-50)))).
  vm_compute. reflexivity.
Defined.

(** ** Dotted names *)

(** The tree of [root.a1.a2...] and the text of a dotted name. *)
Fixpoint attribute_chain (root : expr) (attrs : list string) : expr :=
  match attrs with
  | [] => root
  | a :: rest => attribute_chain (Attribute root a) rest
  end.

Fixpoint dotted (base : string) (attrs : list string) : string :=
  match attrs with
  | [] => base
  | a :: rest => dotted (base ++ "." ++ a) rest
  end.

Definition is_name_or_attribute (node : expr) : bool :=
  match node with
  | Name _ | Attribute _ _ => true
  | _ => false
  end.

Lemma attribute_chain_base (attrs : list string) :
  forall root base, _get_attr_name_base root = Ok base ->
  _get_attr_name_base (attribute_chain root attrs) = Ok (dotted base attrs).
Proof.
  induction attrs as [|a rest IH]; intros root base H; cbn; [exact H|].
  apply IH. cbn [_get_attr_name_base]. rewrite H. reflexivity.
Qed.

Lemma attribute_chain_raises (attrs : list string) :
  forall root, raises (_get_attr_name_base root) ValueError ->
  raises (_get_attr_name_base (attribute_chain root attrs)) ValueError.
Proof.
  induction attrs as [|a rest IH]; intros root H; cbn; [exact H|].
  apply IH. cbn [_get_attr_name_base]. destruct H as [msg ->]. exists msg. reflexivity.
Qed.

(** X9: the name [_get_func_name] and [_get_attr_name_base] give to a
    chain of attributes on a name is the dotted name, and a chain on anything
    else (a number, a call) raises [ValueError]. *)
Theorem attribute_chain_name (attrs : list string) :
  (forall id,
     _get_attr_name_base (attribute_chain (Name id) attrs) = Ok (dotted id attrs)
     /\ _get_func_name (attribute_chain (Name id) attrs) = Ok (dotted id attrs))
  /\ (forall root, is_name_or_attribute root = false ->
      raises (_get_attr_name_base (attribute_chain root attrs)) ValueError
      /\ raises (_get_func_name (attribute_chain root attrs)) ValueError).
Proof.
  assert (Hfunc : forall node, is_name_or_attribute node = true ->
                  _get_func_name node = _get_attr_name_base node).
  { intros [] H; try discriminate; reflexivity. }
  assert (Hkind : forall root, attrs <> [] ->
                  is_name_or_attribute (attribute_chain root attrs) = true).
  { induction attrs as [|a rest IH]; intros root Hne; [congruence|].
    cbn [attribute_chain]. destruct rest as [|b rest']; [reflexivity|].
    apply IH. discriminate. }
  split.
  - intros id.
    assert (H : _get_attr_name_base (attribute_chain (Name id) attrs)
                = Ok (dotted id attrs))
      by (apply attribute_chain_base; reflexivity).
    split; [exact H|].
    destruct attrs as [|a rest]; [reflexivity|].
    rewrite Hfunc by (apply Hkind; discriminate). exact H.
  - intros root Hroot.
    assert (H : raises (_get_attr_name_base (attribute_chain root attrs)) ValueError).
    { apply attribute_chain_raises. destruct root; try discriminate Hroot;
        eexists; reflexivity. }
    split; [exact H|].
    destruct attrs as [|a rest].
    + cbn. destruct root; try discriminate Hroot; eexists; reflexivity.
    + rewrite Hfunc by (apply Hkind; discriminate). exact H.
Qed.

Lemma attribute_chain_name_witness :
  raises (_get_func_name (attribute_chain (Constant (CNum (PyInt 1))) ["real"]))
         ValueError.
Proof.
  apply (proj2 (attribute_chain_name ["real"]) (Constant (CNum (PyInt 1))) eq_refl).
Defined.

(** ** The texts [compute_formula] returns *)

(** A text [evaluate_formula] returns is a square-root report about the
    formula it was given. *)
Lemma evaluate_formula_report (py : PyLib) (formula text : string) :
  evaluate_formula py formula = Ok (Text text) ->
  exists value, text = report_sqrt value formula.
Proof.
  unfold evaluate_formula.
  destruct (_find_negative_sqrt py formula) as [[[v f]|]|e] eqn:Hn; cbn [bind].
  - destruct (proj1 (negative_sqrt_among_spec py formula (sqrt_arguments O formula)) v f Hn) as [-> _].
    destruct (num_str py v) as [shown|e]; cbn [bind]; [|discriminate].
    intros H. injection H as <-. eauto.
  - destruct (safe_eval py formula) as [v|e].
    + discriminate.
    + destruct (exn_class e); try discriminate.
      destruct (Str.contains "math domain error" (Str.lower (exn_msg e))
                && nonempty (get_sqrt_value formula)); [|discriminate].
      destruct (computed_value <- safe_eval py (get_sqrt_value formula) ;;
                num_str py computed_value) as [shown|e'].
      * intros H. injection H as <-. eauto.
      * destruct (exn_class e'); try discriminate;
          intros H; injection H as <-; eauto.
  - discriminate.
Qed.

(** X10: a text that [compute_formula] returns is one of the three
    answers of the validation, or a square-root report about the formula
    that the rewrites and the substitution have produced. *)
Theorem compute_formula_texts
        (py : PyLib) (input_string : string) (bindings : list (string * pyobj))
        (text : string) :
  compute_formula py input_string (Some bindings) = Ok (Text text) ->
  text = "Formula is not well formed"
  \/ text = "Parentheses are not matched"
  \/ text = "Formula is empty"
  \/ exists value formula,
       substitute_values py input_string (rewrite_keywords input_string) bindings
       = Ok (Substituted formula)
       /\ text = report_sqrt value formula.
Proof.
  unfold compute_formula.
  destruct (is_well_formed py input_string (Some (map fst bindings))) as [[|]|e] eqn:Hwf.
  - destruct (substitute_values py input_string (rewrite_keywords input_string) bindings)
      as [[f|o]|e] eqn:Hsub; cbn [bind].
    + intros H. apply evaluate_formula_report in H as [value ->].
      right. right. right. exists value, f. split; reflexivity.
    + exfalso. eapply substitute_values_never_returns. eassumption.
    + discriminate.
  - intros H. injection H as <-. left. reflexivity.
  - apply is_well_formed_raises in Hwf as [->|[->|Hc]]; cbn [exn_class exn_msg].
    + intros H. injection H as <-. auto.
    + intros H. injection H as <-. auto.
    + rewrite Hc. discriminate.
Qed.

Lemma compute_formula_texts_witness :
  "Can't sqrt with value (2-(5) in math.sqrt(2-(5))" = "Formula is not well formed"
  \/ "Can't sqrt with value (2-(5) in math.sqrt(2-(5))" = "Parentheses are not matched"
  \/ "Can't sqrt with value (2-(5) in math.sqrt(2-(5))" = "Formula is empty"
  \/ exists value formula,
       substitute_values bare_runtime "sqrt(2-x)" (rewrite_keywords "sqrt(2-x)")
         [("x", PyNum (PyInt 5))]
       = Ok (Substituted formula)
       /\ "Can't sqrt with value (2-(5) in math.sqrt(2-(5))" = report_sqrt value formula.
Proof.
  apply (compute_formula_texts bare_runtime "sqrt(2-x)" [("x", PyNum (PyInt 5))]).
  vm_compute. reflexivity.
Defined.

(** ** Bindings and the validation *)

Lemma is_well_formed_true (py : PyLib) (formula : string)
      (unknowns : option (list string)) :
  is_well_formed py formula unknowns = Ok true ->
  check_parentheses formula = true /\ Str.all_space formula = false.
Proof.
  unfold is_well_formed.
  destruct (check_parentheses formula); cbn [negb]; [|discriminate].
  destruct formula as [|c r]; [discriminate|].
  unfold Str.isspace. destruct (Str.all_space (String c r)); [discriminate|].
  intros _. split; reflexivity.
Qed.

Lemma letters_plain (l : string) :
  Str.forallb Str.is_alpha l = true -> Str.forallb plain l = true.
Proof.
  induction l as [|c l IH]; [reflexivity|]. cbn [Str.forallb].
  intros H. apply andb_true_iff in H as [Hc Hl]. rewrite (IH Hl), andb_true_r.
  destruct c as [[] [] [] [] [] [] [] []]; try discriminate Hc; reflexivity.
Qed.

(** A name that [is_word] accepts brings only literals into the class. *)
Lemma is_word_plain (word : string) :
  is_word word = true -> Str.forallb plain word = true.
Proof.
  intros H. apply is_word_letters in H as (l & _ & Hl & [->| ->]).
  - apply letters_plain. exact Hl.
  - rewrite forallb_app, (letters_plain _ Hl). reflexivity.
Qed.

Lemma existsb_app (p : ascii -> bool) (a b : string) :
  Str.existsb p (a ++ b) = Str.existsb p a || Str.existsb p b.
Proof.
  induction a as [|c a IH]; cbn; [reflexivity|]. rewrite IH. apply orb_assoc.
Qed.

Lemma join_cons (key : string) (l : list string) :
  Str.join (key :: l) = key ++ Str.join l.
Proof.
  destruct l as [|x l]; cbn; [symmetry; apply append_empty_r|reflexivity].
Qed.

(** One more name only adds to the allowed characters. *)
Lemma allowed_cons (key : string) (unknowns : list string) (c : ascii) :
  allowed unknowns c = true -> allowed (key :: unknowns) c = true.
Proof.
  unfold allowed. intros H.
  rewrite join_cons, existsb_app.
  destruct (Str.is_digit c), (Str.is_space c),
    (Str.existsb (Ascii.eqb c) "-+*/().,xyz"),
    (Str.existsb (Ascii.eqb c) class_letters),
    (Str.existsb (Ascii.eqb c) (Str.join unknowns));
    try discriminate H; rewrite ?orb_true_r; reflexivity.
Qed.

(** X11: a binding whose name does not occur in the formula is ignored:
    for a formula that passes the validation, putting such a binding, with a
    valid name and a numeric value, before the others changes nothing
    of what [compute_formula] gives. *)
Theorem unused_binding_ignored
        (py : PyLib) (formula key : string) (value : pyobj)
        (bindings : list (string * pyobj)) :
  is_word key = true ->
  is_number value = true ->
  Str.contains key formula = false ->
  Str.forallb plain (Str.join (map fst bindings)) = true ->
  is_well_formed py formula (Some (map fst bindings)) = Ok true ->
  compute_formula py formula (Some ((key, value) :: bindings))
  = compute_formula py formula (Some bindings).
Proof.
  intros Hw Hn Hc Hk Hwf.
  destruct (is_well_formed_true _ _ _ Hwf) as [Hp Hb].
  assert (Hwf' : is_well_formed py formula (Some (map fst ((key, value) :: bindings)))
                 = Ok true).
  { rewrite (is_well_formed_allowed py _ _ Hp Hb Hk) in Hwf. injection Hwf as Hall.
    cbn [map fst]. rewrite (is_well_formed_allowed py _ _ Hp Hb).
    - f_equal. clear -Hall. induction formula as [|c r IH]; [reflexivity|].
      cbn [Str.forallb] in *. apply andb_true_iff in Hall as [Hc Hr].
      rewrite (allowed_cons _ _ _ Hc), (IH Hr). reflexivity.
    - rewrite join_cons, forallb_app, (is_word_plain _ Hw), Hk. reflexivity. }
  unfold compute_formula. rewrite Hwf, Hwf'.
  cbn [substitute_values]. rewrite Hw, Hn, Hc. reflexivity.
Qed.

Lemma unused_binding_ignored_witness :
  compute_formula bare_runtime "x + 1" (Some [("unused", PyNum (PyInt 3)); ("x", PyNum (PyInt 7))])
  = compute_formula bare_runtime "x + 1" (Some [("x", PyNum (PyInt 7))]).
Proof.
  apply (unused_binding_ignored bare_runtime "x + 1" "unused" (PyNum (PyInt 3))
           [("x", PyNum (PyInt 7))]); reflexivity.
Defined.

(** X12: the names of the bindings go into the pattern of the validation
    before they are checked: for a formula with balanced parentheses that is
    not blank, names that hold a range whose bounds are out of order (as in
    [z-a]) make [compute_formula] raise [re.error], where an invalid name
    otherwise gives a [ValueError]. *)
Theorem descending_range_in_names
        (py : PyLib) (formula : string) (bindings : list (string * pyobj))
        (p q : string) (hi lo : ascii) :
  check_parentheses formula = true ->
  Str.all_space formula = false ->
  Str.join (map fst bindings) = p ++ String hi (String "-" (String lo q)) ->
  Str.forallb plain p = true ->
  plain hi = true ->
  plain lo = true ->
  (Str.code lo < Str.code hi)%N ->
  compute_formula py formula (Some bindings)
  = raise (OtherException "re.error")
          (re_error_str py (build_pattern (Some (map fst bindings)))).
Proof.
  intros Hp Hb Hk Hpl Hhi Hlo Hlt.
  assert (Hc : re_compile (build_pattern (Some (map fst bindings))) = BadPattern).
  { rewrite build_pattern_keys, Hk.
    set (tail := String hi (String "-" (String lo (q ++ class_letters ++ "\s]+\s*$")))).
    unfold re_compile.
    change (Str.startswith "^\s*[" ("^\s*[" ++ class_prefix ++ ","
              ++ (p ++ String hi (String "-" (String lo q))) ++ class_letters ++ "\s]+\s*$"))
      with true.
    cbn iota.
    replace (Str.drop 5 ("^\s*[" ++ class_prefix ++ ","
               ++ (p ++ String hi (String "-" (String lo q))) ++ class_letters ++ "\s]+\s*$"))
      with (class_prefix ++ String "," (p ++ tail))
      by (unfold tail; cbn [Str.drop append class_prefix];
          rewrite append_assoc; reflexivity).
    set (fuel := S (String.length (class_prefix ++ String "," (p ++ tail)))).
    assert (Hfuel : fuel = (11 + (1 + String.length p + S (2 + String.length tail)))%nat).
    { unfold fuel. rewrite length_append. cbn [String.length].
      rewrite length_append. change (String.length class_prefix) with 13%nat. lia. }
    rewrite Hfuel, parse_class_prefix.
    change (String "," (p ++ tail)) with (String "," p ++ tail).
    rewrite parse_class_plain;
      [ | apply forallb_plain_cons; [reflexivity|assumption]
        | unfold tail; cbn [Syntax.next_is]; unfold plain in Hhi;
          rewrite Ascii.eqb_sym; destruct (Ascii.eqb hi "-");
          [rewrite andb_false_r in Hhi; discriminate|reflexivity]
        | cbn [String.length]; lia ].
    replace (1 + String.length p + S (2 + String.length tail)
             - String.length (String "," p))%nat
      with (S (2 + String.length tail)) by (cbn [String.length]; lia).
    unfold tail. cbn [parse_class].
    unfold plain in Hhi, Hlo.
    apply andb_true_iff in Hhi as [Hhi _]. apply andb_true_iff in Hhi as [Hh1 Hh2].
    apply andb_true_iff in Hlo as [Hlo _]. apply andb_true_iff in Hlo as [Hl1 Hl2].
    apply negb_true_iff in Hh1, Hh2, Hl1, Hl2.
    rewrite Hh1, Hh2. cbn [andb Syntax.next_is Ascii.eqb Bool.eqb Str.drop].
    rewrite Hl1, Hl2.
    apply N.ltb_lt in Hlt. rewrite Hlt. reflexivity. }
  unfold compute_formula, is_well_formed. rewrite Hp. cbn [negb].
  rewrite (not_blank_not_empty_or_space _ Hb).
  unfold re_findall. rewrite Hc. reflexivity.
Qed.

Lemma descending_range_in_names_witness :
  compute_formula bare_runtime "x + 1" (Some [("x", PyNum (PyInt 7)); ("z-a", PyNum (PyInt 1))])
  = raise (OtherException "re.error") "error".
Proof.
  apply (descending_range_in_names bare_runtime "x + 1"
           [("x", PyNum (PyInt 7)); ("z-a", PyNum (PyInt 1))] "x" "" "z" "a");
    reflexivity.
Defined.

(** ** Integers as literals *)

Lemma string_of_uint_digits (d : Decimal.uint) :
  Str.forallb Str.is_digit (NilEmpty.string_of_uint d) = true.
Proof. induction d; cbn [NilEmpty.string_of_uint Str.forallb]; try rewrite IHd; reflexivity. Qed.

Lemma int_of_digits_acc (d : Decimal.uint) :
  forall acc,
  Syntax.int_of_digits (Zpos acc) (NilEmpty.string_of_uint d)
  = Zpos (Pos.of_uint_acc d acc).
Proof.
  induction d; intros acc;
    cbn [NilEmpty.string_of_uint Syntax.int_of_digits Pos.of_uint_acc];
    try reflexivity;
    match goal with
    | |- Syntax.int_of_digits (10 * Zpos acc + Syntax.digit_value ?c) _ = Zpos (Pos.of_uint_acc _ ?q) =>
        let v := eval vm_compute in (Syntax.digit_value c) in
        change (Syntax.digit_value c) with v;
        replace (10 * Zpos acc + v) with (Zpos q) by lia
    end; apply IHd.
Qed.

(** Reading the digits that print a number gives the number back. *)
Lemma int_of_digits_uint (d : Decimal.uint) :
  Syntax.int_of_digits 0 (NilEmpty.string_of_uint d) = Z.of_N (Pos.of_uint d).
Proof.
  induction d; cbn [NilEmpty.string_of_uint Syntax.int_of_digits Pos.of_uint];
    try reflexivity; try exact IHd;
    match goal with
    | |- Syntax.int_of_digits (10 * 0 + Syntax.digit_value ?c) _ = Z.of_N (N.pos (Pos.of_uint_acc _ ?q)) =>
        change (10 * 0 + Syntax.digit_value c) with (Zpos q)
    end; apply int_of_digits_acc.
Qed.

Lemma of_Z_pos (p : positive) :
  Str.of_Z (Zpos p) = NilEmpty.string_of_uint (Pos.to_uint p).
Proof.
  unfold Str.of_Z. cbn [Z.to_int NilZero.string_of_int]. unfold NilZero.string_of_uint.
  destruct (Pos.to_uint p) eqn:E; try reflexivity.
  exfalso. exact (DecimalPos.Unsigned.to_uint_nonnil p E).
Qed.

Lemma of_Z_neg (p : positive) :
  Str.of_Z (Zneg p) = String "-" (Str.of_Z (Zpos p)).
Proof. reflexivity. Qed.

Lemma nzhead_not_D0 (u v : Decimal.uint) : Decimal.nzhead u <> Decimal.D0 v.
Proof. induction u; cbn [Decimal.nzhead]; try discriminate. exact IHu. Qed.

(** The digits of a positive number do not start with a zero. *)
Lemma to_uint_no_leading_zero (p : positive) (u : Decimal.uint) :
  Pos.to_uint p <> Decimal.D0 u.
Proof.
  intros E.
  pose proof (DecimalPos.Unsigned.to_of (Pos.to_uint p)) as H.
  rewrite DecimalPos.Unsigned.of_to in H. cbn [N.to_uint] in H.
  rewrite E, DecimalFacts.unorm_D0 in H.
  assert (Hu : u = Decimal.Nil).
  { unfold Decimal.unorm in H. destruct (Decimal.nzhead u) eqn:Hn;
      try discriminate H.
    - injection H as <-. reflexivity.
    - exfalso. exact (nzhead_not_D0 _ _ Hn). }
  subst u. exact (DecimalPos.Unsigned.to_uint_nonzero p E).
Qed.

Lemma digit_not_blank (c : ascii) :
  Str.is_digit c = true ->
  Ascii.eqb c " " || Ascii.eqb c (ascii_of_N 9) = false.
Proof. destruct c as [[] [] [] [] [] [] [] []]; intros H; try discriminate H; reflexivity. Qed.

(** The token of a run of digits: an integer, when nothing that would
    continue a number follows. *)
Lemma lex_digits (f : nat) (c : ascii) (ds rest : string) :
  Str.forallb Str.is_digit (String c ds) = true ->
  Syntax.next_is Str.is_digit rest = false ->
  Syntax.next_is (Ascii.eqb ".") rest = false ->
  Syntax.next_is Syntax.is_name_start rest = false ->
  (String.length (String c ds) <= 640)%nat ->
  Ascii.eqb c "0" && negb (Str.forallb (Ascii.eqb "0") (String c ds)) = false ->
  Syntax.lex (S f) (String c ds ++ rest)
  = Syntax.cons_token (Syntax.TInt (Syntax.int_of_digits 0 (String c ds)))
      (Syntax.lex f rest).
Proof.
  intros Hd Hr1 Hr2 Hr3 Hlen Hz.
  pose proof (span_app Str.is_digit (String c ds) rest Hd Hr1) as Hspan.
  cbn [Str.forallb] in Hd. apply andb_true_iff in Hd as [Hc _].
  cbn [append]. cbn [Syntax.lex].
  rewrite (digit_not_blank c Hc), Hc.
  cbn [append] in Hspan. rewrite Hspan, Hr2, Hr3.
  replace (640 <? String.length (String c ds))%nat with false
    by (symmetry; apply Nat.ltb_ge; exact Hlen).
  rewrite Hz. reflexivity.
Qed.

(** What may follow a literal: the end, a blank, a closing parenthesis or
    an operator. *)
Definition ends_number (rest : string) : bool :=
  negb (Syntax.next_is Str.is_digit rest)
  && negb (Syntax.next_is (Ascii.eqb ".") rest)
  && negb (Syntax.next_is Syntax.is_name_start rest).

(** The token of the text of a natural number. *)
Lemma lex_natural (f : nat) (n : Z) (rest : string) :
  0 <= n ->
  (digits n <= 640)%nat ->
  ends_number rest = true ->
  Syntax.lex (S f) (Str.of_Z n ++ rest)
  = Syntax.cons_token (Syntax.TInt n) (Syntax.lex f rest).
Proof.
  intros Hn Hd He. unfold ends_number in He.
  apply andb_true_iff in He as [He H3]. apply andb_true_iff in He as [H1 H2].
  apply negb_true_iff in H1, H2, H3.
  unfold digits in Hd. rewrite Z.abs_eq in Hd by exact Hn.
  destruct n as [|p|p]; [| |lia].
  - change (Str.of_Z 0) with (String "0" "").
    rewrite lex_digits; try assumption; reflexivity.
  - rewrite of_Z_pos in *.
    pose proof (string_of_uint_digits (Pos.to_uint p)) as Hds.
    pose proof (int_of_digits_uint (Pos.to_uint p)) as Hv.
    rewrite DecimalPos.Unsigned.of_to in Hv. cbn [Z.of_N] in Hv.
    pose proof (to_uint_no_leading_zero p) as Hz.
    pose proof (DecimalPos.Unsigned.to_uint_nonnil p) as Hnil.
    destruct (Pos.to_uint p) as [|u|u|u|u|u|u|u|u|u|u];
      [ congruence | exfalso; apply (Hz u); reflexivity | .. ];
      cbn [NilEmpty.string_of_uint] in *;
      (rewrite lex_digits; try assumption; [rewrite Hv; reflexivity|reflexivity]).
Qed.

Lemma cons_token_tokens (t : Syntax.token) (l : Syntax.lexed) (ts : list Syntax.token) :
  Syntax.cons_token t l = Syntax.Tokens ts ->
  exists ts', l = Syntax.Tokens ts' /\ ts = t :: ts'.
Proof.
  destruct l as [ts'| |]; cbn; intros H; try discriminate H.
  injection H as <-. exists ts'. split; reflexivity.
Qed.

(** More fuel does not change the tokens of a text. *)
Lemma lex_mono (f : nat) :
  forall s ts f', Syntax.lex f s = Syntax.Tokens ts -> (f <= f')%nat ->
  Syntax.lex f' s = Syntax.Tokens ts.
Proof.
  induction f as [|f IH]; intros s ts f' H Hle; [discriminate H|].
  destruct f' as [|f']; [lia|]. assert (Hf : (f <= f')%nat) by lia.
  cbn [Syntax.lex] in *.
  destruct s as [|c r]; [exact H|].
  repeat match type of H with
         | context [if ?b then _ else _] => destruct b eqn:?
         | context [match ?p with pair _ _ => _ end] => destruct p as [? ?] eqn:?
         end;
    try discriminate H;
    try (apply (IH _ _ f' H Hf));
    try (apply cons_token_tokens in H as (ts' & H & ->);
         rewrite (IH _ _ f' H Hf); reflexivity).
Qed.

Lemma lex_blank (f : nat) (r : string) :
  Syntax.lex (S f) (String " " r) = Syntax.lex f r.
Proof. reflexivity. Qed.

Lemma lex_lpar (f : nat) (r : string) :
  Syntax.lex (S f) (String "(" r) = Syntax.cons_token Syntax.TLPar (Syntax.lex f r).
Proof. reflexivity. Qed.

Lemma lex_rpar (f : nat) (r : string) :
  Syntax.lex (S f) (String ")" r) = Syntax.cons_token Syntax.TRPar (Syntax.lex f r).
Proof. reflexivity. Qed.

Lemma lex_plus (f : nat) (r : string) :
  Syntax.lex (S f) (String "+" r) = Syntax.cons_token Syntax.TPlus (Syntax.lex f r).
Proof. reflexivity. Qed.

Lemma lex_minus (f : nat) (r : string) :
  Syntax.lex (S f) (String "-" r) = Syntax.cons_token Syntax.TMinus (Syntax.lex f r).
Proof. reflexivity. Qed.

Lemma lex_star_blank (f : nat) (r : string) :
  Syntax.lex (S f) (String "*" (String " " r))
  = Syntax.cons_token Syntax.TStar (Syntax.lex f (String " " r)).
Proof. reflexivity. Qed.

Lemma lex_slash_blank (f : nat) (r : string) :
  Syntax.lex (S f) (String "/" (String " " r))
  = Syntax.cons_token Syntax.TSlash (Syntax.lex f (String " " r)).
Proof. reflexivity. Qed.

Lemma lex_end (f : nat) : Syntax.lex (S f) "" = Syntax.Tokens [].
Proof. reflexivity. Qed.

(** The text of an integer: its length, its characters. *)
Lemma of_Z_nonempty (z : Z) : (1 <= String.length (Str.of_Z z))%nat.
Proof.
  destruct z as [|p|p]; [cbn; lia| |rewrite of_Z_neg; cbn [String.length]; lia].
  rewrite of_Z_pos. pose proof (DecimalPos.Unsigned.to_uint_nonnil p) as H.
  destruct (Pos.to_uint p); try congruence; cbn [NilEmpty.string_of_uint String.length]; lia.
Qed.

Lemma forallb_impl (p q : ascii -> bool) (s : string) :
  (forall c, p c = true -> q c = true) ->
  Str.forallb p s = true -> Str.forallb q s = true.
Proof.
  intros Hpq. induction s as [|c r IH]; [reflexivity|]. cbn [Str.forallb].
  intros H. apply andb_true_iff in H as [Hc Hr]. rewrite (Hpq c Hc), (IH Hr). reflexivity.
Qed.

Lemma digit_in_alphabet (c : ascii) :
  Str.is_digit c = true -> Syntax.in_alphabet c = true.
Proof.
  intros H. unfold Syntax.in_alphabet, Syntax.is_name_char. rewrite H.
  rewrite orb_true_r. reflexivity.
Qed.

Lemma of_Z_in_alphabet (z : Z) : Str.forallb Syntax.in_alphabet (Str.of_Z z) = true.
Proof.
  assert (Hp : forall p, Str.forallb Syntax.in_alphabet (Str.of_Z (Zpos p)) = true).
  { intros p. rewrite of_Z_pos.
    apply (forallb_impl Str.is_digit); [exact digit_in_alphabet|].
    apply string_of_uint_digits. }
  destruct z as [|p|p]; [reflexivity|apply Hp|].
  rewrite of_Z_neg. cbn [Str.forallb]. rewrite Hp. reflexivity.
Qed.

Lemma digits_neg (p : positive) : digits (Zneg p) = digits (Zpos p).
Proof. reflexivity. Qed.

(** What [parse_fragment] makes of a text, from its tokens. *)
Lemma parse_fragment_tree (float_value : string -> float) (source : string)
      (ts : list Syntax.token) (e : expr) :
  Str.forallb Syntax.in_alphabet source = true ->
  Syntax.lex (S (String.length source)) source = Syntax.Tokens ts ->
  Syntax.next_is (fun c => Ascii.eqb c " " || Ascii.eqb c (ascii_of_N 9)) source = false ->
  Syntax.parse_sum float_value (8 * List.length ts + 16) ts = Syntax.Parsed e [] ->
  Syntax.parse_fragment float_value source = Some (Syntax.Tree e).
Proof.
  intros Ha Hl Hb Hp. unfold Syntax.parse_fragment.
  rewrite Ha, Hl, Hb. cbn [negb]. rewrite Hp. reflexivity.
Qed.

Lemma parse_fragment_rejected (float_value : string -> float) (source : string)
      (ts : list Syntax.token) :
  Str.forallb Syntax.in_alphabet source = true ->
  Syntax.lex (S (String.length source)) source = Syntax.Tokens ts ->
  Syntax.next_is (fun c => Ascii.eqb c " " || Ascii.eqb c (ascii_of_N 9)) source = false ->
  Syntax.parse_sum float_value (8 * List.length ts + 16) ts = Syntax.NoParse ->
  Syntax.beyond_grammar ts = false ->
  Syntax.parse_fragment float_value source = Some Syntax.Rejected.
Proof.
  intros Ha Hl Hb Hp Hg. unfold Syntax.parse_fragment.
  rewrite Ha, Hl, Hb. cbn [negb]. rewrite Hp, Hg. reflexivity.
Qed.

(** Rewrites the lexing of a text whose abstract parts are the texts of
    natural numbers, one token at a time. *)
Ltac lex_run :=
  rewrite ?append_assoc; cbn [append];
  repeat first
    [ rewrite lex_blank | rewrite lex_lpar | rewrite lex_rpar | rewrite lex_plus
    | rewrite lex_minus | rewrite lex_star_blank | rewrite lex_slash_blank
    | rewrite lex_end
    | rewrite lex_natural by (try lia; try assumption; reflexivity) ];
  cbn [Syntax.cons_token].

(** The text of an integer between parentheses, which is what the
    substitution puts in the place of a name. *)
Definition parenthesized (z : Z) : string := "(" ++ Str.of_Z z ++ ")".

(** The tree such a text parses to. *)
Definition literal (z : Z) : expr :=
  if z <? 0 then UnaryOp USub (Constant (CNum (PyInt (- z))))
  else Constant (CNum (PyInt z)).

Lemma literal_value (py : PyLib) (z : Z) : _eval_node py (literal z) = Ok (PyInt z).
Proof.
  unfold literal. destruct (z <? 0); [|reflexivity].
  cbn. rewrite Z.opp_involutive. reflexivity.
Qed.

Lemma ast_parse_parenthesized (py : PyLib) (z : Z) :
  (digits z <= 640)%nat ->
  ast_parse py (parenthesized z) = Ok (literal z).
Proof.
  intros Hd. unfold ast_parse, parenthesized, literal.
  assert (Ha : Str.forallb Syntax.in_alphabet ("(" ++ Str.of_Z z ++ ")") = true).
  { cbn [append Str.forallb]. rewrite forallb_app, of_Z_in_alphabet. reflexivity. }
  destruct z as [|p|p].
  - reflexivity.
  - rewrite (parse_fragment_tree _ _ [Syntax.TLPar; Syntax.TInt (Zpos p); Syntax.TRPar]
               (Constant (CNum (PyInt (Zpos p)))) Ha); try reflexivity.
    apply (lex_mono 4).
    + lex_run. reflexivity.
    + cbn [append String.length]. rewrite length_append.
      pose proof (of_Z_nonempty (Zpos p)). cbn [String.length]. lia.
  - rewrite digits_neg in Hd.
    rewrite (parse_fragment_tree _ _
               [Syntax.TLPar; Syntax.TMinus; Syntax.TInt (Zpos p); Syntax.TRPar]
               (UnaryOp USub (Constant (CNum (PyInt (Zpos p))))) Ha); try reflexivity.
    apply (lex_mono 5).
    + rewrite of_Z_neg. lex_run. reflexivity.
    + rewrite of_Z_neg. cbn [append String.length]. rewrite length_append.
      pose proof (of_Z_nonempty (Zpos p)). cbn [String.length]. lia.
Qed.

Definition no_letter (c : ascii) : bool := negb (Str.is_alpha c).

(** A replacement passes over a text without letters. *)
Lemma replace_scan_skip (k0 : ascii) (key' new u t : string) :
  Str.is_alpha k0 = true ->
  Str.forallb no_letter u = true ->
  Str.replace_scan (String k0 key') new O (u ++ t)
  = u ++ Str.replace_scan (String k0 key') new O t.
Proof.
  intros Hk. induction u as [|c u IH]; intros Hu; [reflexivity|].
  cbn [Str.forallb] in Hu. apply andb_true_iff in Hu as [Hc Hu].
  cbn [append Str.replace_scan Str.startswith].
  destruct (Ascii.eqb k0 c) eqn:E.
  - apply Ascii.eqb_eq in E. subst c. unfold no_letter in Hc. rewrite Hk in Hc.
    discriminate Hc.
  - cbn [andb]. rewrite (IH Hu). reflexivity.
Qed.

Lemma no_letter_no_sqrt (s : string) :
  Str.forallb no_letter s = true -> Str.contains "math.sqrt(" s = false.
Proof.
  induction s as [|c r IH]; intros H; [reflexivity|].
  cbn [Str.forallb] in H. apply andb_true_iff in H as [Hc Hr].
  cbn [Str.contains Str.startswith]. rewrite (IH Hr), orb_false_r.
  destruct (Ascii.eqb "m" c) eqn:E; [|reflexivity].
  apply Ascii.eqb_eq in E. subst c. discriminate Hc.
Qed.

Lemma parenthesized_no_letter (z : Z) :
  Str.forallb no_letter (parenthesized z) = true.
Proof.
  unfold parenthesized. cbn [append Str.forallb].
  rewrite forallb_app. unfold no_letter at 2.
  rewrite (of_Z_no_letter z). reflexivity.
Qed.

Lemma obj_str_int (py : PyLib) (z : Z) :
  (digits z <= 640)%nat -> obj_str py (PyNum (PyInt z)) = Ok (Str.of_Z z).
Proof. intros H. cbn [obj_str num_str]. apply int_str_short. exact H. Qed.

(** The value of a formula without letters that parses. *)
Lemma evaluate_formula_plain (py : PyLib) (formula : string) (tree : expr) (v : pynum) :
  Str.forallb no_letter formula = true ->
  ast_parse py formula = Ok tree ->
  _eval_node py tree = Ok v ->
  evaluate_formula py formula = Ok (Number v).
Proof.
  intros Hn Hp He. apply evaluate_formula_value.
  - apply no_sqrt_no_negative_sqrt. apply no_letter_no_sqrt. exact Hn.
  - unfold safe_eval, evaluate. rewrite Hp. cbn [bind]. rewrite He. reflexivity.
Qed.

Lemma evaluate_formula_plain_raise (py : PyLib) (formula : string) (tree : expr) (e : exn) :
  Str.forallb no_letter formula = true ->
  ast_parse py formula = Ok tree ->
  _eval_node py tree = Raise e ->
  evaluate_formula py formula = formula_handler py formula (evaluate_handler formula e).
Proof.
  intros Hn Hp He. apply evaluate_formula_raise.
  - apply no_sqrt_no_negative_sqrt. apply no_letter_no_sqrt. exact Hn.
  - apply (evaluate_raise py _ _ _ Hp He).
Qed.

(** X13: an integer bound to a name comes back unchanged: the
    substitution writes it between parentheses, and the evaluation of that
    text reads the same integer, of either sign. *)
Theorem bound_integer_round_trip (py : PyLib) (z : Z) :
  (digits z <= 640)%nat ->
  safe_eval py (parenthesized z) = Ok (PyInt z)
  /\ compute_formula py "x" (Some [("x", PyNum (PyInt z))]) = Ok (Number (PyInt z)).
Proof.
  intros Hd. split.
  - unfold safe_eval, evaluate. rewrite (ast_parse_parenthesized py z Hd).
    cbn [bind]. rewrite literal_value. reflexivity.
  - unfold compute_formula.
    change (is_well_formed py "x" (Some (map fst [("x", PyNum (PyInt z))])))
      with (@Ok bool true).
    change (rewrite_keywords "x") with "x".
    cbn [substitute_values is_word is_number negb Str.contains Str.startswith
         Ascii.eqb Bool.eqb andb orb is_None].
    change (is_word "x") with true. cbn [negb].
    rewrite (obj_str_int py z Hd). cbn [bind substitute_values].
    change (Str.replace "x" "x" ("(" ++ Str.of_Z z ++ ")"))
      with (parenthesized z ++ "").
    rewrite append_empty_r.
    apply (evaluate_formula_plain py _ (literal z)).
    + apply parenthesized_no_letter.
    + apply ast_parse_parenthesized. exact Hd.
    + apply literal_value.
Qed.

Lemma bound_integer_round_trip_witness :
  compute_formula bare_runtime "x" (Some [("x", PyNum (PyInt (-42)))])
  = Ok (Number (PyInt (-42))).
Proof.
  apply (bound_integer_round_trip bare_runtime (-42)). apply Nat.leb_le. reflexivity.
Defined.

(** The text of [x <op> y] after the substitution of two integers. *)
Definition binary_text (a : Z) (mid : string) (b : Z) : string :=
  parenthesized a ++ mid ++ parenthesized b.

Lemma binary_text_no_letter (a b : Z) (mid : string) :
  Str.forallb no_letter mid = true ->
  Str.forallb no_letter (binary_text a mid b) = true.
Proof.
  intros H. unfold binary_text.
  rewrite !forallb_app, !parenthesized_no_letter, H. reflexivity.
Qed.

Lemma binary_text_in_alphabet (a b : Z) (mid : string) :
  Str.forallb Syntax.in_alphabet mid = true ->
  Str.forallb Syntax.in_alphabet (binary_text a mid b) = true.
Proof.
  intros H. unfold binary_text, parenthesized.
  cbn [append Str.forallb].
  rewrite !forallb_app. cbn [Str.forallb].
  rewrite !forallb_app, !of_Z_in_alphabet, H. reflexivity.
Qed.

Ltac length_bound :=
  unfold binary_text, parenthesized;
  rewrite ?of_Z_neg, ?append_assoc; cbn [append String.length];
  rewrite ?length_append; cbn [append String.length];
  rewrite ?length_append; cbn [String.length];
  repeat match goal with
         | |- context [String.length (Str.of_Z ?z)] =>
             generalize (of_Z_nonempty z);
             generalize (String.length (Str.of_Z z)); intros ? ?
         end;
  lia.







Lemma startswith_refl (k : string) : Str.startswith k k = true.
Proof. induction k as [|c k IH]; cbn; [reflexivity|]. rewrite Ascii.eqb_refl. exact IH. Qed.

Lemma contains_suffix (u k : string) : Str.contains k (u ++ k) = true.
Proof.
  induction u as [|c u IH].
  - cbn [append]. destruct k; cbn [Str.contains]; rewrite startswith_refl; reflexivity.
  - cbn [append Str.contains]. rewrite IH. apply orb_true_r.
Qed.

(** The substitution of two integers for [x] and [y] in [x<mid>y], where
    [mid] holds no letter. *)
Lemma substitute_two (py : PyLib) (mid : string) (a b : Z) :
  (digits a <= 640)%nat -> (digits b <= 640)%nat ->
  Str.forallb no_letter mid = true ->
  substitute_values py ("x" ++ mid ++ "y") ("x" ++ mid ++ "y")
    [("x", PyNum (PyInt a)); ("y", PyNum (PyInt b))]
  = Ok (Substituted (binary_text a mid b)).
Proof.
  intros Ha Hb Hm. cbn [substitute_values].
  change (is_word "x") with true. change (is_word "y") with true.
  cbn [is_number negb is_None].
  replace (Str.contains "x" ("x" ++ mid ++ "y")) with true by reflexivity.
  rewrite (obj_str_int py a Ha). cbn [bind].
  replace (Str.contains "y" ("x" ++ mid ++ "y")) with true
    by (symmetry; apply (contains_suffix ("x" ++ mid) "y")).
  rewrite (obj_str_int py b Hb). cbn [bind]. do 2 f_equal.
  fold (parenthesized a). fold (parenthesized b).
  assert (H1 : Str.replace ("x" ++ mid ++ "y") "x" (parenthesized a)
               = parenthesized a ++ mid ++ "y").
  { cbn [append Str.replace Str.replace_scan Str.startswith Ascii.eqb Bool.eqb andb
         String.length Nat.sub].
    rewrite (replace_scan_skip "x" "" _ mid "y" eq_refl Hm). reflexivity. }
  rewrite H1.
  unfold Str.replace.
  rewrite <- append_assoc.
  rewrite (replace_scan_skip "y" "" (parenthesized b) (parenthesized a ++ mid) "y" eq_refl)
    by (rewrite forallb_app, parenthesized_no_letter, Hm; reflexivity).
  cbn [Str.replace_scan Str.startswith Ascii.eqb Bool.eqb andb String.length Nat.sub].
  rewrite append_empty_r, append_assoc. reflexivity.
Qed.

Lemma compute_binary (py : PyLib) (mid : string) (a b : Z) :
  (digits a <= 640)%nat -> (digits b <= 640)%nat ->
  Str.forallb no_letter mid = true ->
  is_well_formed py ("x" ++ mid ++ "y") (Some ["x"; "y"]) = Ok true ->
  rewrite_keywords ("x" ++ mid ++ "y") = "x" ++ mid ++ "y" ->
  compute_formula py ("x" ++ mid ++ "y")
    (Some [("x", PyNum (PyInt a)); ("y", PyNum (PyInt b))])
  = evaluate_formula py (binary_text a mid b).
Proof.
  intros Ha Hb Hm Hwf Hrw. unfold compute_formula. cbn [map fst].
  rewrite Hwf, Hrw, (substitute_two py mid a b Ha Hb Hm). reflexivity.
Qed.

Lemma literal_binop (py : PyLib) (a b : Z) (op : operator) :
  _eval_node py (BinOp (literal a) op (literal b))
  = apply_operator py op (PyInt a) (PyInt b).
Proof. cbn [_eval_node]. rewrite !literal_value. reflexivity. Qed.



(** ** The square root of a bound negative integer *)

Definition sign_or_digit (c : ascii) : bool := Str.is_digit c || Ascii.eqb c "-".

Lemma of_Z_sign_or_digit (z : Z) : Str.forallb sign_or_digit (Str.of_Z z) = true.
Proof.
  assert (Hp : forall p, Str.forallb sign_or_digit (Str.of_Z (Zpos p)) = true).
  { intros p. rewrite of_Z_pos. apply (forallb_impl Str.is_digit).
    - intros c H. unfold sign_or_digit. rewrite H. reflexivity.
    - apply string_of_uint_digits. }
  destruct z as [|p|p]; [reflexivity|apply Hp|].
  rewrite of_Z_neg. cbn [Str.forallb]. rewrite Hp. reflexivity.
Qed.

Lemma of_Z_no_close (z : Z) : Str.forallb (not_char ")") (Str.of_Z z) = true.
Proof.
  apply (forallb_impl sign_or_digit); [|apply of_Z_sign_or_digit].
  intros c. destruct c as [[] [] [] [] [] [] [] []]; intros H; try discriminate H; reflexivity.
Qed.

Lemma of_Z_no_newline (z : Z) : Str.forallb (not_char Str.newline) (Str.of_Z z) = true.
Proof.
  apply (forallb_impl sign_or_digit); [|apply of_Z_sign_or_digit].
  intros c. destruct c as [[] [] [] [] [] [] [] []]; intros H; try discriminate H; reflexivity.
Qed.

(** The search for the next match goes on after the last one. *)
Lemma sqrt_arguments_skip (u v : string) :
  forall k, sqrt_arguments (String.length u + k) (u ++ v) = sqrt_arguments k v.
Proof.
  induction u as [|c u IH]; intros k; [reflexivity|].
  cbn [String.length Nat.add append sqrt_arguments]. apply IH.
Qed.

(** A negative integer within the range of floats converts to a negative
    float. *)
Lemma of_Z_negative (p : positive) :
  Num.is_inf (Num.of_Z (Zneg p)) = false ->
  exists m e, Num.of_Z (Zneg p) = S754_finite true m e.
Proof.
  unfold Num.of_Z, binary_normalize. intros Hi.
  pose proof (binary_round_proper true p 0) as Hp.
  pose proof (binary_round_sign true p 0) as Hs. cbv zeta in Hs.
  destruct (binary_round prec emax true p 0) as [s|s| |s m e].
  - discriminate Hp. unfold emin, prec, emax. lia.
  - discriminate Hi.
  - discriminate Hp. unfold emin, prec, emax. lia.
  - destruct Hs as [Hs|Hs]; [discriminate Hs|]. cbn in Hs. injection Hs as ->.
    exists m, e. reflexivity.
Qed.

Lemma lex_math_sqrt (f : nat) (r : string) :
  Syntax.lex (S (S (S (S f)))) ("math.sqrt(" ++ r)
  = Syntax.cons_token (Syntax.TName "math")
      (Syntax.cons_token Syntax.TDot
         (Syntax.cons_token (Syntax.TName "sqrt")
            (Syntax.cons_token Syntax.TLPar (Syntax.lex f r)))).
Proof. reflexivity. Qed.

(** The text that both patterns take for the argument of the square root
    of a parenthesized integer: the integer with its opening parenthesis. *)
Definition cut_argument (z : Z) : string := "(" ++ Str.of_Z z.

Definition sqrt_text (z : Z) : string := "math.sqrt(" ++ parenthesized z ++ ")".

Lemma cut_argument_rejected (py : PyLib) (p : positive) :
  (digits (Zpos p) <= 640)%nat ->
  safe_eval py (cut_argument (Zneg p))
  = raise ValueError
      ("Invalid expression: " ++ cut_argument (Zneg p) ++ " - "
       ++ syntax_error_str py (cut_argument (Zneg p))).
Proof.
  intros Hd. unfold safe_eval, evaluate, ast_parse.
  rewrite (parse_fragment_rejected _ _
             [Syntax.TLPar; Syntax.TMinus; Syntax.TInt (Zpos p)]).
  - reflexivity.
  - unfold cut_argument. cbn [append Str.forallb]. rewrite of_Z_in_alphabet. reflexivity.
  - apply (lex_mono 4).
    + unfold cut_argument. rewrite of_Z_neg.
      replace (Str.of_Z (Zpos p)) with (Str.of_Z (Zpos p) ++ "")
        by apply append_empty_r.
      lex_run. reflexivity.
    + unfold cut_argument. rewrite of_Z_neg. cbn [append String.length].
      pose proof (of_Z_nonempty (Zpos p)). lia.
  - reflexivity.
  - reflexivity.
  - reflexivity.
Qed.

Lemma sqrt_text_flat (z : Z) :
  sqrt_text z = "math.sqrt(" ++ String "(" (Str.of_Z z ++ "))").
Proof.
  unfold sqrt_text, parenthesized. cbn [append]. rewrite append_assoc. reflexivity.
Qed.

Lemma sqrt_arguments_sqrt_text (z : Z) :
  sqrt_arguments O (sqrt_text z) = [cut_argument z].
Proof.
  rewrite sqrt_text_flat.
  change ("math.sqrt(" ++ String "(" (Str.of_Z z ++ "))"))
    with (String "m" ("ath.sqrt(" ++ String "(" (Str.of_Z z ++ "))"))).
  cbn [sqrt_arguments]. unfold greedy_sqrt_match.
  cbn [Str.startswith Ascii.eqb Bool.eqb andb append Str.drop].
  assert (Hsp : Syntax.span (not_char ")") (String "(" (Str.of_Z z) ++ "))")
                = (String "(" (Str.of_Z z), "))")).
  { apply span_app; [|reflexivity].
    cbn [Str.forallb]. rewrite of_Z_no_close. reflexivity. }
  cbn [append] in Hsp. rewrite Hsp.
  cbn [Syntax.next_is Ascii.eqb Bool.eqb andb]. f_equal.
  replace (String "a" (String "t" (String "h" (String "." (String "s" (String "q"
             (String "r" (String "t" (String "(" (String "(" (Str.of_Z z ++ "))")))))))))))
    with (("ath.sqrt(" ++ String "(" (Str.of_Z z) ++ ")") ++ ")")
    by (cbn [append]; rewrite append_assoc; reflexivity).
  replace (10 + String.length (String "(" (Str.of_Z z)))%nat
    with (String.length ("ath.sqrt(" ++ String "(" (Str.of_Z z) ++ ")") + 0)%nat
    by (cbn [append String.length]; rewrite length_append; cbn [String.length]; lia).
  rewrite sqrt_arguments_skip. reflexivity.
Qed.

Lemma ast_parse_sqrt_text (py : PyLib) (p : positive) :
  (digits (Zpos p) <= 640)%nat ->
  ast_parse py (sqrt_text (Zneg p))
  = Ok (Call (Attribute (Name "math") "sqrt") [literal (Zneg p)]).
Proof.
  intros Hd. unfold ast_parse.
  erewrite parse_fragment_tree.
  - reflexivity.
  - rewrite sqrt_text_flat. cbn [append Str.forallb].
    rewrite forallb_app, of_Z_in_alphabet. reflexivity.
  - apply (lex_mono 10).
    + rewrite sqrt_text_flat, lex_math_sqrt, of_Z_neg.
      lex_run. reflexivity.
    + rewrite sqrt_text_flat, of_Z_neg. cbn [append String.length].
      rewrite length_append. cbn [String.length].
      pose proof (of_Z_nonempty (Zpos p)). lia.
  - reflexivity.
  - reflexivity.
Qed.

(** X15: the square root of a name bound to a negative integer, within
    the range of floats, is reported as a text.  The value is substituted
    between parentheses, so that the search for negative arguments, which
    stops at the first closing parenthesis, finds nothing it can evaluate;
    the evaluation raises a domain error, and the report shows the argument
    cut in the same way, with its opening parenthesis. *)
Theorem sqrt_of_negative_integer (py : PyLib) (z : Z) :
  z < 0 ->
  (digits z <= 640)%nat ->
  Num.is_inf (Num.of_Z z) = false ->
  _find_negative_sqrt py (sqrt_text z) = Ok None
  /\ compute_formula py "sqrt(x)" (Some [("x", PyNum (PyInt z))])
     = Ok (Text ("Can't sqrt with value ((" ++ Str.of_Z z ++ ") in math.sqrt(("
                 ++ Str.of_Z z ++ "))")).
Proof.
  intros Hneg Hd Hinf. destruct z as [|p|p]; try lia. rewrite digits_neg in Hd.
  assert (Hcut : safe_eval py (cut_argument (Zneg p))
                 = raise ValueError
                     ("Invalid expression: " ++ cut_argument (Zneg p) ++ " - "
                      ++ syntax_error_str py (cut_argument (Zneg p))))
    by (apply cut_argument_rejected; exact Hd).
  assert (Hfind : _find_negative_sqrt py (sqrt_text (Zneg p)) = Ok None).
  { unfold _find_negative_sqrt. rewrite sqrt_arguments_sqrt_text.
    cbn [negative_sqrt_among]. rewrite Hcut. reflexivity. }
  split; [exact Hfind|].
  unfold compute_formula.
  change (is_well_formed py "sqrt(x)" (Some (map fst [("x", PyNum (PyInt (Zneg p)))])))
    with (@Ok bool true).
  change (rewrite_keywords "sqrt(x)") with "math.sqrt(x)".
  cbn [substitute_values]. change (is_word "x") with true.
  cbn [is_number negb is_None].
  change (Str.contains "x" "sqrt(x)") with true. cbv iota.
  rewrite (obj_str_int py (Zneg p) Hd). cbn [bind substitute_values].
  change (Str.replace "math.sqrt(x)" "x" ("(" ++ Str.of_Z (Zneg p) ++ ")"))
    with (sqrt_text (Zneg p)).
  assert (Heval : safe_eval py (sqrt_text (Zneg p))
                  = raise ValueError "math domain error").
  { unfold safe_eval, evaluate. rewrite (ast_parse_sqrt_text py p Hd). cbn [bind].
    rewrite _eval_node_Call. cbn [_get_func_name _get_attr_name_base bind].
    change (mem ("math" ++ "." ++ "sqrt") SAFE_FUNCTIONS) with true. cbn [negb].
    cbn [eval_args]. rewrite literal_value. cbn [bind].
    unfold call_function.
    change (call_exact ("math" ++ "." ++ "sqrt") [PyInt (Zneg p)])
      with (Some (x <- Num.to_float (Num.RInt (Zneg p)) ;;
                  y <- Num.sqrt x ;; Ok (PyFloat y))).
    cbn [Num.to_float]. unfold Num.int_to_float. cbv zeta. rewrite Hinf.
    destruct (of_Z_negative p Hinf) as (m & e & ->). reflexivity. }
  rewrite (evaluate_formula_raise py _ _ Hfind Heval).
  unfold formula_handler. cbn [exn_class exn_msg].
  change (Str.contains "math domain error" (Str.lower "math domain error")) with true.
  assert (Hget : get_sqrt_value (sqrt_text (Zneg p)) = cut_argument (Zneg p)).
  { unfold get_sqrt_value. rewrite sqrt_text_flat.
    change ("math.sqrt(" ++ String "(" (Str.of_Z (Zneg p) ++ "))"))
      with ("" ++ "math.sqrt(" ++ String "(" (Str.of_Z (Zneg p)) ++ ")" ++ ")").
    rewrite first_lazy_sqrt_first; [reflexivity|reflexivity| |apply of_Z_no_close].
    cbn [Str.forallb]. rewrite of_Z_no_newline. reflexivity. }
  rewrite Hget. change (nonempty (cut_argument (Zneg p))) with true. cbn [andb].
  rewrite Hcut. cbn [bind raise exn_class]. do 2 f_equal.
  unfold report_sqrt, cut_argument. rewrite sqrt_text_flat.
  cbn [append]. rewrite ?append_assoc. reflexivity.
Qed.

Lemma sqrt_of_negative_integer_witness :
  compute_formula bare_runtime "sqrt(x)" (Some [("x", PyNum (PyInt (-9)))])
  = Ok (Text "Can't sqrt with value ((-9) in math.sqrt((-9))").
Proof.
  apply (sqrt_of_negative_integer bare_runtime (-9));
    [reflexivity|apply Nat.leb_le; reflexivity|reflexivity].
Defined.

(** ** [get_operator_value] *)

Lemma upto_last_close_app (g t : string) :
  Str.forallb (not_char ")") t = true ->
  upto_last_close (g ++ ")" ++ t) = Some g.
Proof.
  intros Ht.
  assert (Hnone : upto_last_close t = None).
  { induction t as [|c t IH]; [reflexivity|].
    cbn [Str.forallb] in Ht. apply andb_true_iff in Ht as [Hc Ht].
    cbn [upto_last_close]. rewrite (IH Ht).
    unfold not_char in Hc. apply negb_true_iff in Hc. rewrite Hc. reflexivity. }
  induction g as [|c g IH].
  - cbn [append upto_last_close]. rewrite Hnone. reflexivity.
  - cbn [append upto_last_close]. cbn [append] in IH. rewrite IH. reflexivity.
Qed.

Lemma search_call_absent (op s : string) :
  Str.contains (op ++ "(") s = false -> search_call op s = None.
Proof.
  induction s as [|c r IH]; intros H; cbn [Str.contains] in H.
  - cbn [search_call]. unfold call_match.
    rewrite orb_false_r in H. rewrite H. reflexivity.
  - apply orb_false_iff in H as [Hs Hr].
    cbn [search_call]. unfold call_match at 1. rewrite Hs. apply IH. exact Hr.
Qed.

(** X16: for an operator name made of letters and digits,
    [get_operator_value] does not raise and returns two texts; they are both
    empty when the formula does not hold the name followed by an opening
    parenthesis. *)
Theorem get_operator_value_two
        (re_search_ext : string -> string -> result (option string))
        (formula_string op : string) :
  Str.forallb is_alnum op = true ->
  (exists first second,
     get_operator_value re_search_ext formula_string op = Ok [first; second])
  /\ (Str.contains (op ++ "(") formula_string = false ->
      get_operator_value re_search_ext formula_string op = Ok [""; ""]).
Proof.
  intros Hop. unfold get_operator_value. rewrite Hop. cbn [bind]. split.
  - destruct (search_call op formula_string) as [content|]; [|eauto].
    destruct (split_index 0 0 content); eauto.
  - intros H. rewrite (search_call_absent _ _ H). reflexivity.
Qed.

Lemma get_operator_value_two_witness :
  get_operator_value (fun _ _ => Ok None) "pow(x, 2)" "mod" = Ok [""; ""].
Proof.
  apply (proj2 (get_operator_value_two (fun _ _ => Ok None) "pow(x, 2)" "mod" eq_refl)).
  reflexivity.
Defined.

(** An operand that the loop passes over without splitting, and after
    which the depth is 0 again: the depth after [s], or nothing when a comma
    is met at depth 0. *)
Fixpoint depth_after (depth : Z) (s : string) : option Z :=
  match s with
  | EmptyString => Some depth
  | String c r =>
      if Ascii.eqb c "(" then depth_after (depth + 1) r
      else if Ascii.eqb c ")" then depth_after (depth - 1) r
      else if Ascii.eqb c "," && (depth =? 0) then None
      else depth_after depth r
  end.

Lemma split_index_after (a rest : string) :
  forall depth depth' i,
  depth_after depth a = Some depth' ->
  split_index depth i (a ++ rest) = split_index depth' (String.length a + i) rest.
Proof.
  induction a as [|c a IH]; intros depth depth' i H; cbn [depth_after] in H.
  - injection H as <-. reflexivity.
  - cbn [append split_index String.length].
    replace (S (String.length a) + i)%nat with (String.length a + S i)%nat by lia.
    destruct (Ascii.eqb c "("); [apply IH; exact H|].
    destruct (Ascii.eqb c ")"); [apply IH; exact H|].
    destruct (Ascii.eqb c "," && (depth =? 0)); [discriminate H|].
    apply IH. exact H.
Qed.

Lemma take_app (a b : string) : Str.take (String.length a) (a ++ b) = a.
Proof. induction a as [|c a IH]; cbn; [destruct b; reflexivity|]. rewrite IH. reflexivity. Qed.

Lemma drop_app (a b : string) : Str.drop (String.length a) (a ++ b) = b.
Proof. induction a as [|c a IH]; cbn; [destruct b; reflexivity|]. exact IH. Qed.

Lemma startswith_app (p s : string) : Str.startswith p (p ++ s) = true.
Proof. induction p as [|c p IH]; cbn; [reflexivity|]. rewrite Ascii.eqb_refl. exact IH. Qed.

Lemma span_prefix (p : ascii -> bool) (a b : string) :
  Str.forallb p a = true ->
  Syntax.span p (a ++ b)
  = let '(x, y) := Syntax.span p b in (a ++ x, y).
Proof.
  induction a as [|c a IH]; intros Ha.
  - cbn [append]. destruct (Syntax.span p b). reflexivity.
  - cbn [Str.forallb] in Ha. apply andb_true_iff in Ha as [Hc Ha].
    cbn [append Syntax.span]. rewrite Hc, (IH Ha).
    destruct (Syntax.span p b). reflexivity.
Qed.

Lemma search_call_eq (op s : string) :
  search_call op s
  = match call_match op s with
    | Some g => Some g
    | None =>
        match s with
        | EmptyString => None
        | String _ r => search_call op r
        end
    end.
Proof. destruct s; reflexivity. Qed.

(** The first match of the pattern, when nothing before it matches. *)
Lemma search_call_first (op before content after : string) :
  Str.contains (op ++ "(") (before ++ op) = false ->
  content <> "" ->
  Str.forallb (not_char Str.newline) content = true ->
  Str.forallb (not_char ")") after = true ->
  search_call op (before ++ op ++ "(" ++ content ++ ")" ++ after) = Some content.
Proof.
  intros Hb Hne Hnl Ha.
  assert (Hhere : call_match op (op ++ "(" ++ content ++ ")" ++ after) = Some content).
  { unfold call_match.
    replace (op ++ "(" ++ content ++ ")" ++ after)
      with ((op ++ "(") ++ content ++ ")" ++ after) by apply append_assoc.
    rewrite startswith_app.
    replace (String.length op + 1)%nat with (String.length (op ++ "("))
      by (rewrite length_append; reflexivity).
    rewrite drop_app. unfold greedy_group.
    replace (content ++ ")" ++ after) with ((content ++ ")") ++ after)
      by apply append_assoc.
    rewrite (span_prefix (not_char Str.newline) (content ++ ")") after)
      by (rewrite forallb_app, Hnl; reflexivity).
    destruct (Syntax.span (not_char Str.newline) after) as [after1 after2] eqn:Hsp.
    destruct (span_spec _ _ _ _ Hsp) as (Hafter & _ & _).
    assert (Ha1 : Str.forallb (not_char ")") after1 = true).
    { rewrite Hafter, forallb_app in Ha. apply andb_true_iff in Ha as [Ha1 _].
      exact Ha1. }
    rewrite append_assoc.
    destruct content as [|c content]; [congruence|].
    pose proof (upto_last_close_app content after1 Ha1) as Hu.
    cbn [append] in Hu |- *. rewrite Hu. reflexivity. }
  remember (op ++ "(" ++ content ++ ")" ++ after) as text eqn:Htext.
  induction before as [|x b IH].
  - cbn [append]. rewrite search_call_eq, Hhere. reflexivity.
  - cbn [append Str.contains] in Hb. apply orb_false_iff in Hb as [Hs Hb].
    cbn [append]. rewrite search_call_eq.
    replace (call_match op (String x (b ++ text))) with (@None string);
      [apply (IH Hb)|].
    unfold call_match.
    destruct (Str.startswith (op ++ "(") (String x (b ++ text))) eqn:E; [|reflexivity].
    exfalso. subst text.
    assert (E' : Str.startswith (op ++ "(")
                   (String x b ++ op ++ ("(" ++ content ++ ")" ++ after)) = true)
      by exact E.
    apply startswith_shorter in E';
      [|rewrite length_append; cbn [String.length]; lia].
    cbn [append] in E'. rewrite E' in Hs. discriminate.
Qed.

(** X17: [get_operator_value] gives back the two operands of a call: for
    a formula that holds [op(a,b)], with nothing that matches before it and
    no closing parenthesis after it, where [a] is passed over by the loop and
    leaves the depth at 0, the result is [a] and [b] without the whitespace
    around them. *)
Theorem get_operator_value_operands
        (re_search_ext : string -> string -> result (option string))
        (op before a b after : string) :
  Str.forallb is_alnum op = true ->
  Str.contains (op ++ "(") (before ++ op) = false ->
  depth_after 0 a = Some 0 ->
  Str.forallb (not_char Str.newline) (a ++ "," ++ b) = true ->
  Str.forallb (not_char ")") after = true ->
  get_operator_value re_search_ext
    (before ++ op ++ "(" ++ (a ++ "," ++ b) ++ ")" ++ after) op
  = Ok [strip a; strip b].
Proof.
  intros Hop Hb Hd Hnl Ha. unfold get_operator_value. rewrite Hop. cbn [bind].
  rewrite (search_call_first op before (a ++ "," ++ b) after Hb);
    [ | destruct a; discriminate | exact Hnl | exact Ha ].
  rewrite (split_index_after a ("," ++ b) 0 0 0 Hd).
  cbn [append split_index Ascii.eqb Bool.eqb andb Z.eqb].
  rewrite Nat.add_0_r. cbv zeta.
  rewrite take_app.
  replace (String.length a + 1)%nat with (String.length (a ++ ","))
    by (rewrite length_append; reflexivity).
  replace (a ++ String "," b) with ((a ++ ",") ++ b)
    by (rewrite append_assoc; reflexivity).
  rewrite drop_app. reflexivity.
Qed.

Lemma get_operator_value_operands_witness :
  get_operator_value (fun _ _ => Ok None) "math.fmod(pow(x, 2) , 3) + 1" "mod"
  = Ok ["pow(x, 2)"; "3"].
Proof.
  apply (get_operator_value_operands (fun _ _ => Ok None)
           "mod" "math.f" "pow(x, 2) " " 3" " + 1"); reflexivity.
Defined.

(** ** [input_and_solve] *)

Lemma string_of_uint_length (d : Decimal.uint) :
  String.length (NilEmpty.string_of_uint d) = Decimal.nb_digits d.
Proof. induction d; cbn [NilEmpty.string_of_uint String.length Decimal.nb_digits]; congruence. Qed.

Lemma of_uint_acc_lower (d : Decimal.uint) :
  forall acc, Zpos acc * 10 ^ Z.of_nat (Decimal.nb_digits d) <= Zpos (Pos.of_uint_acc d acc).
Proof.
  induction d; intros acc; cbn [Decimal.nb_digits Pos.of_uint_acc];
    [ cbn; lia | .. ];
    rewrite Nat2Z.inj_succ, Z.pow_succ_r by lia;
    (eapply Z.le_trans; [|apply IHd]);
    assert (0 < 10 ^ Z.of_nat (Decimal.nb_digits d)) by (apply Z.pow_pos_nonneg; lia);
    nia.
Qed.

(** A positive number under [10 ^ k] has at most [k] digits. *)
Lemma digits_bound (z : Z) (k : nat) :
  0 <= z < 10 ^ Z.of_nat k -> (1 <= k)%nat -> (digits z <= k)%nat.
Proof.
  intros [Hz Hlt] Hk. unfold digits. rewrite Z.abs_eq by exact Hz.
  destruct z as [|p|p]; [cbn; lia| |lia].
  rewrite of_Z_pos, string_of_uint_length.
  pose proof (DecimalPos.Unsigned.of_to p) as Hv.
  pose proof (to_uint_no_leading_zero p) as Hnz.
  pose proof (DecimalPos.Unsigned.to_uint_nonnil p) as Hnil.
  destruct (Pos.to_uint p) as [|u|u|u|u|u|u|u|u|u|u];
    [ congruence | exfalso; apply (Hnz u); reflexivity | .. ];
    cbn [Pos.of_uint] in Hv; injection Hv as Hv;
    cbn [Decimal.nb_digits];
    match type of Hv with
    | Pos.of_uint_acc _ ?a = _ => pose proof (of_uint_acc_lower u a) as Hl
    end;
    rewrite Hv in Hl;
    apply Nat.nlt_ge; intros Hgt;
    assert (Hpow : 10 ^ Z.of_nat k <= 10 ^ Z.of_nat (Decimal.nb_digits u))
      by (apply Z.pow_le_mono_r; lia);
    lia.
Qed.

Lemma digit_value_range (c : ascii) :
  Str.is_digit c = true -> 0 <= Syntax.digit_value c <= 9.
Proof.
  destruct c as [[] [] [] [] [] [] [] []]; intros H; try discriminate H;
    vm_compute; split; discriminate.
Qed.

Lemma int_of_digits_range (s : string) :
  forall acc, 0 <= acc -> Str.forallb Str.is_digit s = true ->
  0 <= Syntax.int_of_digits acc s < (acc + 1) * 10 ^ Z.of_nat (String.length s).
Proof.
  induction s as [|c r IH]; intros acc Hacc Hs; cbn [Syntax.int_of_digits String.length].
  - cbn. lia.
  - cbn [Str.forallb] in Hs. apply andb_true_iff in Hs as [Hc Hr].
    pose proof (digit_value_range c Hc) as Hd.
    rewrite Nat2Z.inj_succ, Z.pow_succ_r by lia.
    destruct (IH (10 * acc + Syntax.digit_value c) ltac:(lia) Hr) as [H0 H1].
    split; [exact H0|].
    assert (0 < 10 ^ Z.of_nat (String.length r)) by (apply Z.pow_pos_nonneg; lia).
    nia.
Qed.

Lemma digit_isdigit (s : string) :
  Str.forallb Str.is_digit s = true -> Str.forallb isdigit_char s = true.
Proof.
  apply forallb_impl. intros c.
  destruct c as [[] [] [] [] [] [] [] []]; intros H; try discriminate H; reflexivity.
Qed.

Section MainFacts.

Variable py : PyLib.
Variable float_of_str : string -> option float.
Variable dict_str : list (string * pyobj) -> string.
Variable int_of_str_ext : string -> result Z.

(** With lines enough for its rounds, the loop raises nothing. *)
Lemma read_unknowns_returns (count : nat) :
  forall i d st,
  0 <= i ->
  i + Z.of_nat count < 10 ^ 640 ->
  (2 * count <= List.length (pending st))%nat ->
  exists read st', read_unknowns py float_of_str count i d st = (Ok read, st').
Proof.
  induction count as [|count IH]; intros i d st Hi Hn Hlen.
  - eexists _, _. reflexivity.
  - cbn [read_unknowns]. unfold io_bind at 1. unfold io_lift.
    rewrite (int_str_short py (i + 1))
      by (apply (digits_bound (i + 1) 640); [|lia]; change (Z.of_nat 640) with 640; lia).
    unfold io_bind at 1. unfold input at 1.
    destruct (pending st) as [|name rest] eqn:Hp; [cbn in Hlen; lia|].
    cbn [tl].
    destruct (isalpha name); cbn [negb].
    + unfold io_bind at 1. unfold input at 1. cbn [pending printed].
      destruct rest as [|value rest']; [cbn in Hlen; lia|]. cbn [tl].
      unfold is_valid_number.
      destruct (float_of_str value) as [x|]; cbn [negb].
      * apply IH; [lia|lia|]. cbn [pending]. cbn [List.length] in Hlen. lia.
      * eexists _, _. reflexivity.
    + eexists _, _. reflexivity.
Qed.

End MainFacts.

(** X18: [input_and_solve] raises nothing when the number of unknowns is
    written with at most 640 decimal digits and the lines to read are enough
    for that many names and values: whatever [compute_formula] raises is
    caught, and the empty text is returned. *)
Theorem input_and_solve_returns
        (py : PyLib) (float_of_str : string -> option float)
        (dict_str : list (string * pyobj) -> string)
        (int_of_str_ext : string -> result Z)
        (st : console) (formula number : string) (rest : list string) :
  pending st = formula :: number :: rest ->
  nonempty number = true ->
  Str.forallb Str.is_digit number = true ->
  (String.length number <= 640)%nat ->
  (2 * Z.to_nat (Syntax.int_of_digits 0 number) <= List.length rest)%nat ->
  exists text st',
    input_and_solve py float_of_str dict_str int_of_str_ext st = (Ok text, st').
Proof.
  intros Hp Hne Hd Hlen Hrest.
  unfold input_and_solve. unfold io_bind at 1. unfold input at 1. rewrite Hp. cbn [tl].
  unfold io_bind at 1. unfold input at 1. cbn [pending printed tl].
  assert (Hisd : isdigit number = true)
    by (unfold isdigit; rewrite Hne, (digit_isdigit _ Hd); reflexivity).
  rewrite Hisd. cbn [negb].
  unfold io_bind at 1. unfold io_lift, int_of_str. rewrite Hisd, Hd. cbn [negb orb].
  replace (640 <? String.length number)%nat with false
    by (symmetry; apply Nat.ltb_ge; exact Hlen).
  destruct (int_of_digits_range number 0 ltac:(lia) Hd) as [Hn0 Hn1].
  assert (Hpow : 10 ^ Z.of_nat (String.length number) <= 10 ^ 640)
    by (apply Z.pow_le_mono_r; lia).
  set (n := Syntax.int_of_digits 0 number) in *.
  destruct (read_unknowns_returns py float_of_str (Z.to_nat n) 0 []
              {| pending := rest;
                 printed := (printed st ++ ["Enter a formula: "])
                            ++ ["Enter the number of unknowns: "] |})
    as (read & st1 & Hread);
    [lia|rewrite Z2Nat.id by lia; lia|exact Hrest|].
  unfold io_bind at 1. rewrite Hread.
  destruct read as [unknown_dict|]; [|eexists _, _; reflexivity].
  destruct (result <- compute_formula py formula (Some unknown_dict) ;;
            output_str py result) as [shown|e];
    eexists _, _; reflexivity.
Qed.

Lemma input_and_solve_returns_witness :
  exists text st',
    input_and_solve bare_runtime (fun _ => None) (fun _ => "{}") (fun _ => Ok 0)
      {| pending := ["1/0"; "0"]; printed := [] |}
    = (Ok text, st').
Proof.
  apply (input_and_solve_returns bare_runtime (fun _ => None) (fun _ => "{}")
           (fun _ => Ok 0) {| pending := ["1/0"; "0"]; printed := [] |}
           "1/0" "0" []);
    first [reflexivity | apply Nat.leb_le; reflexivity].
Defined.



(** A dictionary as [input_and_solve] builds it: names that [isalpha]
    accepts, bound to floats. *)
Definition read_binding (kv : string * pyobj) : Prop :=
  isalpha (fst kv) = true /\ exists x, snd kv = PyNum (PyFloat x).

Lemma dict_set_read (d : list (string * pyobj)) (key : string) (x : float) :
  isalpha key = true ->
  Forall read_binding d ->
  Forall read_binding (dict_set d key (PyNum (PyFloat x))).
Proof.
  intros Hk Hd. induction Hd as [|[k v] rest [Hkv Hv] Hrest IH]; cbn [dict_set].
  - constructor; [|constructor]. split; [exact Hk|exists x; reflexivity].
  - destruct (String.eqb k key).
    + constructor; [|exact Hrest]. split; [exact Hkv|exists x; reflexivity].
    + constructor; [split; assumption|exact IH].
Qed.

(** X20: the dictionary that the loop of [input_and_solve] hands to
    [compute_formula] binds names that [isalpha] accepts to floats only, so
    that every value passes [is_number]. *)
Theorem read_unknowns_bindings
        (py : PyLib) (float_of_str : string -> option float) (count : nat) :
  forall i d st unknown_dict st',
  Forall read_binding d ->
  read_unknowns py float_of_str count i d st = (Ok (Some unknown_dict), st') ->
  Forall read_binding unknown_dict
  /\ Forall (fun kv => is_number (snd kv) = true) unknown_dict.
Proof.
  assert (Hnum : forall l, Forall read_binding l ->
                 Forall (fun kv => is_number (snd kv) = true) l).
  { intros l Hl. induction Hl as [|[k v] rest [_ [x Hx]] _ IH]; constructor.
    - cbn [snd] in *. subst v. reflexivity.
    - exact IH. }
  induction count as [|count IH]; intros i d st unknown_dict st' Hd H.
  - cbn [read_unknowns] in H. unfold io_ret in H. injection H as <- _.
    split; [exact Hd|apply Hnum; exact Hd].
  - cbn [read_unknowns] in H. unfold io_bind at 1 in H. unfold io_lift in H.
    destruct (int_str py (i + 1)) as [index|e]; [|discriminate H].
    unfold io_bind at 1 in H. unfold input at 1 in H.
    destruct (pending st) as [|name rest]; [discriminate H|].
    destruct (isalpha name) eqn:Hname; cbn [negb] in H; [|discriminate H].
    unfold io_bind at 1 in H. unfold input at 1 in H. cbn [pending printed tl] in H.
    destruct rest as [|value rest']; [discriminate H|].
    unfold is_valid_number in H.
    destruct (float_of_str value) as [x|]; cbn [negb] in H; [|discriminate H].
    apply (IH _ _ _ _ _ (dict_set_read d name x Hname Hd) H).
Qed.

Lemma read_unknowns_bindings_witness :
  Forall read_binding [("x", PyNum (PyFloat (Num.of_Z 7)))].
Proof.
  apply (proj1 (read_unknowns_bindings bare_runtime (fun _ => Some (Num.of_Z 7)) 1 0 []
                  {| pending := ["x"; "7"]; printed := [] |}
                  [("x", PyNum (PyFloat (Num.of_Z 7)))]
                  {| pending := [];
                     printed := ["Enter the name of the unknown 1: ";
                                 "Enter the value of x: "] |}
                  (Forall_nil _) eq_refl)).
Defined.

(** ** Operators beyond the four *)

Lemma lex_double_star (f : nat) (r : string) :
  Syntax.lex (S f) (String "*" (String "*" r))
  = Syntax.cons_token Syntax.TDoubleStar (Syntax.lex f r).
Proof. reflexivity. Qed.

Lemma lex_double_slash (f : nat) (r : string) :
  Syntax.lex (S f) (String "/" (String "/" r))
  = Syntax.cons_token Syntax.TDoubleSlash (Syntax.lex f r).
Proof. reflexivity. Qed.

Ltac lex_with_double n :=
  solve [apply (lex_mono n);
         [ unfold binary_text, parenthesized; rewrite ?of_Z_neg;
           rewrite ?append_assoc; cbn [append];
           repeat first
             [ rewrite lex_blank | rewrite lex_lpar | rewrite lex_rpar
             | rewrite lex_minus | rewrite lex_double_star | rewrite lex_double_slash
             | rewrite lex_end
             | rewrite lex_natural by (try lia; try assumption; reflexivity) ];
           cbn [Syntax.cons_token]; reflexivity
         | length_bound ]].

Ltac parse_binary_double a b Ha Hb :=
  unfold ast_parse;
  destruct a as [|p|p], b as [|q|q]; rewrite ?digits_neg in Ha, Hb;
    (erewrite parse_fragment_tree;
     [ reflexivity
     | apply binary_text_in_alphabet; reflexivity
     | first [lex_with_double 10%nat | lex_with_double 11%nat | lex_with_double 12%nat]
     | reflexivity
     | reflexivity ]).

Lemma ast_parse_power (py : PyLib) (a b : Z) :
  (digits a <= 640)%nat -> (digits b <= 640)%nat ->
  ast_parse py (binary_text a " ** " b) = Ok (BinOp (literal a) Pow (literal b)).
Proof. intros Ha Hb. parse_binary_double a b Ha Hb. Qed.

Lemma ast_parse_floor_quotient (py : PyLib) (a b : Z) :
  (digits a <= 640)%nat -> (digits b <= 640)%nat ->
  ast_parse py (binary_text a " // " b)
  = Ok (BinOp (literal a) (OtherOperator "FloorDiv") (literal b)).
Proof. intros Ha Hb. parse_binary_double a b Ha Hb. Qed.

(** X21: of the operators that the validation lets through, [**] is
    evaluated and [//] is not: with [x] and [y] bound to integers, [x ** y]
    gives the exact power when [y] is not negative, and [x // y] raises a
    [ValueError] that names the operator, whatever the integers. *)
Theorem power_and_floor_division (py : PyLib) (a b : Z) :
  (digits a <= 640)%nat -> (digits b <= 640)%nat ->
  let bindings := Some [("x", PyNum (PyInt a)); ("y", PyNum (PyInt b))] in
  (0 <= b -> compute_formula py "x ** y" bindings = Ok (Number (PyInt (a ^ b))))
  /\ compute_formula py "x // y" bindings
     = raise ValueError
         ("Value Error occurred in " ++ binary_text a " // " b
          ++ ": Unsupported operator: FloorDiv").
Proof.
  intros Ha Hb bindings. unfold bindings.
  change "x ** y" with ("x" ++ " ** " ++ "y").
  change "x // y" with ("x" ++ " // " ++ "y").
  split.
  - intros Hpos.
    rewrite (compute_binary py " ** " a b Ha Hb) by reflexivity.
    apply (evaluate_formula_plain py _ _ _ (binary_text_no_letter a b " ** " eq_refl)
             (ast_parse_power py a b Ha Hb)).
    rewrite literal_binop. cbn [apply_operator]. unfold binop. cbn [Num.as_real int_binop].
    apply Z.leb_le in Hpos. rewrite Hpos. reflexivity.
  - rewrite (compute_binary py " // " a b Ha Hb) by reflexivity.
    rewrite (evaluate_formula_plain_raise py _ _
               (mk_exn ValueError "Unsupported operator: FloorDiv")
               (binary_text_no_letter a b " // " eq_refl)
               (ast_parse_floor_quotient py a b Ha Hb)).
    + unfold formula_handler, evaluate_handler. cbn [exn_class exn_msg].
      change (Str.contains "math domain error"
                (Str.lower "Unsupported operator: FloorDiv")) with false.
      reflexivity.
    + rewrite literal_binop. reflexivity.
Qed.

Lemma power_and_floor_division_witness :
  compute_formula bare_runtime "x ** y"
    (Some [("x", PyNum (PyInt (-2))); ("y", PyNum (PyInt 3))])
  = Ok (Number (PyInt ((-2) ^ 3))).
Proof.
  apply (proj1 (power_and_floor_division bare_runtime (-2) 3
                  ltac:(apply Nat.leb_le; reflexivity)
                  ltac:(apply Nat.leb_le; reflexivity))).
  discriminate.
Defined.
